(** * The ext4 superblock manager of fs/ext4/super.c

    A shallow embedding of the mount-time code of [fs/ext4/super.c]:
    feature gate, group-descriptor verification and checksum, error
    reporting, superblock commit, orphan cleanup, [ext4_setup_super] and
    the failure path of [ext4_remount].

    Every C function becomes a computation in the monad [K] below, which
    threads the one mounted volume ([super_block] and what hangs off it),
    the kernel log, the clock and the trace of block I/O, and which can
    end in a kernel panic.  Little-endian on-disk fields are kept as their
    numeric values, so [cpu_to_le32] and friends only truncate.  The file
    models the build without CONFIG_QUOTA. *)

From Stdlib Require Import ZArith Lia String Ascii.
From stdpp Require Import base list gmap.

Open Scope Z_scope.

(** ** Machine integers *)

Definition u8 (x : Z) : Z := x mod 2 ^ 8.
Definition u16 (x : Z) : Z := x mod 2 ^ 16.
Definition u32 (x : Z) : Z := x mod 2 ^ 32.
Definition u64 (x : Z) : Z := x mod 2 ^ 64.

(** [(__s16) x] and [(int) x]. *)
Definition s16 (x : Z) : Z :=
  let y := u16 x in if y <? 2 ^ 15 then y else y - 2 ^ 16.
Definition s32 (x : Z) : Z :=
  let y := u32 x in if y <? 2 ^ 31 then y else y - 2 ^ 32.

Definition cpu_to_le16 := u16.
Definition cpu_to_le32 := u32.
Definition cpu_to_le64 := u64.
Definition le16_to_cpu (x : Z) : Z := x.
Definition le32_to_cpu (x : Z) : Z := x.
Definition le64_to_cpu (x : Z) : Z := x.

(** C truth value of an integer. *)
Definition nz (x : Z) : bool := negb (x =? 0).

(** A byte is a [Z] in [0, 256). *)
Definition is_byte (b : Z) : Prop := 0 <= b < 256.

(** The four bytes of a [__le32] in memory order. *)
Definition le32_bytes (x : Z) : list Z :=
  [u8 x; u8 (x ≫ 8); u8 (x ≫ 16); u8 (x ≫ 24)].

(** [len] bytes of memory starting [off] bytes into the object [p]. *)
Definition mem_read (p : list Z) (off len : Z) : list Z :=
  take (Z.to_nat len) (drop (Z.to_nat off) p).

(** [strncpy(dst, src, n)] into an [n]-byte array: the characters of [src]
    up to its terminator, then padding with NUL. *)
Fixpoint strncpy (n : nat) (src : string) : string :=
  match n with
  | O => EmptyString
  | S n' =>
    match src with
    | EmptyString => String zero (strncpy n' EmptyString)
    | String c src' =>
      if Ascii.eqb c zero then String zero (strncpy n' EmptyString)
      else String c (strncpy n' src')
    end
  end.

(** ** Record update *)

Class Setter {R T : Type} (proj : R -> T) := set : (T -> T) -> R -> R.
Arguments set {R T} proj {Setter} f r.

Ltac mk_setter eta :=
  lazymatch goal with
  | |- @Setter ?R ?T ?proj =>
    let f := fresh "f" in
    let r := fresh "r" in
    intros f r;
    let e := eval unfold eta in (eta r) in
    let e := eval cbv beta in e in
    lazymatch eval pattern (proj r) in e with
    | ?g _ => let g' := eval cbv beta in (g (f (proj r))) in exact g'
    end
  end.

Notation "r <| p := v |>" := (set p (fun _ => v) r)
  (at level 1, left associativity, format "r  <| p  :=  v |>").
Notation "r <| p ::= f |>" := (set p f r)
  (at level 1, left associativity, format "r  <| p  ::=  f |>").

(** ** What the headers provide

    [fs/ext4/ext4.h], [linux/fs.h], [linux/jbd2.h], [linux/errno.h] and
    [lib/crc16.c] are not among the sources.  The constants they define,
    the layout of [struct ext4_group_desc], the build configuration and
    the [crc16] routine are parameters of the development. *)

Class Ext4Headers := {
  (* linux/fs.h *)
  MS_RDONLY : Z;
  MS_POSIXACL : Z;
  MS_I_VERSION : Z;
  (* feature bits, ext4.h *)
  EXT4_FEATURE_INCOMPAT_SUPP : Z;
  EXT4_FEATURE_RO_COMPAT_SUPP : Z;
  EXT4_FEATURE_RO_COMPAT_HUGE_FILE : Z;
  EXT4_FEATURE_RO_COMPAT_BIGALLOC : Z;
  EXT4_FEATURE_RO_COMPAT_GDT_CSUM : Z;
  EXT4_FEATURE_INCOMPAT_EXTENTS : Z;
  EXT4_FEATURE_INCOMPAT_64BIT : Z;
  EXT4_FEATURE_INCOMPAT_FLEX_BG : Z;
  EXT4_FEATURE_INCOMPAT_RECOVER : Z;
  EXT4_FEATURE_INCOMPAT_MMP : Z;
  (* sizeof(blkcnt_t) < sizeof(u64), i.e. a build without CONFIG_LBDAF *)
  blkcnt_t_is_narrow : bool;
  (* superblock states and mount flags, ext4.h *)
  EXT4_VALID_FS : Z;
  EXT4_ERROR_FS : Z;
  EXT4_MF_FS_ABORTED : Z;
  (* revisions, ext4.h *)
  EXT4_GOOD_OLD_REV : Z;
  EXT4_DYNAMIC_REV : Z;
  EXT4_MAX_SUPP_REV : Z;
  EXT4_GOOD_OLD_FIRST_INO : Z;
  EXT4_GOOD_OLD_INODE_SIZE : Z;
  EXT4_DFL_MAX_MNT_COUNT : Z;
  (* group descriptors, ext4.h *)
  EXT4_BG_INODE_ZEROED : Z;
  EXT4_MIN_DESC_SIZE_64BIT : Z;
  offsetof_bg_block_bitmap_lo : Z;
  offsetof_bg_inode_bitmap_lo : Z;
  offsetof_bg_inode_table_lo : Z;
  offsetof_bg_flags : Z;
  offsetof_bg_checksum : Z;
  offsetof_bg_block_bitmap_hi : Z;
  offsetof_bg_inode_bitmap_hi : Z;
  offsetof_bg_inode_table_hi : Z;
  (* mount options, ext4.h *)
  EXT4_MOUNT_GRPID : Z;
  EXT4_MOUNT_DEBUG : Z;
  EXT4_MOUNT_ERRORS_CONT : Z;
  EXT4_MOUNT_ERRORS_RO : Z;
  EXT4_MOUNT_ERRORS_PANIC : Z;
  EXT4_MOUNT_ERRORS_MASK : Z;
  EXT4_MOUNT_MINIX_DF : Z;
  EXT4_MOUNT_NOLOAD : Z;
  EXT4_MOUNT_DATA_FLAGS : Z;
  EXT4_MOUNT_JOURNAL_DATA : Z;
  EXT4_MOUNT_ORDERED_DATA : Z;
  EXT4_MOUNT_WRITEBACK_DATA : Z;
  EXT4_MOUNT_NO_UID32 : Z;
  EXT4_MOUNT_XATTR_USER : Z;
  EXT4_MOUNT_POSIX_ACL : Z;
  EXT4_MOUNT_NO_AUTO_DA_ALLOC : Z;
  EXT4_MOUNT_BARRIER : Z;
  EXT4_MOUNT_DIOREAD_NOLOCK : Z;
  EXT4_MOUNT_JOURNAL_CHECKSUM : Z;
  EXT4_MOUNT_JOURNAL_ASYNC_COMMIT : Z;
  EXT4_MOUNT_MBLK_IO_SUBMIT : Z;
  EXT4_MOUNT_DELALLOC : Z;
  EXT4_MOUNT_DATA_ERR_ABORT : Z;
  EXT4_MOUNT_BLOCK_VALIDITY : Z;
  EXT4_MOUNT_DISCARD : Z;
  EXT4_MOUNT_INIT_INODE_TABLE : Z;
  EXT4_MOUNT_QUOTA : Z;
  EXT4_MOUNT_USRQUOTA : Z;
  EXT4_MOUNT_GRPQUOTA : Z;
  QFMT_VFS_OLD : Z;
  QFMT_VFS_V0 : Z;
  QFMT_VFS_V1 : Z;
  EXT4_MOUNT2_EXPLICIT_DELALLOC : Z;
  EXT4_DEF_MAX_BATCH_TIME : Z;
  EXT4_DEF_LI_WAIT_MULT : Z;
  CONFIG_EXT4_FS_XATTR : bool;
  CONFIG_EXT4_FS_POSIX_ACL : bool;
  (* linux/jbd2.h *)
  JBD2_ABORT : Z;
  JBD2_BARRIER : Z;
  JBD2_REC_ERR : Z;
  JBD2_ABORT_ON_SYNCDATA_ERR : Z;
  JBD2_DEFAULT_MAX_COMMIT_AGE : Z;
  (* sizeof of the function-name arrays of the superblock's error record *)
  sizeof_s_error_func : Z;
  (* the width of unsigned long *)
  BITS_PER_LONG : Z;
  (* errno, timer tick, page and block sizes, I/O priorities *)
  EINVAL : Z;
  EROFS : Z;
  EIO : Z;
  HZ : Z;
  BLOCK_SIZE : Z;
  PAGE_CACHE_SIZE : Z;
  IOPRIO_CLASS_BE : Z;
  IOPRIO_PRIO_VALUE : Z -> Z -> Z;
  (* lib/crc16.c: crc16(crc, buffer, len), the buffer given as its bytes *)
  crc16 : Z -> list Z -> Z;
}.

(** ** Data *)

#[local] Set Primitive Projections.

(** The fields of [struct ext4_super_block] that the code below touches. *)
Record ext4_super_block := {
  s_blocks_count_lo : Z;
  s_blocks_count_hi : Z;
  s_free_blocks_count_lo : Z;
  s_free_blocks_count_hi : Z;
  s_free_inodes_count : Z;
  s_first_data_block : Z;
  s_log_block_size : Z;
  s_mtime : Z;
  s_wtime : Z;
  s_mnt_count : Z;
  s_max_mnt_count : Z;
  s_state : Z;
  s_lastcheck : Z;
  s_checkinterval : Z;
  s_rev_level : Z;
  s_first_ino : Z;
  s_inode_size : Z;
  s_feature_compat : Z;
  s_feature_incompat : Z;
  s_feature_ro_compat : Z;
  s_uuid : list Z;
  s_last_orphan : Z;
  s_desc_size : Z;
  s_kbytes_written : Z;
  s_error_count : Z;
  s_first_error_time : Z;
  s_first_error_ino : Z;
  s_first_error_block : Z;
  s_first_error_func : string;
  s_first_error_line : Z;
  s_last_error_time : Z;
  s_last_error_ino : Z;
  s_last_error_line : Z;
  s_last_error_block : Z;
  s_last_error_func : string;
}.

Definition es_eta (r : ext4_super_block) : ext4_super_block :=
  Build_ext4_super_block
    (s_blocks_count_lo r) (s_blocks_count_hi r) (s_free_blocks_count_lo r)
    (s_free_blocks_count_hi r) (s_free_inodes_count r) (s_first_data_block r)
    (s_log_block_size r) (s_mtime r) (s_wtime r) (s_mnt_count r)
    (s_max_mnt_count r) (s_state r) (s_lastcheck r) (s_checkinterval r)
    (s_rev_level r) (s_first_ino r) (s_inode_size r) (s_feature_compat r)
    (s_feature_incompat r) (s_feature_ro_compat r) (s_uuid r)
    (s_last_orphan r) (s_desc_size r) (s_kbytes_written r) (s_error_count r)
    (s_first_error_time r) (s_first_error_ino r) (s_first_error_block r)
    (s_first_error_func r) (s_first_error_line r) (s_last_error_time r)
    (s_last_error_ino r) (s_last_error_line r) (s_last_error_block r)
    (s_last_error_func r).

#[global] Instance set_s_free_blocks_count_lo : Setter s_free_blocks_count_lo := ltac:(mk_setter es_eta).
#[global] Instance set_s_free_blocks_count_hi : Setter s_free_blocks_count_hi := ltac:(mk_setter es_eta).
#[global] Instance set_s_free_inodes_count : Setter s_free_inodes_count := ltac:(mk_setter es_eta).
#[global] Instance set_s_mtime : Setter s_mtime := ltac:(mk_setter es_eta).
#[global] Instance set_s_wtime : Setter s_wtime := ltac:(mk_setter es_eta).
#[global] Instance set_s_mnt_count : Setter s_mnt_count := ltac:(mk_setter es_eta).
#[global] Instance set_s_max_mnt_count : Setter s_max_mnt_count := ltac:(mk_setter es_eta).
#[global] Instance set_s_state : Setter s_state := ltac:(mk_setter es_eta).
#[global] Instance set_s_rev_level : Setter s_rev_level := ltac:(mk_setter es_eta).
#[global] Instance set_s_first_ino : Setter s_first_ino := ltac:(mk_setter es_eta).
#[global] Instance set_s_inode_size : Setter s_inode_size := ltac:(mk_setter es_eta).
#[global] Instance set_s_feature_compat : Setter s_feature_compat := ltac:(mk_setter es_eta).
#[global] Instance set_s_feature_incompat : Setter s_feature_incompat := ltac:(mk_setter es_eta).
#[global] Instance set_s_feature_ro_compat : Setter s_feature_ro_compat := ltac:(mk_setter es_eta).
#[global] Instance set_s_uuid : Setter s_uuid := ltac:(mk_setter es_eta).
#[global] Instance set_s_last_orphan : Setter s_last_orphan := ltac:(mk_setter es_eta).
#[global] Instance set_s_kbytes_written : Setter s_kbytes_written := ltac:(mk_setter es_eta).
#[global] Instance set_s_error_count : Setter s_error_count := ltac:(mk_setter es_eta).
#[global] Instance set_s_first_error_time : Setter s_first_error_time := ltac:(mk_setter es_eta).
#[global] Instance set_s_first_error_ino : Setter s_first_error_ino := ltac:(mk_setter es_eta).
#[global] Instance set_s_first_error_block : Setter s_first_error_block := ltac:(mk_setter es_eta).
#[global] Instance set_s_first_error_func : Setter s_first_error_func := ltac:(mk_setter es_eta).
#[global] Instance set_s_first_error_line : Setter s_first_error_line := ltac:(mk_setter es_eta).
#[global] Instance set_s_last_error_time : Setter s_last_error_time := ltac:(mk_setter es_eta).
#[global] Instance set_s_last_error_ino : Setter s_last_error_ino := ltac:(mk_setter es_eta).
#[global] Instance set_s_last_error_line : Setter s_last_error_line := ltac:(mk_setter es_eta).
#[global] Instance set_s_last_error_block : Setter s_last_error_block := ltac:(mk_setter es_eta).
#[global] Instance set_s_last_error_func : Setter s_last_error_func := ltac:(mk_setter es_eta).

(** [struct buffer_head]: the state bits of the superblock's buffer. *)
Record buffer_head := {
  BH_Uptodate : bool;
  BH_Dirty : bool;
  BH_Write_EIO : bool;
}.

Definition bh_eta (r : buffer_head) : buffer_head :=
  Build_buffer_head (BH_Uptodate r) (BH_Dirty r) (BH_Write_EIO r).

#[global] Instance set_BH_Uptodate : Setter BH_Uptodate := ltac:(mk_setter bh_eta).
#[global] Instance set_BH_Dirty : Setter BH_Dirty := ltac:(mk_setter bh_eta).
#[global] Instance set_BH_Write_EIO : Setter BH_Write_EIO := ltac:(mk_setter bh_eta).

(** [journal_t], with the I/O priority of its commit thread
    ([j_task->io_context->ioprio], [None] when the thread has no
    [io_context]). *)
Record journal_t := {
  j_flags : Z;
  j_errno : Z;
  j_commit_interval : Z;
  j_min_batch_time : Z;
  j_max_batch_time : Z;
  j_task_ioprio : option Z;
}.

Definition journal_eta (r : journal_t) : journal_t :=
  Build_journal_t (j_flags r) (j_errno r) (j_commit_interval r)
    (j_min_batch_time r) (j_max_batch_time r) (j_task_ioprio r).

#[global] Instance set_j_flags : Setter j_flags := ltac:(mk_setter journal_eta).
#[global] Instance set_j_errno : Setter j_errno := ltac:(mk_setter journal_eta).
#[global] Instance set_j_commit_interval : Setter j_commit_interval := ltac:(mk_setter journal_eta).
#[global] Instance set_j_min_batch_time : Setter j_min_batch_time := ltac:(mk_setter journal_eta).
#[global] Instance set_j_max_batch_time : Setter j_max_batch_time := ltac:(mk_setter journal_eta).
#[global] Instance set_j_task_ioprio : Setter j_task_ioprio := ltac:(mk_setter journal_eta).

(** [struct timer_list]: [Some t] when armed to expire at jiffy [t]. *)
Definition timer_list := option Z.

(** [struct ext4_sb_info].  [sbi_s_desc_size] and [sbi_s_kbytes_written]
    are its [s_desc_size] and [s_kbytes_written] (the superblock record has
    fields of the same names); [s_orphan] holds the inode numbers on the
    in-memory orphan list; a group descriptor is the bytes of its slot. *)
Record ext4_sb_info := {
  sbi_s_desc_size : Z;
  s_blocks_per_group : Z;
  s_itb_per_group : Z;
  s_groups_count : Z;
  s_cluster_bits : Z;
  s_mount_opt : Z;
  s_mount_opt2 : Z;
  s_mount_flags : Z;
  s_mount_state : Z;
  s_resuid : Z;
  s_resgid : Z;
  s_commit_interval : Z;
  s_min_batch_time : Z;
  s_max_batch_time : Z;
  s_stripe : Z;
  s_inode_readahead_blks : Z;
  s_li_wait_mult : Z;
  sbi_s_kbytes_written : Z;
  s_sectors_written_start : Z;
  s_freeclusters_counter : Z;
  s_freeinodes_counter : Z;
  s_err_report : timer_list;
  s_orphan : list Z;
  s_group_desc : list (list Z);
  s_sbh : option buffer_head;
  s_journal : option journal_t;
  s_es : ext4_super_block;
}.

Definition sbi_eta (r : ext4_sb_info) : ext4_sb_info :=
  Build_ext4_sb_info
    (sbi_s_desc_size r) (s_blocks_per_group r) (s_itb_per_group r)
    (s_groups_count r) (s_cluster_bits r) (s_mount_opt r) (s_mount_opt2 r)
    (s_mount_flags r) (s_mount_state r) (s_resuid r) (s_resgid r)
    (s_commit_interval r) (s_min_batch_time r) (s_max_batch_time r)
    (s_stripe r) (s_inode_readahead_blks r) (s_li_wait_mult r)
    (sbi_s_kbytes_written r) (s_sectors_written_start r)
    (s_freeclusters_counter r) (s_freeinodes_counter r) (s_err_report r)
    (s_orphan r) (s_group_desc r) (s_sbh r) (s_journal r) (s_es r).

#[global] Instance set_s_mount_opt : Setter s_mount_opt := ltac:(mk_setter sbi_eta).
#[global] Instance set_s_mount_opt2 : Setter s_mount_opt2 := ltac:(mk_setter sbi_eta).
#[global] Instance set_s_mount_flags : Setter s_mount_flags := ltac:(mk_setter sbi_eta).
#[global] Instance set_s_mount_state : Setter s_mount_state := ltac:(mk_setter sbi_eta).
#[global] Instance set_s_resuid : Setter s_resuid := ltac:(mk_setter sbi_eta).
#[global] Instance set_s_resgid : Setter s_resgid := ltac:(mk_setter sbi_eta).
#[global] Instance set_s_commit_interval : Setter s_commit_interval := ltac:(mk_setter sbi_eta).
#[global] Instance set_s_min_batch_time : Setter s_min_batch_time := ltac:(mk_setter sbi_eta).
#[global] Instance set_s_max_batch_time : Setter s_max_batch_time := ltac:(mk_setter sbi_eta).
#[global] Instance set_s_stripe : Setter s_stripe := ltac:(mk_setter sbi_eta).
#[global] Instance set_s_inode_readahead_blks : Setter s_inode_readahead_blks := ltac:(mk_setter sbi_eta).
#[global] Instance set_s_li_wait_mult : Setter s_li_wait_mult := ltac:(mk_setter sbi_eta).
#[global] Instance set_s_err_report : Setter s_err_report := ltac:(mk_setter sbi_eta).
#[global] Instance set_s_orphan : Setter s_orphan := ltac:(mk_setter sbi_eta).
#[global] Instance set_s_group_desc : Setter s_group_desc := ltac:(mk_setter sbi_eta).
#[global] Instance set_s_sbh : Setter s_sbh := ltac:(mk_setter sbi_eta).
#[global] Instance set_s_journal : Setter s_journal := ltac:(mk_setter sbi_eta).
#[global] Instance set_s_es : Setter s_es := ltac:(mk_setter sbi_eta).

(** [struct block_device] as far as the superblock code looks into it:
    what [bdev_read_only] answers, whether the backing device info still
    has its [dev] (it loses it when the disk is removed), and the sectors
    written to the partition ([part_stat_read(bd_part, sectors[1])]) when
    there is a [bd_part]. *)
Record block_device := {
  bd_read_only : bool;
  bdi_dev : bool;
  bd_part : option Z;
}.

Definition bdev_eta (r : block_device) : block_device :=
  Build_block_device (bd_read_only r) (bdi_dev r) (bd_part r).

#[global] Instance set_bd_read_only : Setter bd_read_only := ltac:(mk_setter bdev_eta).
#[global] Instance set_bdi_dev : Setter bdi_dev := ltac:(mk_setter bdev_eta).
#[global] Instance set_bd_part : Setter bd_part := ltac:(mk_setter bdev_eta).

(** [struct super_block]. *)
Record super_block := {
  s_flags : Z;
  s_dirt : Z;
  s_bdev : block_device;
  s_fs_info : ext4_sb_info;
}.

Definition sb_eta (r : super_block) : super_block :=
  Build_super_block (s_flags r) (s_dirt r) (s_bdev r) (s_fs_info r).

#[global] Instance set_s_flags : Setter s_flags := ltac:(mk_setter sb_eta).
#[global] Instance set_s_dirt : Setter s_dirt := ltac:(mk_setter sb_eta).
#[global] Instance set_s_bdev : Setter s_bdev := ltac:(mk_setter sb_eta).
#[global] Instance set_s_fs_info : Setter s_fs_info := ltac:(mk_setter sb_eta).

(** An on-disk inode as orphan processing sees it; [i_next_orphan] is
    [NEXT_ORPHAN(inode)]. *)
Record inode := {
  i_nlink : Z;
  i_size : Z;
  i_next_orphan : Z;
}.

(** An argument of a log line. *)
Inductive karg :=
  | KInt (z : Z)
  | KStr (s : string).

(** A line of the kernel log: level, format, arguments. *)
Record kmsg := {
  km_level : string;
  km_fmt : string;
  km_args : list karg;
}.

(** What reaches the storage below the filesystem. *)
Inductive io_event :=
  | EvMarkDirty (es : ext4_super_block)
  | EvSyncWrite (es : ext4_super_block)
  | EvTruncate (ino : Z) (size : Z)
  | EvDelete (ino : Z).

(** The machine: the mounted volume, the log, the clock ([get_seconds()]
    and [jiffies]), the inodes on disk, the I/O trace, and how the device
    answers a synchronous write of the superblock buffer (the return value
    of [sync_dirty_buffer] and whether the write leaves [BH_Write_EIO]). *)
Record kernel := {
  k_sb : super_block;
  k_log : list kmsg;
  k_seconds : Z;
  k_jiffies : Z;
  k_inodes : gmap Z inode;
  k_trace : list io_event;
  k_sync_result : Z;
  k_write_fails : bool;
}.

Definition kernel_eta (r : kernel) : kernel :=
  Build_kernel (k_sb r) (k_log r) (k_seconds r) (k_jiffies r) (k_inodes r)
    (k_trace r) (k_sync_result r) (k_write_fails r).

#[global] Instance set_k_sb : Setter k_sb := ltac:(mk_setter kernel_eta).
#[global] Instance set_k_log : Setter k_log := ltac:(mk_setter kernel_eta).
#[global] Instance set_k_inodes : Setter k_inodes := ltac:(mk_setter kernel_eta).
#[global] Instance set_k_trace : Setter k_trace := ltac:(mk_setter kernel_eta).

(** Shorthands for the pointer chains [EXT4_SB(sb)] and [EXT4_SB(sb)->s_es]. *)
Definition k_sbi (k : kernel) : ext4_sb_info := s_fs_info (k_sb k).
Definition k_es (k : kernel) : ext4_super_block := s_es (k_sbi k).

Definition upd_sb (f : super_block -> super_block) (k : kernel) : kernel :=
  k <| k_sb ::= f |>.
Definition upd_sbi (f : ext4_sb_info -> ext4_sb_info) (k : kernel) : kernel :=
  upd_sb (fun sb => sb <| s_fs_info ::= f |>) k.
Definition upd_es (f : ext4_super_block -> ext4_super_block) (k : kernel) : kernel :=
  upd_sbi (fun sbi => sbi <| s_es ::= f |>) k.

(** ** The monad *)

Inductive outcome (A : Type) :=
  | Returned (a : A) (k : kernel)
  | Panicked (k : kernel).
Arguments Returned {A} a k.
Arguments Panicked {A} k.

Definition K (A : Type) : Type := kernel -> outcome A.

#[global] Instance K_ret : MRet K := fun A a k => Returned a k.
#[global] Instance K_bind : MBind K := fun A B f m k =>
  match m k with
  | Returned a k' => f a k'
  | Panicked k' => Panicked k'
  end.

Definition get_kernel : K kernel := fun k => Returned k k.
Definition gets {A} (f : kernel -> A) : K A := fun k => Returned (f k) k.
Definition modify (f : kernel -> kernel) : K unit := fun k => Returned tt (f k).
Definition panic : K unit := fun k => Panicked k.

(** The value a computation returns, and the machine it leaves. *)
Definition retval {A} (o : outcome A) : option A :=
  match o with Returned a _ => Some a | Panicked _ => None end.
Definition final {A} (o : outcome A) : kernel :=
  match o with Returned _ k => k | Panicked k => k end.
Definition panicked {A} (o : outcome A) : bool :=
  match o with Returned _ _ => false | Panicked _ => true end.

Definition KERN_ERR : string := "<3>".
Definition KERN_CRIT : string := "<2>".
Definition KERN_WARNING : string := "<4>".
Definition KERN_INFO : string := "<6>".
Definition KERN_DEBUG : string := "<7>".

Definition printk (lvl fmt : string) (args : list karg) : K unit :=
  modify (fun k => k <| k_log ::= fun l => l ++ [Build_kmsg lvl fmt args] |>).

(** [ext4_msg(sb, prefix, fmt, ...)]. *)
Definition ext4_msg (prefix fmt : string) (args : list karg) : K unit :=
  printk prefix fmt args.

(** Functions of other files of fs/ext4 that the superblock code calls and
    whose code is not among the sources ([balloc.c], [ialloc.c]): the sums
    of the free clusters and of the free inodes over the group
    descriptors. *)
Class Ext4Collaborators := {
  ext4_count_free_clusters : kernel -> Z;
  ext4_count_free_inodes : kernel -> Z;
}.

(** What [ext4_remount] calls once it has decided to go ahead, none of it
    modelled here: journal recovery bookkeeping
    ([ext4_mark_recovery_complete], [ext4_clear_journal_err]),
    multi-mount protection (mmp.c), the lazy-initialisation requests and
    the system zone (block_validity.c); and [set_task_ioprio] of
    fs/ioprio.c, whose permission checks look at the calling process and
    which acts on the journal's commit thread only. *)
Class RemountCollaborators := {
  set_task_ioprio : journal_t -> Z -> journal_t;
  ext4_mark_recovery_complete : K unit;
  ext4_clear_journal_err : K unit;
  ext4_multi_mount_protect : K Z;
  ext4_unregister_li_request : K unit;
  ext4_has_uninit_itable : kernel -> Z;
  ext4_register_li_request : Z -> K Z;
  ext4_setup_system_zone : K Z;
}.

(** ** Mount options as the parser hands them over *)

(** The tokens of [enum { Opt_bsd_df, ... }]. *)
Inductive opt_token :=
  | Opt_bsd_df | Opt_minix_df | Opt_grpid | Opt_nogrpid
  | Opt_resgid | Opt_resuid | Opt_sb | Opt_err_cont | Opt_err_panic | Opt_err_ro
  | Opt_nouid32 | Opt_debug | Opt_removed
  | Opt_user_xattr | Opt_nouser_xattr | Opt_acl | Opt_noacl
  | Opt_auto_da_alloc | Opt_noauto_da_alloc | Opt_noload
  | Opt_commit | Opt_min_batch_time | Opt_max_batch_time
  | Opt_journal_dev | Opt_journal_checksum | Opt_journal_async_commit
  | Opt_abort | Opt_data_journal | Opt_data_ordered | Opt_data_writeback
  | Opt_data_err_abort | Opt_data_err_ignore
  | Opt_usrjquota | Opt_grpjquota | Opt_offusrjquota | Opt_offgrpjquota
  | Opt_jqfmt_vfsold | Opt_jqfmt_vfsv0 | Opt_jqfmt_vfsv1 | Opt_quota
  | Opt_noquota | Opt_barrier | Opt_nobarrier | Opt_err
  | Opt_usrquota | Opt_grpquota | Opt_i_version
  | Opt_stripe | Opt_delalloc | Opt_nodelalloc | Opt_mblk_io_submit
  | Opt_nomblk_io_submit | Opt_block_validity | Opt_noblock_validity
  | Opt_inode_readahead_blks | Opt_journal_ioprio
  | Opt_dioread_nolock | Opt_dioread_lock
  | Opt_discard | Opt_nodiscard | Opt_init_itable | Opt_noinit_itable.

(** The value of an enumerator. *)
Definition opt_code (t : opt_token) : Z :=
  match t with
  | Opt_bsd_df => 0 | Opt_minix_df => 1 | Opt_grpid => 2 | Opt_nogrpid => 3
  | Opt_resgid => 4 | Opt_resuid => 5 | Opt_sb => 6 | Opt_err_cont => 7
  | Opt_err_panic => 8 | Opt_err_ro => 9 | Opt_nouid32 => 10 | Opt_debug => 11
  | Opt_removed => 12 | Opt_user_xattr => 13 | Opt_nouser_xattr => 14
  | Opt_acl => 15 | Opt_noacl => 16 | Opt_auto_da_alloc => 17
  | Opt_noauto_da_alloc => 18 | Opt_noload => 19 | Opt_commit => 20
  | Opt_min_batch_time => 21 | Opt_max_batch_time => 22 | Opt_journal_dev => 23
  | Opt_journal_checksum => 24 | Opt_journal_async_commit => 25
  | Opt_abort => 26 | Opt_data_journal => 27 | Opt_data_ordered => 28
  | Opt_data_writeback => 29 | Opt_data_err_abort => 30
  | Opt_data_err_ignore => 31 | Opt_usrjquota => 32 | Opt_grpjquota => 33
  | Opt_offusrjquota => 34 | Opt_offgrpjquota => 35 | Opt_jqfmt_vfsold => 36
  | Opt_jqfmt_vfsv0 => 37 | Opt_jqfmt_vfsv1 => 38 | Opt_quota => 39
  | Opt_noquota => 40 | Opt_barrier => 41 | Opt_nobarrier => 42 | Opt_err => 43
  | Opt_usrquota => 44 | Opt_grpquota => 45 | Opt_i_version => 46
  | Opt_stripe => 47 | Opt_delalloc => 48 | Opt_nodelalloc => 49
  | Opt_mblk_io_submit => 50 | Opt_nomblk_io_submit => 51
  | Opt_block_validity => 52 | Opt_noblock_validity => 53
  | Opt_inode_readahead_blks => 54 | Opt_journal_ioprio => 55
  | Opt_dioread_nolock => 56 | Opt_dioread_lock => 57 | Opt_discard => 58
  | Opt_nodiscard => 59 | Opt_init_itable => 60 | Opt_noinit_itable => 61
  end.

Definition token_eqb (a b : opt_token) : bool := opt_code a =? opt_code b.

(** The argument [match_token] found for an option: none ([args->from] is
    NULL), an integer that [match_int] could read, or text that it could
    not. *)
Inductive mount_arg :=
  | NoArg
  | IntArg (v : Z)
  | BadArg.

(** One non-empty, comma-separated option: its text and what
    [match_token(p, tokens, args)] of lib/parser.c makes of it. *)
Record mount_option := {
  mo_text : string;
  mo_token : opt_token;
  mo_arg : mount_arg;
}.

(** [struct mount_opts], a row of [ext4_mount_opts]. *)
Record mount_opts := {
  m_token : opt_token;
  m_mount_opt : Z;
  m_flags : Z;
}.

Definition MOPT_SET : Z := 0x0001.
Definition MOPT_CLEAR : Z := 0x0002.
Definition MOPT_NOSUPPORT : Z := 0x0004.
Definition MOPT_EXPLICIT : Z := 0x0008.
Definition MOPT_CLEAR_ERR : Z := 0x0010.
Definition MOPT_GTE0 : Z := 0x0020.
(* without CONFIG_QUOTA *)
Definition MOPT_Q : Z := MOPT_NOSUPPORT.
Definition MOPT_QFMT : Z := MOPT_NOSUPPORT.
Definition MOPT_DATAJ : Z := 0x0080.

(** [struct ext4_mount_options], the snapshot [ext4_remount] takes. *)
Record ext4_mount_options := {
  old_s_mount_opt : Z;
  old_s_mount_opt2 : Z;
  old_s_resuid : Z;
  old_s_resgid : Z;
  old_s_commit_interval : Z;
  old_s_min_batch_time : Z;
  old_s_max_batch_time : Z;
}.

Section Ext4.
Context `{Ext4Headers} `{Ext4Collaborators} `{RemountCollaborators}.

(** [(unsigned long) x]. *)
Definition ulong (x : Z) : Z := x mod 2 ^ BITS_PER_LONG.

(** ** Accessor macros of ext4.h *)

(** Modelled from the spec: [EXT4_HAS_COMPAT_FEATURE],
    [EXT4_HAS_INCOMPAT_FEATURE] and [EXT4_HAS_RO_COMPAT_FEATURE] of ext4.h,
    which is not among the sources; per the spec's design notes they are
    raw bitmask tests on the superblock's three feature bitsets. *)
Definition EXT4_HAS_COMPAT_FEATURE (k : kernel) (mask : Z) : bool :=
  nz (Z.land (s_feature_compat (k_es k)) (cpu_to_le32 mask)).
Definition EXT4_HAS_INCOMPAT_FEATURE (k : kernel) (mask : Z) : bool :=
  nz (Z.land (s_feature_incompat (k_es k)) (cpu_to_le32 mask)).
Definition EXT4_HAS_RO_COMPAT_FEATURE (k : kernel) (mask : Z) : bool :=
  nz (Z.land (s_feature_ro_compat (k_es k)) (cpu_to_le32 mask)).

(** Modelled from the spec: [test_opt], [set_opt], [clear_opt] and their
    [...2] variants of ext4.h (not among the sources), the bitmask
    accessors of the mount-option words. *)
Definition test_opt (k : kernel) (opt : Z) : Z :=
  Z.land (s_mount_opt (k_sbi k)) opt.
Definition test_opt2 (k : kernel) (opt : Z) : Z :=
  Z.land (s_mount_opt2 (k_sbi k)) opt.
Definition set_opt (opt : Z) : K unit :=
  modify (upd_sbi (fun sbi => sbi <| s_mount_opt ::= fun o => Z.lor o opt |>)).
Definition clear_opt (opt : Z) : K unit :=
  modify (upd_sbi (fun sbi =>
    sbi <| s_mount_opt ::= fun o => Z.land o (Z.lnot opt) |>)).
Definition set_opt2 (opt : Z) : K unit :=
  modify (upd_sbi (fun sbi => sbi <| s_mount_opt2 ::= fun o => Z.lor o opt |>)).

(** ** Feature gate: [ext4_feature_set_ok] *)

Definition ext4_feature_set_ok (readonly : Z) : K Z :=
  k ← get_kernel;
  if EXT4_HAS_INCOMPAT_FEATURE k (Z.lnot EXT4_FEATURE_INCOMPAT_SUPP) then
    ext4_msg KERN_ERR
      "Couldn't mount because of unsupported optional features (%x)"
      [KInt (Z.land (le32_to_cpu (s_feature_incompat (k_es k)))
                    (Z.lnot EXT4_FEATURE_INCOMPAT_SUPP))];;
    mret 0
  else if nz readonly then mret 1
  else if EXT4_HAS_RO_COMPAT_FEATURE k (Z.lnot EXT4_FEATURE_RO_COMPAT_SUPP) then
    (* Check that feature set is OK for a read-write mount *)
    ext4_msg KERN_ERR
      "couldn't mount RDWR because of unsupported optional features (%x)"
      [KInt (Z.land (le32_to_cpu (s_feature_ro_compat (k_es k)))
                    (Z.lnot EXT4_FEATURE_RO_COMPAT_SUPP))];;
    mret 0
  else if EXT4_HAS_RO_COMPAT_FEATURE k EXT4_FEATURE_RO_COMPAT_HUGE_FILE
          && blkcnt_t_is_narrow then
    ext4_msg KERN_ERR
      "Filesystem with huge files cannot be mounted RDWR without CONFIG_LBDAF"
      [];;
    mret 0
  else if EXT4_HAS_RO_COMPAT_FEATURE k EXT4_FEATURE_RO_COMPAT_BIGALLOC
          && negb (EXT4_HAS_INCOMPAT_FEATURE k EXT4_FEATURE_INCOMPAT_EXTENTS) then
    ext4_msg KERN_ERR
      "Can't support bigalloc feature without extents feature\n" [];;
    mret 0
  else mret 1.

(** ** Group descriptors *)

(** A little-endian field of [width] bytes at byte [off] of the object [p];
    memory past the end of [p] reads as zero. *)
Definition byte_at (p : list Z) (off : Z) : Z :=
  default 0 (p !! Z.to_nat off).
Definition get_le16 (p : list Z) (off : Z) : Z :=
  Z.lor (byte_at p off) (byte_at p (off + 1) ≪ 8).
Definition get_le32 (p : list Z) (off : Z) : Z :=
  Z.lor (get_le16 p off) (get_le16 p (off + 2) ≪ 16).

Definition bg_block_bitmap_lo (bg : list Z) := get_le32 bg offsetof_bg_block_bitmap_lo.
Definition bg_inode_bitmap_lo (bg : list Z) := get_le32 bg offsetof_bg_inode_bitmap_lo.
Definition bg_inode_table_lo (bg : list Z) := get_le32 bg offsetof_bg_inode_table_lo.
Definition bg_flags (bg : list Z) := get_le16 bg offsetof_bg_flags.
Definition bg_checksum (bg : list Z) := get_le16 bg offsetof_bg_checksum.
Definition bg_block_bitmap_hi (bg : list Z) := get_le32 bg offsetof_bg_block_bitmap_hi.
Definition bg_inode_bitmap_hi (bg : list Z) := get_le32 bg offsetof_bg_inode_bitmap_hi.
Definition bg_inode_table_hi (bg : list Z) := get_le32 bg offsetof_bg_inode_table_hi.

(** Modelled from the spec: [EXT4_DESC_SIZE], [EXT4_BLOCKS_PER_GROUP],
    [ext4_blocks_count], [ext4_free_blocks_count_set] and [EXT4_C2B] of
    ext4.h (not among the sources): the derived geometry kept in the mount
    context, the 64-bit block counts split in two 32-bit halves, and the
    cluster-to-block shift. *)
Definition EXT4_DESC_SIZE (k : kernel) : Z := sbi_s_desc_size (k_sbi k).
Definition EXT4_BLOCKS_PER_GROUP (k : kernel) : Z := s_blocks_per_group (k_sbi k).
Definition ext4_blocks_count (es : ext4_super_block) : Z :=
  Z.lor (u64 (le32_to_cpu (s_blocks_count_hi es) ≪ 32))
        (le32_to_cpu (s_blocks_count_lo es)).
Definition ext4_free_blocks_count_set (blk : Z) (es : ext4_super_block)
  : ext4_super_block :=
  es <| s_free_blocks_count_lo := cpu_to_le32 (u32 blk) |>
     <| s_free_blocks_count_hi := cpu_to_le32 (blk ≫ 32) |>.
Definition EXT4_C2B (sbi : ext4_sb_info) (cluster : Z) : Z :=
  u64 (cluster ≪ s_cluster_bits sbi).

(** Modelled from the spec: [percpu_counter_sum_positive] of
    linux/percpu_counter.h, the authoritative runtime counter read as a
    non-negative number. *)
Definition percpu_counter_sum_positive (c : Z) : Z := Z.max c 0.

(** Modelled from the spec: [ext4_get_group_desc] of balloc.c (not among
    the sources), the descriptor of group [i] in the table loaded at mount
    time. *)
Definition ext4_get_group_desc (k : kernel) (i : Z) : list Z :=
  default [] (s_group_desc (k_sbi k) !! Z.to_nat i).

Definition ext4_block_bitmap (k : kernel) (bg : list Z) : Z :=
  Z.lor (le32_to_cpu (bg_block_bitmap_lo bg))
    (if EXT4_DESC_SIZE k >=? EXT4_MIN_DESC_SIZE_64BIT
     then u64 (le32_to_cpu (bg_block_bitmap_hi bg) ≪ 32) else 0).

Definition ext4_inode_bitmap (k : kernel) (bg : list Z) : Z :=
  Z.lor (le32_to_cpu (bg_inode_bitmap_lo bg))
    (if EXT4_DESC_SIZE k >=? EXT4_MIN_DESC_SIZE_64BIT
     then u64 (le32_to_cpu (bg_inode_bitmap_hi bg) ≪ 32) else 0).

Definition ext4_inode_table (k : kernel) (bg : list Z) : Z :=
  Z.lor (le32_to_cpu (bg_inode_table_lo bg))
    (if EXT4_DESC_SIZE k >=? EXT4_MIN_DESC_SIZE_64BIT
     then u64 (le32_to_cpu (bg_inode_table_hi bg) ≪ 32) else 0).

(** [sizeof(sbi->s_es->s_uuid)] (the spec's layout: UUID, 16 bytes),
    [sizeof(le_group)] for the local [__le32 le_group], and
    [sizeof(gdp->bg_checksum)] for the [__le16] the function returns. *)
Definition sizeof_s_uuid : Z := 16.
Definition sizeof_le_group : Z := 4.
Definition sizeof_bg_checksum : Z := 2.

Definition ext4_group_desc_csum (sbi : ext4_sb_info) (block_group : Z)
    (gdp : list Z) : Z :=
  let es := s_es sbi in
  let crc := 0 in
  let crc :=
    if nz (Z.land (s_feature_ro_compat es)
                  (cpu_to_le32 EXT4_FEATURE_RO_COMPAT_GDT_CSUM)) then
      let offset := offsetof_bg_checksum in
      let le_group := cpu_to_le32 block_group in
      let crc := u16 (crc16 (u16 (Z.lnot 0)) (mem_read (s_uuid es) 0 sizeof_s_uuid)) in
      let crc := u16 (crc16 crc (mem_read (le32_bytes le_group) 0 sizeof_le_group)) in
      let crc := u16 (crc16 crc (mem_read gdp 0 offset)) in
      let offset := offset + sizeof_bg_checksum in (* skip checksum *)
      (* for checksum of struct ext4_group_desc do the rest... *)
      if nz (Z.land (s_feature_incompat es)
                    (cpu_to_le32 EXT4_FEATURE_INCOMPAT_64BIT))
         && (offset <? le16_to_cpu (s_desc_size es)) then
        u16 (crc16 crc (mem_read gdp offset
                          (le16_to_cpu (s_desc_size es) - offset)))
      else crc
    else crc in
  cpu_to_le16 crc.

Definition ext4_group_desc_csum_verify (sbi : ext4_sb_info) (block_group : Z)
    (gdp : list Z) : Z :=
  if nz (Z.land (s_feature_ro_compat (s_es sbi))
                (cpu_to_le32 EXT4_FEATURE_RO_COMPAT_GDT_CSUM))
     && negb (bg_checksum gdp =? ext4_group_desc_csum sbi block_group gdp)
  then 0 else 1.

(** The loop of [ext4_check_descriptors] from group [i] on, with [n] groups
    left: [None] when the function returns 0 from inside the loop,
    [Some grp] when the loop runs to its end. *)
Fixpoint check_descriptors_from (n : nat) (i first_block grp : Z)
    (flexbg_flag : bool) : K (option Z) :=
  match n with
  | O => mret (Some grp)
  | S n' =>
    k ← get_kernel;
    let sbi := k_sbi k in
    let gdp := ext4_get_group_desc k i in
    let last_block :=
      if (i =? u32 (s_groups_count sbi - 1)) || flexbg_flag
      then u64 (ext4_blocks_count (s_es sbi) - 1)
      else u64 (first_block + ulong (EXT4_BLOCKS_PER_GROUP k - 1)) in
    let grp :=
      if (grp =? s_groups_count sbi)
         && negb (nz (Z.land (bg_flags gdp) (cpu_to_le16 EXT4_BG_INODE_ZEROED)))
      then i else grp in
    let block_bitmap := ext4_block_bitmap k gdp in
    if (block_bitmap <? first_block) || (block_bitmap >? last_block) then
      ext4_msg KERN_ERR
        "ext4_check_descriptors: Block bitmap for group %u not in group (block %llu)!"
        [KInt i; KInt block_bitmap];;
      mret None
    else
    let inode_bitmap := ext4_inode_bitmap k gdp in
    if (inode_bitmap <? first_block) || (inode_bitmap >? last_block) then
      ext4_msg KERN_ERR
        "ext4_check_descriptors: Inode bitmap for group %u not in group (block %llu)!"
        [KInt i; KInt inode_bitmap];;
      mret None
    else
    let inode_table := ext4_inode_table k gdp in
    if (inode_table <? first_block)
       || (u64 (inode_table + s_itb_per_group sbi - 1) >? last_block) then
      ext4_msg KERN_ERR
        "ext4_check_descriptors: Inode table for group %u not in group (block %llu)!"
        [KInt i; KInt inode_table];;
      mret None
    else
    let next :=
      check_descriptors_from n' (u32 (i + 1))
        (if flexbg_flag then first_block
         else u64 (first_block + EXT4_BLOCKS_PER_GROUP k))
        grp flexbg_flag in
    if negb (nz (ext4_group_desc_csum_verify sbi i gdp)) then
      ext4_msg KERN_ERR
        "ext4_check_descriptors: Checksum for group %u failed (%u!=%u)"
        [KInt i; KInt (le16_to_cpu (ext4_group_desc_csum sbi i gdp));
         KInt (le16_to_cpu (bg_checksum gdp))];;
      if negb (nz (Z.land (s_flags (k_sb k)) MS_RDONLY)) then mret None
      else next
    else next
  end.

(** Called at mount-time.  Returns the C return value and, when that is 1,
    what the function stores through [first_not_zeroed]. *)
Definition ext4_check_descriptors : K (Z * option Z) :=
  k ← get_kernel;
  let sbi := k_sbi k in
  let first_block := u64 (le32_to_cpu (s_first_data_block (s_es sbi))) in
  let grp := s_groups_count sbi in
  let flexbg_flag := EXT4_HAS_INCOMPAT_FEATURE k EXT4_FEATURE_INCOMPAT_FLEX_BG in
  r ← check_descriptors_from (Z.to_nat (s_groups_count sbi)) 0 first_block grp
        flexbg_flag;
  match r with
  | None => mret (0, None)
  | Some grp =>
    k ← get_kernel;
    modify (upd_es (ext4_free_blocks_count_set
                      (EXT4_C2B (k_sbi k) (ext4_count_free_clusters k))));;
    k ← get_kernel;
    modify (upd_es (fun es =>
      es <| s_free_inodes_count := cpu_to_le32 (ext4_count_free_inodes k) |>));;
    mret (1, Some grp)
  end.

(** ** Committing the superblock *)

Definition block_device_ejected (k : kernel) : bool :=
  negb (bdi_dev (s_bdev (k_sb k))). (* bdi->dev == NULL *)

Definition upd_sbh (f : buffer_head -> buffer_head) (k : kernel) : kernel :=
  upd_sbi (fun sbi => sbi <| s_sbh ::= fmap f |>) k.

Definition buffer_write_io_error (sbh : buffer_head) : Z :=
  if BH_Write_EIO sbh then 1 else 0.
Definition clear_buffer_write_io_error : K unit :=
  modify (upd_sbh (fun bh => bh <| BH_Write_EIO := false |>)).
Definition set_buffer_uptodate : K unit :=
  modify (upd_sbh (fun bh => bh <| BH_Uptodate := true |>)).

(** Modelled from the spec: [mark_buffer_dirty] and [sync_dirty_buffer] of
    fs/buffer.c (not among the sources), the block I/O collaborator's
    [write_block].  Marking dirty hands the current record to the write-back
    machinery; a synchronous write puts the record on the device, cleans the
    buffer, and answers as the device does. *)
Definition mark_buffer_dirty : K unit :=
  k ← get_kernel;
  modify (upd_sbh (fun bh => bh <| BH_Dirty := true |>));;
  modify (fun k' => k' <| k_trace ::= fun t => t ++ [EvMarkDirty (k_es k)] |>).
Definition sync_dirty_buffer : K Z :=
  k ← get_kernel;
  modify (upd_sbh (fun bh =>
    bh <| BH_Dirty := false |>
       <| BH_Write_EIO ::= fun e => e || k_write_fails k |>));;
  modify (fun k' => k' <| k_trace ::= fun t => t ++ [EvSyncWrite (k_es k)] |>);;
  mret (k_sync_result k).

Definition ext4_commit_super (sync : Z) : K Z :=
  k ← get_kernel;
  match s_sbh (k_sbi k) with
  | None => mret 0
  | Some sbh =>
    if block_device_ejected k then mret 0 else
    (if nz (buffer_write_io_error sbh) then
       (* A previous attempt to write the superblock failed: retry the
          write and hope for the best. *)
       ext4_msg KERN_ERR "previous I/O error to superblock detected" [];;
       clear_buffer_write_io_error;;
       set_buffer_uptodate
     else mret tt);;
    (* If the file system is mounted read-only, don't update the
       superblock write time. *)
    (if negb (nz (Z.land (s_flags (k_sb k)) MS_RDONLY)) then
       modify (upd_es (fun es => es <| s_wtime := cpu_to_le32 (k_seconds k) |>))
     else mret tt);;
    (match bd_part (s_bdev (k_sb k)) with
     | Some sectors_written =>
       modify (upd_es (fun es =>
         es <| s_kbytes_written :=
                 cpu_to_le64 (sbi_s_kbytes_written (k_sbi k) +
                   (ulong (sectors_written - s_sectors_written_start (k_sbi k))
                      ≫ 1)) |>))
     | None =>
       modify (upd_es (fun es =>
         es <| s_kbytes_written :=
                 cpu_to_le64 (sbi_s_kbytes_written (k_sbi k)) |>))
     end);;
    modify (upd_es (ext4_free_blocks_count_set
      (EXT4_C2B (k_sbi k)
         (percpu_counter_sum_positive (s_freeclusters_counter (k_sbi k))))));;
    modify (upd_es (fun es =>
      es <| s_free_inodes_count :=
              cpu_to_le32 (percpu_counter_sum_positive
                             (s_freeinodes_counter (k_sbi k))) |>));;
    modify (upd_sb (fun sb => sb <| s_dirt := 0 |>));;
    mark_buffer_dirty;;
    if nz sync then
      error ← sync_dirty_buffer;
      if nz error then mret error else
      k' ← get_kernel;
      let error := from_option buffer_write_io_error 0 (s_sbh (k_sbi k')) in
      if nz error then
        ext4_msg KERN_ERR "I/O error while writing superblock" [];;
        clear_buffer_write_io_error;;
        set_buffer_uptodate;;
        mret error
      else mret error
    else mret 0
  end.

(** ** Recording and handling errors *)

(** [mod_timer(&EXT4_SB(sb)->s_err_report, expires)]. *)
Definition mod_timer_s_err_report (expires : Z) : K unit :=
  modify (upd_sbi (fun sbi => sbi <| s_err_report := Some expires |>)).

Definition __save_error_info (func : string) (line : Z) : K unit :=
  modify (upd_sbi (fun sbi =>
    sbi <| s_mount_state ::= fun s => u16 (Z.lor s EXT4_ERROR_FS) |>));;
  modify (upd_es (fun es =>
    es <| s_state ::= fun s => Z.lor s (cpu_to_le16 EXT4_ERROR_FS) |>));;
  k ← get_kernel;
  modify (upd_es (fun es =>
    es <| s_last_error_time := cpu_to_le32 (k_seconds k) |>
       <| s_last_error_func := strncpy (Z.to_nat sizeof_s_error_func) func |>
       <| s_last_error_line := cpu_to_le32 line |>));;
  k ← get_kernel;
  (if negb (nz (s_first_error_time (k_es k))) then
     modify (upd_es (fun es =>
       es <| s_first_error_time := s_last_error_time es |>
          <| s_first_error_func := strncpy (Z.to_nat sizeof_s_error_func) func |>
          <| s_first_error_line := cpu_to_le32 line |>
          <| s_first_error_ino := s_last_error_ino es |>
          <| s_first_error_block := s_last_error_block es |>))
   else mret tt);;
  (* Start the daily error reporting function if it hasn't been started
     already *)
  k ← get_kernel;
  (if negb (nz (s_error_count (k_es k))) then
     mod_timer_s_err_report (ulong (k_jiffies k + 24 * 60 * 60 * HZ))
   else mret tt);;
  modify (upd_es (fun es =>
    es <| s_error_count := cpu_to_le32 (le32_to_cpu (s_error_count es) + 1) |>)).

Definition save_error_info (func : string) (line : Z) : K unit :=
  __save_error_info func line;;
  _ ← ext4_commit_super 1;
  mret tt.

(** Modelled from the spec: [jbd2_journal_abort] of fs/jbd2 (not among the
    sources), the journal collaborator's [abort(handle, reason)]: the
    journal accepts no further writes and remembers the first reason. *)
Definition jbd2_journal_abort (errno : Z) : K unit :=
  modify (upd_sbi (fun sbi => sbi <| s_journal ::= fmap (fun j =>
    j <| j_flags ::= fun f => Z.lor f JBD2_ABORT |>
      <| j_errno ::= fun e => if nz e then e else errno |>) |>)).

Definition ext4_handle_error : K unit :=
  k ← get_kernel;
  if nz (Z.land (s_flags (k_sb k)) MS_RDONLY) then mret tt else
  (if negb (nz (test_opt k EXT4_MOUNT_ERRORS_CONT)) then
     modify (upd_sbi (fun sbi =>
       sbi <| s_mount_flags ::= fun f => Z.lor f EXT4_MF_FS_ABORTED |>));;
     match s_journal (k_sbi k) with
     | Some _ => jbd2_journal_abort (- EIO)
     | None => mret tt
     end
   else mret tt);;
  (if nz (test_opt k EXT4_MOUNT_ERRORS_RO) then
     ext4_msg KERN_CRIT "Remounting filesystem read-only" [];;
     modify (upd_sb (fun sb => sb <| s_flags ::= fun f => Z.lor f MS_RDONLY |>))
   else mret tt);;
  k ← get_kernel;
  if nz (test_opt k EXT4_MOUNT_ERRORS_PANIC) then
    match s_journal (k_sbi k) with
    | Some j =>
      if negb (nz (Z.land (j_flags j) JBD2_REC_ERR)) then mret tt
      else panic
    | None => panic
    end
  else mret tt.

(** [__ext4_error(sb, function, line, fmt, ...)], the message already
    formatted into [text]. *)
Definition __ext4_error (function : string) (line : Z) (text : string) : K unit :=
  printk KERN_CRIT "EXT4-fs error (device %s): %s:%d: comm %s: %pV\n"
    [KStr function; KInt line; KStr text];;
  save_error_info function line;;
  ext4_handle_error.

(** [__ext4_abort(sb, function, line, fmt, ...)]; [ext4_abort(sb, ...)] is
    the macro of ext4.h that passes [__func__] and [__LINE__]. *)
Definition __ext4_abort (function : string) (line : Z) (text : string) : K unit :=
  save_error_info function line;;
  printk KERN_CRIT "EXT4-fs error (device %s): %s:%d: " [KStr function; KInt line];;
  printk EmptyString text [];;
  printk EmptyString "\n" [];;
  k ← get_kernel;
  (if Z.land (s_flags (k_sb k)) MS_RDONLY =? 0 then
     ext4_msg KERN_CRIT "Remounting filesystem read-only" [];;
     modify (upd_sb (fun sb => sb <| s_flags ::= fun f => Z.lor f MS_RDONLY |>));;
     modify (upd_sbi (fun sbi =>
       sbi <| s_mount_flags ::= fun f => Z.lor f EXT4_MF_FS_ABORTED |>));;
     (match s_journal (k_sbi k) with
      | Some _ => jbd2_journal_abort (- EIO)
      | None => mret tt
      end);;
     save_error_info function line
   else mret tt);;
  k ← get_kernel;
  if nz (test_opt k EXT4_MOUNT_ERRORS_PANIC) then
    match s_journal (k_sbi k) with
    | Some j =>
      if negb (nz (Z.land (j_flags j) JBD2_REC_ERR)) then mret tt
      else panic
    | None => panic
    end
  else mret tt.

(** [__ext4_warning(sb, function, line, fmt, ...)]. *)
Definition __ext4_warning (function : string) (line : Z) (text : string) : K unit :=
  printk KERN_WARNING "EXT4-fs warning (device %s): %s:%d: %pV\n"
    [KStr function; KInt line; KStr text].

(** ** Orphan cleanup *)

(** Modelled from the spec: [bdev_read_only] of the block layer (not among
    the sources), whether the device refuses writes. *)
Definition bdev_read_only (k : kernel) : bool := bd_read_only (s_bdev (k_sb k)).

(** Modelled from the spec: [ext4_orphan_get] of ialloc.c (not among the
    sources): "resolve the referenced inode via the storage collaborator";
    [None] stands for an [ERR_PTR]. *)
Definition ext4_orphan_get (ino : Z) : K (option inode) :=
  gets (fun k => k_inodes k !! ino).

(** Modelled from the spec: [ext4_orphan_del] of namei.c (not among the
    sources), reached from [ext4_truncate] and from the eviction that the
    last [iput] of an unlinked inode triggers: "advance to the next chain
    entry using the inode's own stored next field", and take the inode off
    the in-memory list. *)
Definition ext4_orphan_del (ino : Z) (i : inode) : K unit :=
  modify (upd_sbi (fun sbi =>
    sbi <| s_orphan ::= filter (fun j => j <> ino) |>));;
  modify (upd_es (fun es => es <| s_last_orphan := i_next_orphan i |>)).

(** Modelled from the spec: [ext4_truncate] of inode.c (not among the
    sources): "finish a pending truncation to its recorded logical size". *)
Definition ext4_truncate (ino : Z) (i : inode) : K unit :=
  modify (fun k => k <| k_trace ::= fun t => t ++ [EvTruncate ino (i_size i)] |>);;
  ext4_orphan_del ino i.

(** Modelled from the spec: [iput] of fs/inode.c (not among the sources):
    dropping the last reference of an inode whose link count is zero is
    where "finish the deletion" happens; an inode that still has links is
    only released. *)
Definition iput (ino : Z) (i : inode) : K unit :=
  if nz (i_nlink i) then mret tt
  else
    modify (fun k => k <| k_trace ::= fun t => t ++ [EvDelete ino] |>);;
    modify (fun k => k <| k_inodes ::= delete ino |>);;
    ext4_orphan_del ino i.

(** [list_add(&EXT4_I(inode)->i_orphan, &EXT4_SB(sb)->s_orphan)]. *)
Definition list_add_s_orphan (ino : Z) : K unit :=
  modify (upd_sbi (fun sbi => sbi <| s_orphan ::= cons ino |>)).

(** The [while (es->s_last_orphan)] loop, run for at most [fuel] rounds;
    [nr_orphans] and [nr_truncates] are the function's two [int] counters.
    [None] when the fuel runs out before the loop ends. *)
Fixpoint orphan_loop (fuel : nat) (nr_orphans nr_truncates : Z)
    : K (option (Z * Z)) :=
  k ← get_kernel;
  if negb (nz (s_last_orphan (k_es k))) then mret (Some (nr_orphans, nr_truncates))
  else
    match fuel with
    | O => mret None
    | S fuel' =>
      let ino := le32_to_cpu (s_last_orphan (k_es k)) in
      r ← ext4_orphan_get ino;
      match r with
      | None =>
        modify (upd_es (fun es => es <| s_last_orphan := 0 |>));;
        mret (Some (nr_orphans, nr_truncates))
      | Some i =>
        list_add_s_orphan ino;;
        if nz (i_nlink i) then
          ext4_msg KERN_DEBUG "%s: truncating inode %lu to %lld bytes"
            [KStr "ext4_orphan_cleanup"; KInt ino; KInt (i_size i)];;
          ext4_truncate ino i;;
          iput ino i;; (* The delete magic happens here! *)
          orphan_loop fuel' nr_orphans (s32 (nr_truncates + 1))
        else
          ext4_msg KERN_DEBUG "%s: deleting unreferenced inode %lu"
            [KStr "ext4_orphan_cleanup"; KInt ino];;
          iput ino i;; (* The delete magic happens here! *)
          orphan_loop fuel' (s32 (nr_orphans + 1)) nr_truncates
      end
    end.

(** [PLURAL(x)]. *)
Definition PLURAL (x : Z) : list karg :=
  [KInt x; KStr (if x =? 1 then EmptyString else "s")].

(** [ext4_orphan_cleanup(sb, es)], returning the counters
    [(nr_orphans, nr_truncates)] it reports to the log. *)
Definition ext4_orphan_cleanup (fuel : nat) : K (option (Z * Z)) :=
  k ← get_kernel;
  let s_flags0 := s_flags (k_sb k) in
  if negb (nz (s_last_orphan (k_es k))) then mret (Some (0, 0))
  else if bdev_read_only k then
    ext4_msg KERN_ERR "write access unavailable, skipping orphan cleanup" [];;
    mret (Some (0, 0))
  else
    (* Check if feature set would not allow a r/w mount *)
    ok ← ext4_feature_set_ok 0;
    if negb (nz ok) then
      ext4_msg KERN_INFO
        "Skipping orphan cleanup due to unknown ROCOMPAT features" [];;
      mret (Some (0, 0))
    else if nz (Z.land (s_mount_state (k_sbi k)) EXT4_ERROR_FS) then
      modify (upd_es (fun es => es <| s_last_orphan := 0 |>));;
      mret (Some (0, 0))
    else
      (if nz (Z.land s_flags0 MS_RDONLY) then
         ext4_msg KERN_INFO "orphan cleanup on readonly fs" [];;
         modify (upd_sb (fun sb =>
           sb <| s_flags ::= fun f => Z.land f (Z.lnot MS_RDONLY) |>))
       else mret tt);;
      r ← orphan_loop fuel 0 0;
      match r with
      | None => mret None
      | Some (nr_orphans, nr_truncates) =>
        (if nz nr_orphans then
           ext4_msg KERN_INFO "%d orphan inode%s deleted" (PLURAL nr_orphans)
         else mret tt);;
        (if nz nr_truncates then
           ext4_msg KERN_INFO "%d truncate%s cleaned up" (PLURAL nr_truncates)
         else mret tt);;
        (* Restore MS_RDONLY status *)
        modify (upd_sb (fun sb => sb <| s_flags := s_flags0 |>));;
        mret (Some (nr_orphans, nr_truncates))
      end.

(** ** Setting up the superblock at mount time *)

Definition ext4_update_dynamic_rev : K unit :=
  k ← get_kernel;
  if le32_to_cpu (s_rev_level (k_es k)) >? u32 EXT4_GOOD_OLD_REV then mret tt
  else
    __ext4_warning "ext4_update_dynamic_rev" 759
      "updating to rev %d because of new feature flag, running e2fsck is recommended";;
    modify (upd_es (fun es =>
      es <| s_first_ino := cpu_to_le32 EXT4_GOOD_OLD_FIRST_INO |>
         <| s_inode_size := cpu_to_le16 EXT4_GOOD_OLD_INODE_SIZE |>
         <| s_rev_level := cpu_to_le32 EXT4_DYNAMIC_REV |>)).

(** [ext4_setup_super(sb, es, read_only)].  [cleancache_init_fs] (mm, not
    among the sources) does not touch the volume. *)
Definition ext4_setup_super (read_only : Z) : K Z :=
  k ← get_kernel;
  res ← (if le32_to_cpu (s_rev_level (k_es k)) >? u32 EXT4_MAX_SUPP_REV then
           ext4_msg KERN_ERR
             "revision level too high, forcing read-only mode" [];;
           mret MS_RDONLY
         else mret 0);
  (if nz read_only then mret tt (* goto done *)
   else
     let sbi := k_sbi k in
     let es := k_es k in
     (if negb (nz (Z.land (s_mount_state sbi) EXT4_VALID_FS)) then
        ext4_msg KERN_WARNING
          "warning: mounting unchecked fs, running e2fsck is recommended" []
      else if nz (Z.land (s_mount_state sbi) EXT4_ERROR_FS) then
        ext4_msg KERN_WARNING
          "warning: mounting fs with errors, running e2fsck is recommended" []
      else if (s16 (le16_to_cpu (s_max_mnt_count es)) >? 0)
              && (le16_to_cpu (s_mnt_count es)
                  >=? u16 (s16 (le16_to_cpu (s_max_mnt_count es)))) then
        ext4_msg KERN_WARNING
          "warning: maximal mount count reached, running e2fsck is recommended" []
      else if nz (le32_to_cpu (s_checkinterval es))
              && (u32 (le32_to_cpu (s_lastcheck es)
                       + le32_to_cpu (s_checkinterval es))
                  <=? k_seconds k) then
        ext4_msg KERN_WARNING
          "warning: checktime reached, running e2fsck is recommended" []
      else mret tt);;
     (match s_journal sbi with
      | None =>
        modify (upd_es (fun es =>
          es <| s_state ::= fun s =>
                  Z.land s (cpu_to_le16 (Z.lnot EXT4_VALID_FS)) |>))
      | Some _ => mret tt
      end);;
     (if negb (nz (s16 (le16_to_cpu (s_max_mnt_count es)))) then
        modify (upd_es (fun es =>
          es <| s_max_mnt_count := cpu_to_le16 EXT4_DFL_MAX_MNT_COUNT |>))
      else mret tt);;
     (* le16_add_cpu(&es->s_mnt_count, 1) *)
     modify (upd_es (fun es =>
       es <| s_mnt_count ::= fun c => cpu_to_le16 (le16_to_cpu c + 1) |>));;
     modify (upd_es (fun es => es <| s_mtime := cpu_to_le32 (k_seconds k) |>));;
     ext4_update_dynamic_rev;;
     (match s_journal sbi with
      | Some _ =>
        (* EXT4_SET_INCOMPAT_FEATURE(sb, EXT4_FEATURE_INCOMPAT_RECOVER) *)
        modify (upd_es (fun es =>
          es <| s_feature_incompat ::= fun f =>
                  Z.lor f (cpu_to_le32 EXT4_FEATURE_INCOMPAT_RECOVER) |>))
      | None => mret tt
      end);;
     _ ← ext4_commit_super 1;
     mret tt);;
  (* done: *)
  k' ← get_kernel;
  (if nz (test_opt k' EXT4_MOUNT_DEBUG) then
     printk KERN_INFO "[EXT4 FS bs=%lu, gc=%u, bpg=%lu, ipg=%lu, mo=%04x, mo2=%04x]\n"
       [KInt (s_groups_count (k_sbi k')); KInt (EXT4_BLOCKS_PER_GROUP k');
        KInt (s_mount_opt (k_sbi k')); KInt (s_mount_opt2 (k_sbi k'))]
   else mret tt);;
  mret res.

(** How a step of [ext4_fill_super] ends: the function goes on to its
    next statement, or jumps to one of its [failed_mount] labels and
    returns [ret], the volume not mounted. *)
Inductive mount_step :=
  | Continue
  | FailedMount (ret : Z).

(** The call of [ext4_setup_super] in [ext4_fill_super]:
    [if (ext4_setup_super(sb, es, sb->s_flags & MS_RDONLY))
       sb->s_flags |= MS_RDONLY;]
    the only use of what [ext4_setup_super] returns.  Nothing between this
    statement and the end of [ext4_fill_super] reads the revision level
    again. *)
Definition ext4_fill_super_setup_super : K mount_step :=
  k ← get_kernel;
  res ← ext4_setup_super (Z.land (s_flags (k_sb k)) MS_RDONLY);
  (if nz res then
     modify (upd_sb (fun sb => sb <| s_flags ::= fun f => Z.lor f MS_RDONLY |>))
   else mret tt);;
  mret Continue.

(** ** Mount options *)

Definition ext4_mount_opts : list mount_opts :=
  [ Build_mount_opts Opt_minix_df EXT4_MOUNT_MINIX_DF MOPT_SET;
    Build_mount_opts Opt_bsd_df EXT4_MOUNT_MINIX_DF MOPT_CLEAR;
    Build_mount_opts Opt_grpid EXT4_MOUNT_GRPID MOPT_SET;
    Build_mount_opts Opt_nogrpid EXT4_MOUNT_GRPID MOPT_CLEAR;
    Build_mount_opts Opt_mblk_io_submit EXT4_MOUNT_MBLK_IO_SUBMIT MOPT_SET;
    Build_mount_opts Opt_nomblk_io_submit EXT4_MOUNT_MBLK_IO_SUBMIT MOPT_CLEAR;
    Build_mount_opts Opt_block_validity EXT4_MOUNT_BLOCK_VALIDITY MOPT_SET;
    Build_mount_opts Opt_noblock_validity EXT4_MOUNT_BLOCK_VALIDITY MOPT_CLEAR;
    Build_mount_opts Opt_dioread_nolock EXT4_MOUNT_DIOREAD_NOLOCK MOPT_SET;
    Build_mount_opts Opt_dioread_lock EXT4_MOUNT_DIOREAD_NOLOCK MOPT_CLEAR;
    Build_mount_opts Opt_discard EXT4_MOUNT_DISCARD MOPT_SET;
    Build_mount_opts Opt_nodiscard EXT4_MOUNT_DISCARD MOPT_CLEAR;
    Build_mount_opts Opt_delalloc EXT4_MOUNT_DELALLOC (Z.lor MOPT_SET MOPT_EXPLICIT);
    Build_mount_opts Opt_nodelalloc EXT4_MOUNT_DELALLOC (Z.lor MOPT_CLEAR MOPT_EXPLICIT);
    Build_mount_opts Opt_journal_checksum EXT4_MOUNT_JOURNAL_CHECKSUM MOPT_SET;
    Build_mount_opts Opt_journal_async_commit
      (Z.lor EXT4_MOUNT_JOURNAL_ASYNC_COMMIT EXT4_MOUNT_JOURNAL_CHECKSUM) MOPT_SET;
    Build_mount_opts Opt_noload EXT4_MOUNT_NOLOAD MOPT_SET;
    Build_mount_opts Opt_err_panic EXT4_MOUNT_ERRORS_PANIC (Z.lor MOPT_SET MOPT_CLEAR_ERR);
    Build_mount_opts Opt_err_ro EXT4_MOUNT_ERRORS_RO (Z.lor MOPT_SET MOPT_CLEAR_ERR);
    Build_mount_opts Opt_err_cont EXT4_MOUNT_ERRORS_CONT (Z.lor MOPT_SET MOPT_CLEAR_ERR);
    Build_mount_opts Opt_data_err_abort EXT4_MOUNT_DATA_ERR_ABORT MOPT_SET;
    Build_mount_opts Opt_data_err_ignore EXT4_MOUNT_DATA_ERR_ABORT MOPT_CLEAR;
    Build_mount_opts Opt_barrier EXT4_MOUNT_BARRIER MOPT_SET;
    Build_mount_opts Opt_nobarrier EXT4_MOUNT_BARRIER MOPT_CLEAR;
    Build_mount_opts Opt_noauto_da_alloc EXT4_MOUNT_NO_AUTO_DA_ALLOC MOPT_SET;
    Build_mount_opts Opt_auto_da_alloc EXT4_MOUNT_NO_AUTO_DA_ALLOC MOPT_CLEAR;
    Build_mount_opts Opt_noinit_itable EXT4_MOUNT_INIT_INODE_TABLE MOPT_CLEAR;
    Build_mount_opts Opt_commit 0 MOPT_GTE0;
    Build_mount_opts Opt_max_batch_time 0 MOPT_GTE0;
    Build_mount_opts Opt_min_batch_time 0 MOPT_GTE0;
    Build_mount_opts Opt_inode_readahead_blks 0 MOPT_GTE0;
    Build_mount_opts Opt_init_itable 0 MOPT_GTE0;
    Build_mount_opts Opt_stripe 0 MOPT_GTE0;
    Build_mount_opts Opt_data_journal EXT4_MOUNT_JOURNAL_DATA MOPT_DATAJ;
    Build_mount_opts Opt_data_ordered EXT4_MOUNT_ORDERED_DATA MOPT_DATAJ;
    Build_mount_opts Opt_data_writeback EXT4_MOUNT_WRITEBACK_DATA MOPT_DATAJ;
    (if CONFIG_EXT4_FS_XATTR
     then Build_mount_opts Opt_user_xattr EXT4_MOUNT_XATTR_USER MOPT_SET
     else Build_mount_opts Opt_user_xattr 0 MOPT_NOSUPPORT);
    (if CONFIG_EXT4_FS_XATTR
     then Build_mount_opts Opt_nouser_xattr EXT4_MOUNT_XATTR_USER MOPT_CLEAR
     else Build_mount_opts Opt_nouser_xattr 0 MOPT_NOSUPPORT);
    (if CONFIG_EXT4_FS_POSIX_ACL
     then Build_mount_opts Opt_acl EXT4_MOUNT_POSIX_ACL MOPT_SET
     else Build_mount_opts Opt_acl 0 MOPT_NOSUPPORT);
    (if CONFIG_EXT4_FS_POSIX_ACL
     then Build_mount_opts Opt_noacl EXT4_MOUNT_POSIX_ACL MOPT_CLEAR
     else Build_mount_opts Opt_noacl 0 MOPT_NOSUPPORT);
    Build_mount_opts Opt_nouid32 EXT4_MOUNT_NO_UID32 MOPT_SET;
    Build_mount_opts Opt_debug EXT4_MOUNT_DEBUG MOPT_SET;
    Build_mount_opts Opt_quota (Z.lor EXT4_MOUNT_QUOTA EXT4_MOUNT_USRQUOTA)
      (Z.lor MOPT_SET MOPT_Q);
    Build_mount_opts Opt_usrquota (Z.lor EXT4_MOUNT_QUOTA EXT4_MOUNT_USRQUOTA)
      (Z.lor MOPT_SET MOPT_Q);
    Build_mount_opts Opt_grpquota (Z.lor EXT4_MOUNT_QUOTA EXT4_MOUNT_GRPQUOTA)
      (Z.lor MOPT_SET MOPT_Q);
    Build_mount_opts Opt_noquota
      (Z.lor (Z.lor EXT4_MOUNT_QUOTA EXT4_MOUNT_USRQUOTA) EXT4_MOUNT_GRPQUOTA)
      (Z.lor MOPT_CLEAR MOPT_Q);
    Build_mount_opts Opt_usrjquota 0 MOPT_Q;
    Build_mount_opts Opt_grpjquota 0 MOPT_Q;
    Build_mount_opts Opt_offusrjquota 0 MOPT_Q;
    Build_mount_opts Opt_offgrpjquota 0 MOPT_Q;
    Build_mount_opts Opt_jqfmt_vfsold QFMT_VFS_OLD MOPT_QFMT;
    Build_mount_opts Opt_jqfmt_vfsv0 QFMT_VFS_V0 MOPT_QFMT;
    Build_mount_opts Opt_jqfmt_vfsv1 QFMT_VFS_V1 MOPT_QFMT ].

(** [is_power_of_2] of linux/log2.h. *)
Definition is_power_of_2 (n : Z) : bool :=
  nz n && (Z.land n (n - 1) =? 0).

Definition deprecated_msg : string :=
  "Mount option %s will be removed by %s\nContact linux-ext4@vger.kernel.org if you think we should keep it.\n".

(** The part of [handle_mount_opt] after its [switch]: the walk through
    [ext4_mount_opts] up to the first row for [token]. *)
Definition handle_mount_opt_table (opt : string) (token : opt_token)
    (args_from : bool) (arg : Z) (is_remount : Z) : K Z :=
  match List.find (fun m => token_eqb token (m_token m)) ext4_mount_opts with
  | None =>
    ext4_msg KERN_ERR "Unrecognized mount option %s or missing value" [KStr opt];;
    mret (-1)
  | Some m =>
    if args_from && nz (Z.land (m_flags m) MOPT_GTE0) && (arg <? 0)
    then mret (-1) else
    (if nz (Z.land (m_flags m) MOPT_EXPLICIT)
     then set_opt2 EXT4_MOUNT2_EXPLICIT_DELALLOC else mret tt);;
    (if nz (Z.land (m_flags m) MOPT_CLEAR_ERR)
     then clear_opt EXT4_MOUNT_ERRORS_MASK else mret tt);;
    (* sb_any_quota_loaded(sb) is 0 without CONFIG_QUOTA *)
    if nz (Z.land (m_flags m) MOPT_NOSUPPORT) then
      ext4_msg KERN_ERR "%s option not supported" [KStr opt];;
      mret 1
    else if token_eqb token Opt_commit then
      let arg := if arg =? 0 then JBD2_DEFAULT_MAX_COMMIT_AGE else arg in
      modify (upd_sbi (fun sbi => sbi <| s_commit_interval := ulong (HZ * arg) |>));;
      mret 1
    else if token_eqb token Opt_max_batch_time then
      let arg := if arg =? 0 then EXT4_DEF_MAX_BATCH_TIME else arg in
      modify (upd_sbi (fun sbi => sbi <| s_max_batch_time := u32 arg |>));;
      mret 1
    else if token_eqb token Opt_min_batch_time then
      modify (upd_sbi (fun sbi => sbi <| s_min_batch_time := u32 arg |>));;
      mret 1
    else if token_eqb token Opt_inode_readahead_blks then
      if arg >? 1 ≪ 30 then mret (-1)
      else if nz arg && negb (is_power_of_2 (u32 arg)) then
        ext4_msg KERN_ERR
          "EXT4-fs: inode_readahead_blks must be a power of 2" [];;
        mret (-1)
      else
        modify (upd_sbi (fun sbi => sbi <| s_inode_readahead_blks := u32 arg |>));;
        mret 1
    else if token_eqb token Opt_init_itable then
      set_opt EXT4_MOUNT_INIT_INODE_TABLE;;
      let arg := if args_from then arg else EXT4_DEF_LI_WAIT_MULT in
      modify (upd_sbi (fun sbi => sbi <| s_li_wait_mult := u32 arg |>));;
      mret 1
    else if token_eqb token Opt_stripe then
      modify (upd_sbi (fun sbi => sbi <| s_stripe := ulong arg |>));;
      mret 1
    else if nz (Z.land (m_flags m) MOPT_DATAJ) then
      k ← get_kernel;
      if nz is_remount then
        match s_journal (k_sbi k) with
        | None =>
          ext4_msg KERN_WARNING
            "Remounting file system with no journal so ignoring journalled data option"
            [];;
          mret 1
        | Some _ =>
          if negb (test_opt k EXT4_MOUNT_DATA_FLAGS =? m_mount_opt m) then
            ext4_msg KERN_ERR "Cannot change data mode on remount" [];;
            mret (-1)
          else mret 1
        end
      else
        clear_opt EXT4_MOUNT_DATA_FLAGS;;
        set_opt (m_mount_opt m);;
        mret 1
    else
      let arg := if args_from then arg else 1 in
      if nz (Z.land (m_flags m) MOPT_CLEAR) then
        (if (if nz arg then 0 else 1) =? 0
         then clear_opt (m_mount_opt m) else set_opt (m_mount_opt m));;
        mret 1
      else if negb (nz (Z.land (m_flags m) MOPT_SET)) then
        ext4_msg KERN_WARNING "buggy handling of option %s" [KStr opt];;
        mret (-1)
      else
        (if nz arg then set_opt (m_mount_opt m) else clear_opt (m_mount_opt m));;
        mret 1
  end.

(** [handle_mount_opt]; [journal_ioprio] is passed in and handed back
    instead of being written through a pointer.  [journal_devnum] is only
    written on a first mount, which this model does not follow. *)
Definition handle_mount_opt (opt : string) (token : opt_token)
    (args : mount_arg) (journal_ioprio : Z) (is_remount : Z) : K (Z * Z) :=
  match args with
  | BadArg => mret (-1, journal_ioprio)
  | _ =>
    let args_from := match args with NoArg => false | _ => true end in
    let arg := match args with IntArg v => v | _ => 0 end in
    let table :=
      r ← handle_mount_opt_table opt token args_from arg is_remount;
      mret (r, journal_ioprio) in
    match token with
    | Opt_noacl | Opt_nouser_xattr =>
      ext4_msg KERN_WARNING deprecated_msg [KStr opt; KStr "3.5"];;
      table
    | Opt_sb => mret (1, journal_ioprio) (* handled by get_sb_block() *)
    | Opt_removed =>
      ext4_msg KERN_WARNING "Ignoring removed %s option" [KStr opt];;
      mret (1, journal_ioprio)
    | Opt_resuid =>
      modify (upd_sbi (fun sbi => sbi <| s_resuid := u32 arg |>));;
      mret (1, journal_ioprio)
    | Opt_resgid =>
      modify (upd_sbi (fun sbi => sbi <| s_resgid := u32 arg |>));;
      mret (1, journal_ioprio)
    | Opt_abort =>
      modify (upd_sbi (fun sbi =>
        sbi <| s_mount_flags ::= fun f => Z.lor f EXT4_MF_FS_ABORTED |>));;
      mret (1, journal_ioprio)
    | Opt_i_version =>
      modify (upd_sb (fun sb =>
        sb <| s_flags ::= fun f => Z.lor f MS_I_VERSION |>));;
      mret (1, journal_ioprio)
    | Opt_journal_dev =>
      if nz is_remount then
        ext4_msg KERN_ERR "Cannot specify journal on remount" [];;
        mret (-1, journal_ioprio)
      else mret (1, journal_ioprio)
    | Opt_journal_ioprio =>
      if (arg <? 0) || (arg >? 7) then mret (-1, journal_ioprio)
      else mret (1, IOPRIO_PRIO_VALUE IOPRIO_CLASS_BE arg)
    | _ => table
    end
  end.

(** The [while ((p = strsep(&options, ",")) != NULL)] loop over the
    non-empty options: 0 as soon as one is refused. *)
Fixpoint parse_options_loop (options : list mount_option)
    (journal_ioprio : Z) (is_remount : Z) : K (Z * Z) :=
  match options with
  | [] => mret (1, journal_ioprio)
  | p :: rest =>
    r ← handle_mount_opt (mo_text p) (mo_token p) (mo_arg p) journal_ioprio
          is_remount;
    if fst r <? 0 then mret (0, snd r)
    else parse_options_loop rest (snd r) is_remount
  end.

Definition parse_options (options : option (list mount_option))
    (journal_ioprio : Z) (is_remount : Z) : K (Z * Z) :=
  match options with
  | None => mret (1, journal_ioprio)
  | Some l =>
    r ← parse_options_loop l journal_ioprio is_remount;
    if fst r =? 0 then mret r else
    k ← get_kernel;
    if nz (test_opt k EXT4_MOUNT_DIOREAD_NOLOCK) then
      let blocksize := s32 (BLOCK_SIZE ≪ le32_to_cpu (s_log_block_size (k_es k))) in
      if blocksize <? PAGE_CACHE_SIZE then
        ext4_msg KERN_ERR
          "can't mount with dioread_nolock if block size != PAGE_SIZE" [];;
        mret (0, snd r)
      else mret (1, snd r)
    else mret (1, snd r)
  end.

(** ** Remount *)

Definition ext4_init_journal_params : K unit :=
  k ← get_kernel;
  let sbi := k_sbi k in
  modify (upd_sbi (fun sbi' => sbi' <| s_journal ::= fmap (fun j =>
    j <| j_commit_interval := s_commit_interval sbi |>
      <| j_min_batch_time := s_min_batch_time sbi |>
      <| j_max_batch_time := s_max_batch_time sbi |>
      <| j_flags ::= fun f =>
           if nz (test_opt k EXT4_MOUNT_BARRIER) then Z.lor f JBD2_BARRIER
           else Z.land f (Z.lnot JBD2_BARRIER) |>
      <| j_flags ::= fun f =>
           if nz (test_opt k EXT4_MOUNT_DATA_ERR_ABORT)
           then Z.lor f JBD2_ABORT_ON_SYNCDATA_ERR
           else Z.land f (Z.lnot JBD2_ABORT_ON_SYNCDATA_ERR) |>) |>)).

Definition DEFAULT_JOURNAL_IOPRIO : Z := IOPRIO_PRIO_VALUE IOPRIO_CLASS_BE 3.

(** The label [restore_opts:] of [ext4_remount]. *)
Definition restore_opts (old_sb_flags : Z) (old_opts : ext4_mount_options)
    (err : Z) : K Z :=
  modify (upd_sb (fun sb => sb <| s_flags := old_sb_flags |>));;
  modify (upd_sbi (fun sbi =>
    sbi <| s_mount_opt := old_s_mount_opt old_opts |>
        <| s_mount_opt2 := old_s_mount_opt2 old_opts |>
        <| s_resuid := old_s_resuid old_opts |>
        <| s_resgid := old_s_resgid old_opts |>
        <| s_commit_interval := old_s_commit_interval old_opts |>
        <| s_min_batch_time := old_s_min_batch_time old_opts |>
        <| s_max_batch_time := old_s_max_batch_time old_opts |>));;
  mret err.

(** The loop of [ext4_remount] over the group descriptors: the first group
    whose checksum does not verify, if any. *)
Fixpoint remount_csum_loop (n : nat) (g : Z) (k : kernel) : option Z :=
  match n with
  | O => None
  | S n' =>
    if negb (nz (ext4_group_desc_csum_verify (k_sbi k) g
                   (ext4_get_group_desc k g)))
    then Some g
    else remount_csum_loop n' (u32 (g + 1)) k
  end.

(** The end of [ext4_remount], from the comment "Reinitialize lazy itable
    initialization thread" to [return 0]. *)
Definition ext4_remount_finish (old_sb_flags : Z) : K Z :=
  k ← get_kernel;
  (if nz (Z.land (s_flags (k_sb k)) MS_RDONLY)
      || negb (nz (test_opt k EXT4_MOUNT_INIT_INODE_TABLE))
   then ext4_unregister_li_request
   else
     _ ← ext4_register_li_request (ext4_has_uninit_itable k);
     mret tt);;
  _ ← ext4_setup_system_zone;
  k ← get_kernel;
  (match s_journal (k_sbi k) with
   | None =>
     if negb (nz (Z.land old_sb_flags MS_RDONLY))
     then (_ ← ext4_commit_super 1; mret tt)
     else mret tt
   | Some _ => mret tt
   end);;
  ext4_msg KERN_INFO "re-mounted. Opts: %s" [];;
  mret 0.

(** [ext4_remount(sb, flags, data)]; [flags] is [*flags], which the
    function only reads. *)
Definition ext4_remount (flags : Z) (data : option (list mount_option)) : K Z :=
  k0 ← get_kernel;
  (* Store the original options *)
  let old_sb_flags := s_flags (k_sb k0) in
  let old_opts :=
    {| old_s_mount_opt := s_mount_opt (k_sbi k0);
       old_s_mount_opt2 := s_mount_opt2 (k_sbi k0);
       old_s_resuid := s_resuid (k_sbi k0);
       old_s_resgid := s_resgid (k_sbi k0);
       old_s_commit_interval := s_commit_interval (k_sbi k0);
       old_s_min_batch_time := s_min_batch_time (k_sbi k0);
       old_s_max_batch_time := s_max_batch_time (k_sbi k0) |} in
  let restore_opts := restore_opts old_sb_flags old_opts in
  let journal_ioprio :=
    match s_journal (k_sbi k0) with
    | Some j => default DEFAULT_JOURNAL_IOPRIO (j_task_ioprio j)
    | None => DEFAULT_JOURNAL_IOPRIO
    end in
  (* Allow the "check" option to be passed as a remount option. *)
  r ← parse_options data journal_ioprio 1;
  let journal_ioprio := snd r in
  if negb (nz (fst r)) then restore_opts (- EINVAL) else
  k ← get_kernel;
  if (test_opt k EXT4_MOUNT_DATA_FLAGS =? EXT4_MOUNT_JOURNAL_DATA)
     && nz (test_opt2 k EXT4_MOUNT2_EXPLICIT_DELALLOC) then
    ext4_msg KERN_ERR "can't mount with both data=journal and delalloc" [];;
    restore_opts (- EINVAL)
  else if (test_opt k EXT4_MOUNT_DATA_FLAGS =? EXT4_MOUNT_JOURNAL_DATA)
     && nz (test_opt k EXT4_MOUNT_DIOREAD_NOLOCK) then
    ext4_msg KERN_ERR "can't mount with both data=journal and dioread_nolock" [];;
    restore_opts (- EINVAL)
  else
  (if nz (Z.land (s_mount_flags (k_sbi k)) EXT4_MF_FS_ABORTED)
   then __ext4_abort "ext4_remount" 4435 "Abort forced by user"
   else mret tt);;
  modify (upd_sb (fun sb =>
    sb <| s_flags ::= fun f =>
            Z.lor (Z.land f (Z.lnot MS_POSIXACL))
                  (if nz (test_opt k EXT4_MOUNT_POSIX_ACL) then MS_POSIXACL else 0) |>));;
  (k ← get_kernel;
   match s_journal (k_sbi k) with
   | Some _ =>
     ext4_init_journal_params;;
     modify (upd_sbi (fun sbi =>
       sbi <| s_journal ::= fmap (fun j => set_task_ioprio j journal_ioprio) |>))
   | None => mret tt
   end);;
  k ← get_kernel;
  let sbi := k_sbi k in
  let es := k_es k in
  if negb (Z.land flags MS_RDONLY =? Z.land (s_flags (k_sb k)) MS_RDONLY) then
    if nz (Z.land (s_mount_flags sbi) EXT4_MF_FS_ABORTED) then
      restore_opts (- EROFS)
    else if nz (Z.land flags MS_RDONLY) then
      (* dquot_suspend(sb, -1) is 0 without CONFIG_QUOTA *)
      (* First of all, the unconditional stuff we have to do to disable
         replay of the journal when we next remount *)
      modify (upd_sb (fun sb => sb <| s_flags ::= fun f => Z.lor f MS_RDONLY |>));;
      (* OK, test if we are remounting a valid rw partition readonly, and
         if so set the rdonly flag and then mark the partition as valid
         again. *)
      (if negb (nz (Z.land (s_state es) (cpu_to_le16 EXT4_VALID_FS)))
          && nz (Z.land (s_mount_state sbi) EXT4_VALID_FS)
       then modify (upd_es (fun es' =>
              es' <| s_state := cpu_to_le16 (s_mount_state sbi) |>))
       else mret tt);;
      (match s_journal sbi with
       | Some _ => ext4_mark_recovery_complete
       | None => mret tt
       end);;
      ext4_remount_finish old_sb_flags
    else
      (* Make sure we can mount this feature set readwrite *)
      ok ← ext4_feature_set_ok 0;
      if negb (nz ok) then restore_opts (- EROFS) else
      (* Make sure the group descriptor checksums are sane.  If they
         aren't, refuse to remount r/w. *)
      match remount_csum_loop (Z.to_nat (s_groups_count sbi)) 0 k with
      | Some g =>
        ext4_msg KERN_ERR "ext4_remount: Checksum for group %u failed (%u!=%u)"
          [KInt g;
           KInt (le16_to_cpu (ext4_group_desc_csum sbi g (ext4_get_group_desc k g)));
           KInt (le16_to_cpu (bg_checksum (ext4_get_group_desc k g)))];;
        restore_opts (- EINVAL)
      | None =>
        (* If we have an unprocessed orphan list hanging around from a
           previously readonly bdev mount, require a full umount/remount
           for now. *)
        if nz (s_last_orphan es) then
          ext4_msg KERN_WARNING
            "Couldn't remount RDWR because of unprocessed orphan inode list.  Please umount/remount instead"
            [];;
          restore_opts (- EINVAL)
        else
          (* Mounting a RDONLY partition read-write, so reread and store
             the current valid flag. *)
          (match s_journal sbi with
           | Some _ => ext4_clear_journal_err
           | None => mret tt
           end);;
          k' ← get_kernel;
          modify (upd_sbi (fun sbi' =>
            sbi' <| s_mount_state := u16 (le16_to_cpu (s_state (k_es k'))) |>));;
          res ← ext4_setup_super 0;
          (if negb (nz res) then
             modify (upd_sb (fun sb =>
               sb <| s_flags ::= fun f => Z.land f (Z.lnot MS_RDONLY) |>))
           else mret tt);;
          k' ← get_kernel;
          mmp ← (if EXT4_HAS_INCOMPAT_FEATURE k' EXT4_FEATURE_INCOMPAT_MMP
                 then ext4_multi_mount_protect else mret 0);
          if nz mmp then restore_opts (- EROFS)
          else ext4_remount_finish old_sb_flags
      end
  else ext4_remount_finish old_sb_flags.

End Ext4.

(** * The values of the Linux tree

    The development is parametric in what the absent headers define.  To
    run the model on concrete volumes the parameters are given the values
    they have in the Linux 3.4 tree this repository is a copy of, on its
    32-bit ARM target, and [crc16] becomes the table-driven CRC-16 of
    lib/crc16.c (polynomial x^16 + x^15 + x^2 + 1, bit-reflected). *)

Module Linux.

(** One entry of [crc16_table]: eight shift-and-reduce steps on the index. *)
Definition crc16_table_step (c : Z) : Z :=
  if Z.testbit c 0 then Z.lxor (c ≫ 1) 0xA001 else c ≫ 1.
Definition crc16_table (i : Z) : Z :=
  Nat.iter 8 crc16_table_step i.

Definition crc16_byte (crc data : Z) : Z :=
  Z.lxor (u16 crc ≫ 8) (crc16_table (Z.land (Z.lxor (u16 crc) (u8 data)) 0xff)).

Definition lib_crc16 (crc : Z) (buffer : list Z) : Z :=
  fold_left crc16_byte buffer (u16 crc).

Definition headers : Ext4Headers := {|
  MS_RDONLY := 1;
  MS_POSIXACL := 1 ≪ 16;
  MS_I_VERSION := 1 ≪ 23;
  EXT4_FEATURE_INCOMPAT_SUPP := 0x3D6;
  EXT4_FEATURE_RO_COMPAT_SUPP := 0x27F;
  EXT4_FEATURE_RO_COMPAT_HUGE_FILE := 0x0008;
  EXT4_FEATURE_RO_COMPAT_BIGALLOC := 0x0200;
  EXT4_FEATURE_RO_COMPAT_GDT_CSUM := 0x0010;
  EXT4_FEATURE_INCOMPAT_EXTENTS := 0x0040;
  EXT4_FEATURE_INCOMPAT_64BIT := 0x0080;
  EXT4_FEATURE_INCOMPAT_FLEX_BG := 0x0200;
  EXT4_FEATURE_INCOMPAT_RECOVER := 0x0004;
  EXT4_FEATURE_INCOMPAT_MMP := 0x0100;
  blkcnt_t_is_narrow := false;
  EXT4_VALID_FS := 0x0001;
  EXT4_ERROR_FS := 0x0002;
  EXT4_MF_FS_ABORTED := 0x0002;
  EXT4_GOOD_OLD_REV := 0;
  EXT4_DYNAMIC_REV := 1;
  EXT4_MAX_SUPP_REV := 1;
  EXT4_GOOD_OLD_FIRST_INO := 11;
  EXT4_GOOD_OLD_INODE_SIZE := 128;
  EXT4_DFL_MAX_MNT_COUNT := 20;
  EXT4_BG_INODE_ZEROED := 0x0004;
  EXT4_MIN_DESC_SIZE_64BIT := 64;
  offsetof_bg_block_bitmap_lo := 0x00;
  offsetof_bg_inode_bitmap_lo := 0x04;
  offsetof_bg_inode_table_lo := 0x08;
  offsetof_bg_flags := 0x12;
  offsetof_bg_checksum := 0x1E;
  offsetof_bg_block_bitmap_hi := 0x20;
  offsetof_bg_inode_bitmap_hi := 0x24;
  offsetof_bg_inode_table_hi := 0x28;
  EXT4_MOUNT_GRPID := 0x00004;
  EXT4_MOUNT_DEBUG := 0x00008;
  EXT4_MOUNT_ERRORS_CONT := 0x00010;
  EXT4_MOUNT_ERRORS_RO := 0x00020;
  EXT4_MOUNT_ERRORS_PANIC := 0x00040;
  EXT4_MOUNT_ERRORS_MASK := 0x00070;
  EXT4_MOUNT_MINIX_DF := 0x00080;
  EXT4_MOUNT_NOLOAD := 0x00100;
  EXT4_MOUNT_DATA_FLAGS := 0x00C00;
  EXT4_MOUNT_JOURNAL_DATA := 0x00400;
  EXT4_MOUNT_ORDERED_DATA := 0x00800;
  EXT4_MOUNT_WRITEBACK_DATA := 0x00C00;
  EXT4_MOUNT_NO_UID32 := 0x02000;
  EXT4_MOUNT_XATTR_USER := 0x04000;
  EXT4_MOUNT_POSIX_ACL := 0x08000;
  EXT4_MOUNT_NO_AUTO_DA_ALLOC := 0x10000;
  EXT4_MOUNT_BARRIER := 0x20000;
  EXT4_MOUNT_DIOREAD_NOLOCK := 0x400000;
  EXT4_MOUNT_JOURNAL_CHECKSUM := 0x800000;
  EXT4_MOUNT_JOURNAL_ASYNC_COMMIT := 0x1000000;
  EXT4_MOUNT_MBLK_IO_SUBMIT := 0x4000000;
  EXT4_MOUNT_DELALLOC := 0x8000000;
  EXT4_MOUNT_DATA_ERR_ABORT := 0x10000000;
  EXT4_MOUNT_BLOCK_VALIDITY := 0x20000000;
  EXT4_MOUNT_DISCARD := 0x40000000;
  EXT4_MOUNT_INIT_INODE_TABLE := 0x80000000;
  EXT4_MOUNT_QUOTA := 0x80000;
  EXT4_MOUNT_USRQUOTA := 0x100000;
  EXT4_MOUNT_GRPQUOTA := 0x200000;
  QFMT_VFS_OLD := 1;
  QFMT_VFS_V0 := 2;
  QFMT_VFS_V1 := 4;
  EXT4_MOUNT2_EXPLICIT_DELALLOC := 0x00000001;
  EXT4_DEF_MAX_BATCH_TIME := 15000;
  EXT4_DEF_LI_WAIT_MULT := 10;
  CONFIG_EXT4_FS_XATTR := true;
  CONFIG_EXT4_FS_POSIX_ACL := true;
  JBD2_ABORT := 0x002;
  JBD2_BARRIER := 0x020;
  JBD2_REC_ERR := 0x080;
  JBD2_ABORT_ON_SYNCDATA_ERR := 0x040;
  JBD2_DEFAULT_MAX_COMMIT_AGE := 5;
  sizeof_s_error_func := 32;
  BITS_PER_LONG := 32;
  EINVAL := 22;
  EROFS := 30;
  EIO := 5;
  HZ := 100;
  BLOCK_SIZE := 1024;
  PAGE_CACHE_SIZE := 4096;
  IOPRIO_CLASS_BE := 2;
  IOPRIO_PRIO_VALUE := fun class data => Z.lor (class ≪ 13) data;
  crc16 := lib_crc16;
|}.

(** Stand-ins for the collaborators: free counts of an empty table, and
    remount helpers that succeed without touching the volume. *)
Definition collaborators : Ext4Collaborators := {|
  ext4_count_free_clusters := fun _ => 0;
  ext4_count_free_inodes := fun _ => 0;
|}.

Definition remount_collaborators : RemountCollaborators := {|
  set_task_ioprio := fun j ioprio => j <| j_task_ioprio := Some ioprio |>;
  ext4_mark_recovery_complete := mret tt;
  ext4_clear_journal_err := mret tt;
  ext4_multi_mount_protect := mret 0;
  ext4_unregister_li_request := mret tt;
  ext4_has_uninit_itable := fun k => s_groups_count (k_sbi k);
  ext4_register_li_request := fun _ => mret 0;
  ext4_setup_system_zone := mret 0;
|}.

(** A small clean volume: one group of 8192 blocks, 32-byte descriptors,
    no journal, mounted read-write, errors=continue. *)
Definition sample_uuid : list Z :=
  [0x10; 0x32; 0x54; 0x76; 0x98; 0xba; 0xdc; 0xfe;
   0x01; 0x23; 0x45; 0x67; 0x89; 0xab; 0xcd; 0xef].

Definition sample_es : ext4_super_block := {|
  s_blocks_count_lo := 8192;
  s_blocks_count_hi := 0;
  s_free_blocks_count_lo := 8000;
  s_free_blocks_count_hi := 0;
  s_free_inodes_count := 2000;
  s_first_data_block := 1;
  s_log_block_size := 0;
  s_mtime := 1000;
  s_wtime := 1000;
  s_mnt_count := 3;
  s_max_mnt_count := 20;
  s_state := 0x0001;
  s_lastcheck := 900;
  s_checkinterval := 0;
  s_rev_level := 1;
  s_first_ino := 11;
  s_inode_size := 256;
  s_feature_compat := 0;
  s_feature_incompat := 0x0042;
  s_feature_ro_compat := 0x0013;
  s_uuid := sample_uuid;
  s_last_orphan := 0;
  s_desc_size := 32;
  s_kbytes_written := 0;
  s_error_count := 0;
  s_first_error_time := 0;
  s_first_error_ino := 0;
  s_first_error_block := 0;
  s_first_error_func := EmptyString;
  s_first_error_line := 0;
  s_last_error_time := 0;
  s_last_error_ino := 0;
  s_last_error_line := 0;
  s_last_error_block := 0;
  s_last_error_func := EmptyString;
|}.

(** The descriptor of group 0 without its checksum: bitmaps at blocks 3
    and 4, inode table at block 5, flags [EXT4_BG_INODE_ZEROED]. *)
Definition sample_desc_unsigned : list Z :=
  [3; 0; 0; 0;  4; 0; 0; 0;  5; 0; 0; 0;  0x40; 0x1f;  0xd0; 0x07;
   2; 0;  4; 0;  0; 0; 0; 0;  0; 0; 0; 0;  0; 0;  0; 0].

Definition sample_sbi_with (descs : list (list Z)) : ext4_sb_info := {|
  sbi_s_desc_size := 32;
  s_blocks_per_group := 8192;
  s_itb_per_group := 64;
  s_groups_count := 1;
  s_cluster_bits := 0;
  s_mount_opt := 0x00010;
  s_mount_opt2 := 0;
  s_mount_flags := 0;
  s_mount_state := 0x0001;
  s_resuid := 0;
  s_resgid := 0;
  s_commit_interval := 500;
  s_min_batch_time := 0;
  s_max_batch_time := 15000;
  s_stripe := 0;
  s_inode_readahead_blks := 32;
  s_li_wait_mult := 10;
  sbi_s_kbytes_written := 7;
  s_sectors_written_start := 0;
  s_freeclusters_counter := 8000;
  s_freeinodes_counter := 2000;
  s_err_report := None;
  s_orphan := [];
  s_group_desc := descs;
  s_sbh := Some {| BH_Uptodate := true; BH_Dirty := false; BH_Write_EIO := false |};
  s_journal := None;
  s_es := sample_es;
|}.

(** The same descriptor with the checksum the kernel's CRC-16 gives it. *)
Definition sample_desc : list Z :=
  let c := @ext4_group_desc_csum headers (sample_sbi_with []) 0 sample_desc_unsigned in
  <[30%nat := u8 c]> (<[31%nat := u8 (c ≫ 8)]> sample_desc_unsigned).

Definition sample_sbi : ext4_sb_info := sample_sbi_with [sample_desc].

(** The descriptor with one bit of its stored checksum flipped. *)
Definition sample_desc_bad : list Z :=
  <[30%nat := Z.lxor (byte_at sample_desc 30) 1]> sample_desc.

Definition sample_bdev : block_device :=
  {| bd_read_only := false; bdi_dev := true; bd_part := None |}.

(** The volume with mount context [sbi], mounted with [flags]. *)
Definition sample_kernel_of (sbi : ext4_sb_info) (flags : Z) : kernel := {|
  k_sb := {| s_flags := flags;
             s_dirt := 0;
             s_bdev := sample_bdev;
             s_fs_info := sbi |};
  k_log := [];
  k_seconds := 5000;
  k_jiffies := 100000;
  k_inodes := ∅;
  k_trace := [];
  k_sync_result := 0;
  k_write_fails := false;
|}.

Definition sample_kernel : kernel := sample_kernel_of sample_sbi 0.

(** Three orphans: inode 12 still has a link and is to be cut to 4096
    bytes, inode 17 has none, inode 23 has two links; 12 leads to 17,
    17 to 23, and 23 ends the chain. *)
Definition sample_orphan_chain : list (Z * inode) :=
  [(12, {| i_nlink := 1; i_size := 4096; i_next_orphan := 17 |});
   (17, {| i_nlink := 0; i_size := 0; i_next_orphan := 23 |});
   (23, {| i_nlink := 2; i_size := 100; i_next_orphan := 0 |})].

(** The sample volume with that chain on disk, its head in the superblock,
    mount state [state], mounted with [flags], on a device that refuses
    writes when [ro_device] is set. *)
Definition orphaned_kernel (state : Z) (ro_device : bool) (flags : Z) : kernel :=
  let sbi := sample_sbi <| s_mount_state := state |>
                        <| s_es := sample_es <| s_last_orphan := 12 |> |> in
  (sample_kernel_of sbi flags)
    <| k_sb ::= fun sb => sb <| s_bdev := sample_bdev <| bd_read_only := ro_device |> |> |>
    <| k_inodes := list_to_map sample_orphan_chain |>.

(** The sample volume mounted with [flags] and with the error policy bits
    [policy] in its mount options. *)
Definition policy_kernel (policy : Z) (flags : Z) : kernel :=
  sample_kernel_of (sample_sbi <| s_mount_opt := policy |>) flags.

(** The sample volume, mounted read-write, after its device was ejected. *)
Definition ejected_kernel : kernel :=
  sample_kernel <| k_sb ::= fun sb => sb <| s_bdev := sample_bdev <| bdi_dev := false |> |> |>.

(** The sample volume with a superblock of revision 2, one above the
    supported revision, about to be mounted read-write. *)
Definition future_rev_kernel : kernel :=
  sample_kernel_of (sample_sbi <| s_es := sample_es <| s_rev_level := 2 |> |>) 0.

(** The remount options [stripe=8] and [abort], as [match_token] hands
    them to [handle_mount_opt]. *)
Definition stripe_option : list mount_option :=
  [{| mo_text := "stripe=8"; mo_token := Opt_stripe; mo_arg := IntArg 8 |}].
Definition abort_option : list mount_option :=
  [{| mo_text := "abort"; mo_token := Opt_abort; mo_arg := NoArg |}].

(** The sample volume, mounted read-write, with no superblock buffer. *)
Definition unbuffered_kernel : kernel :=
  sample_kernel_of (sample_sbi <| s_sbh := None |>) 0.

End Linux.

(** * Vocabulary of the statements *)

(** Bit [n] of [x] is set and lies outside the mask [supp]. *)
Definition unknown_bit (x supp : Z) : Prop :=
  exists n, 0 <= n < 32 /\ Z.testbit x n = true /\ Z.testbit supp n = false.

(** Every one of the low 32 bits of [x] lies inside [supp]. *)
Definition all_bits_known (x supp : Z) : Prop :=
  forall n, 0 <= n < 32 -> Z.testbit x n = true -> Z.testbit supp n = true.

(** What the descriptor checksum needs of [crc16]: a 16-bit result; one
    seed leading to one result on a given buffer; and a result that
    changes when a single byte of the buffer does. *)
Definition crc16_is_checksum `{Ext4Headers} : Prop :=
  (forall c l, 0 <= crc16 c l < 2 ^ 16) /\
  (forall c c' l, 0 <= c < 2 ^ 16 -> 0 <= c' < 2 ^ 16 -> Forall is_byte l ->
     crc16 c l = crc16 c' l -> c = c') /\
  (forall c l1 b b' l2, 0 <= c < 2 ^ 16 -> Forall is_byte l1 ->
     is_byte b -> is_byte b' -> Forall is_byte l2 ->
     crc16 c (l1 ++ b :: l2) = crc16 c (l1 ++ b' :: l2) -> b = b').

(** Two buffers that differ in exactly one byte. *)
Definition differ_in_one_byte (l l' : list Z) : Prop :=
  exists l1 b b' l2,
    l = l1 ++ b :: l2 /\ l' = l1 ++ b' :: l2 /\ b <> b'.

(** The orphan chain recorded on disk: from the head [ino], each inode
    number is non-zero and resolves to an inode whose stored next field
    names the following entry; the last entry's next field is zero. *)
Inductive orphan_chain (inodes : gmap Z inode) : Z -> list (Z * inode) -> Prop :=
  | orphan_chain_end : orphan_chain inodes 0 []
  | orphan_chain_link ino i rest :
      ino <> 0 ->
      inodes !! ino = Some i ->
      orphan_chain inodes (i_next_orphan i) rest ->
      orphan_chain inodes ino ((ino, i) :: rest).

(** What cleanup does to an entry: a truncation to the recorded size when
    the inode still has links, a deletion when it has none. *)
Definition orphan_event (e : Z * inode) : io_event :=
  if nz (i_nlink (snd e)) then EvTruncate (fst e) (i_size (snd e))
  else EvDelete (fst e).

Definition is_truncation (e : io_event) : bool :=
  match e with EvTruncate _ _ => true | _ => false end.
Definition is_deletion (e : io_event) : bool :=
  match e with EvDelete _ => true | _ => false end.
Definition count_truncations (t : list io_event) : nat :=
  length (List.filter is_truncation t).
Definition count_deletions (t : list io_event) : nat :=
  length (List.filter is_deletion t).

(** A computation that always returns, with the machine it leaves related
    by [R] to the one it found and its value in [Q]. *)
Definition ensures {A} (R : kernel -> kernel -> Prop) (Q : A -> Prop)
    (m : K A) : Prop :=
  forall k, exists a k', m k = Returned a k' /\ R k k' /\ Q a.

Definition any {A} (_ : A) : Prop := True.

Section Vocabulary.
Context `{Ext4Headers}.

(** The checksum feature is on. *)
Definition gdt_csum_enabled (sbi : ext4_sb_info) : bool :=
  nz (Z.land (s_feature_ro_compat (s_es sbi))
             (cpu_to_le32 EXT4_FEATURE_RO_COMPAT_GDT_CSUM)).

(** The descriptor has a checksummed tail: the 64-bit feature is on and the
    stored descriptor size reaches past the checksum field. *)
Definition csum_has_tail (sbi : ext4_sb_info) : bool :=
  nz (Z.land (s_feature_incompat (s_es sbi))
             (cpu_to_le32 EXT4_FEATURE_INCOMPAT_64BIT))
  && (offsetof_bg_checksum + 2 <? s_desc_size (s_es sbi)).

(** Byte [i] of a descriptor lies in the range the checksum covers: before
    the checksum field, or in the tail when there is one. *)
Definition csum_covered (sbi : ext4_sb_info) (i : Z) : bool :=
  ((0 <=? i) && (i <? offsetof_bg_checksum))
  || (csum_has_tail sbi
      && (offsetof_bg_checksum + 2 <=? i) && (i <? s_desc_size (s_es sbi))).

(** The volume is mounted read-only. *)
Definition mounted_read_only (k : kernel) : Prop :=
  Z.land (s_flags (k_sb k)) MS_RDONLY <> 0.

(** The first and the last block of group [i]: the whole volume when
    groups are flexible, otherwise the group's own run of
    [EXT4_BLOCKS_PER_GROUP] blocks, the last group ending with the volume. *)
Definition flex_bg (k : kernel) : bool :=
  EXT4_HAS_INCOMPAT_FEATURE k EXT4_FEATURE_INCOMPAT_FLEX_BG.
Definition group_first_block (k : kernel) (i : Z) : Z :=
  if flex_bg k then u64 (s_first_data_block (k_es k))
  else u64 (s_first_data_block (k_es k) + i * EXT4_BLOCKS_PER_GROUP k).
Definition group_last_block (k : kernel) (i : Z) : Z :=
  if (i =? u32 (s_groups_count (k_sbi k) - 1)) || flex_bg k
  then u64 (ext4_blocks_count (k_es k) - 1)
  else u64 (group_first_block k i + ulong (EXT4_BLOCKS_PER_GROUP k - 1)).

(** The bitmaps and the inode table of group [i] lie within the group. *)
Definition desc_locations_in_range (k : kernel) (i : Z) : Prop :=
  let gdp := ext4_get_group_desc k i in
  let first := group_first_block k i in
  let last := group_last_block k i in
  first <= ext4_block_bitmap k gdp <= last /\
  first <= ext4_inode_bitmap k gdp <= last /\
  first <= ext4_inode_table k gdp /\
  u64 (ext4_inode_table k gdp + s_itb_per_group (k_sbi k) - 1) <= last.

(** The stored checksum of group [i] differs from the recomputed one, the
    checksum feature being on. *)
Definition desc_checksum_mismatch (k : kernel) (i : Z) : Prop :=
  gdt_csum_enabled (k_sbi k) = true /\
  bg_checksum (ext4_get_group_desc k i)
  <> ext4_group_desc_csum (k_sbi k) i (ext4_get_group_desc k i).

(** The line [ext4_check_descriptors] logs for a group whose checksum does
    not verify. *)
Definition csum_warning (k : kernel) (i : Z) : kmsg :=
  {| km_level := KERN_ERR;
     km_fmt := "ext4_check_descriptors: Checksum for group %u failed (%u!=%u)";
     km_args :=
       [KInt i;
        KInt (ext4_group_desc_csum (k_sbi k) i (ext4_get_group_desc k i));
        KInt (bg_checksum (ext4_get_group_desc k i))] |}.

(** The chain of [crc16] calls of [ext4_group_desc_csum], on the four
    buffers it reads. *)
Definition csum_chain (uuid grp prefix : list Z) (tail : option (list Z)) : Z :=
  let crc := u16 (crc16 (u16 (Z.lnot 0)) uuid) in
  let crc := u16 (crc16 crc grp) in
  let crc := u16 (crc16 crc prefix) in
  match tail with
  | Some t => u16 (crc16 crc t)
  | None => crc
  end.

Definition csum_tail (sbi : ext4_sb_info) (gdp : list Z) : option (list Z) :=
  if csum_has_tail sbi
  then Some (mem_read gdp (offsetof_bg_checksum + 2)
               (s_desc_size (s_es sbi) - (offsetof_bg_checksum + 2)))
  else None.

(** The guard of [ext4_commit_super] lets the call through. *)
Definition commit_proceeds (k : kernel) : Prop :=
  s_sbh (k_sbi k) <> None /\ block_device_ejected k = false.

(** What a commit may change: of the superblock record, the write time,
    the kilobytes written and the free counts; of the mount context, the
    buffer and the record; of the super block, the dirty flag; of the
    machine, the log and the I/O trace. *)
Definition commit_frame (k k' : kernel) : Prop :=
  k_es k' = (k_es k) <| s_wtime := s_wtime (k_es k') |>
                     <| s_kbytes_written := s_kbytes_written (k_es k') |>
                     <| s_free_blocks_count_lo := s_free_blocks_count_lo (k_es k') |>
                     <| s_free_blocks_count_hi := s_free_blocks_count_hi (k_es k') |>
                     <| s_free_inodes_count := s_free_inodes_count (k_es k') |> /\
  k_sbi k' = (k_sbi k) <| s_sbh := s_sbh (k_sbi k') |> <| s_es := k_es k' |> /\
  k_sb k' = (k_sb k) <| s_dirt := s_dirt (k_sb k') |> <| s_fs_info := k_sbi k' |> /\
  k' = k <| k_sb := k_sb k' |> <| k_log := k_log k' |> <| k_trace := k_trace k' |>.

(** The line [ext4_setup_super] logs for a revision level it does not
    support. *)
Definition rev_too_high_msg : kmsg :=
  {| km_level := KERN_ERR;
     km_fmt := "revision level too high, forcing read-only mode";
     km_args := [] |}.

(** The mount flags are as they were and the log has only grown. *)
Definition flags_kept (k k' : kernel) : Prop :=
  s_flags (k_sb k') = s_flags (k_sb k) /\
  exists l, k_log k' = k_log k ++ l.

(** The read-only bit of the mount flags and the orphan head are as they
    were. *)
Definition read_only_kept (k k' : kernel) : Prop :=
  Z.land (s_flags (k_sb k')) MS_RDONLY = Z.land (s_flags (k_sb k)) MS_RDONLY /\
  s_last_orphan (k_es k') = s_last_orphan (k_es k).

(** What [ext4_remount] saves in its [struct ext4_mount_options] and in
    [old_sb_flags] before it parses the new options. *)
Definition remount_snapshot (k : kernel) : Z * ext4_mount_options :=
  (s_flags (k_sb k),
   {| old_s_mount_opt := s_mount_opt (k_sbi k);
      old_s_mount_opt2 := s_mount_opt2 (k_sbi k);
      old_s_resuid := s_resuid (k_sbi k);
      old_s_resgid := s_resgid (k_sbi k);
      old_s_commit_interval := s_commit_interval (k_sbi k);
      old_s_min_batch_time := s_min_batch_time (k_sbi k);
      old_s_max_batch_time := s_max_batch_time (k_sbi k) |}).

(** How a remount that is not carried out ends: it returns [-EINVAL] or
    [-EROFS] with everything it had saved put back, or it panics, the
    file system being marked aborted under the panic policy. *)
Inductive remount_refused (k : kernel) : outcome Z -> Prop :=
  | refused_with_error err k' :
      err = - EINVAL \/ err = - EROFS ->
      remount_snapshot k' = remount_snapshot k ->
      remount_refused k (Returned err k')
  | refused_by_panic k' :
      Z.land (s_mount_flags (k_sbi k')) EXT4_MF_FS_ABORTED <> 0 ->
      test_opt k' EXT4_MOUNT_ERRORS_PANIC <> 0 ->
      remount_refused k (Panicked k').

End Vocabulary.

(** The 256 table indices, for checking the table by computation. *)
Definition table_indices : list Z := List.map Z.of_nat (List.seq 0 256).

(** * More of fs/ext4/super.c *)

Section MoreVocabulary.
Context `{Ext4Headers}.

(** The inode table of group [i] is marked as zeroed in its descriptor. *)
Definition inode_table_zeroed (k : kernel) (i : Z) : bool :=
  nz (Z.land (bg_flags (ext4_get_group_desc k i)) (cpu_to_le16 EXT4_BG_INODE_ZEROED)).

(** [g] is the first group whose inode table is not zeroed, or the number
    of groups when every table is. *)
Definition first_not_zeroed (k : kernel) (g : Z) : Prop :=
  0 <= g <= s_groups_count (k_sbi k) /\
  (forall j, 0 <= j < g -> inode_table_zeroed k j = true) /\
  (g < s_groups_count (k_sbi k) -> inode_table_zeroed k g = false).

(** What the loop has found among the groups below [i]: [grp] is the
    first group with a table to zero, or still the number of groups. *)
Definition scanned (k : kernel) (i grp : Z) : Prop :=
  (grp = s_groups_count (k_sbi k) /\
   forall j, 0 <= j < i -> inode_table_zeroed k j = true) \/
  (0 <= grp < i /\ inode_table_zeroed k grp = false /\
   forall j, 0 <= j < grp -> inode_table_zeroed k j = true).

End MoreVocabulary.

Section MoreMessages.
Context `{Ext4Headers}.


End MoreMessages.

(** A walk along the orphan chain from [ino] through the entries [l] to
    the inode number [last], each entry non-zero and resolvable. *)
Inductive orphan_walk (inodes : gmap Z inode) : Z -> list (Z * inode) -> Z -> Prop :=
  | orphan_walk_end ino : orphan_walk inodes ino [] ino
  | orphan_walk_link ino i rest last :
      ino <> 0 ->
      inodes !! ino = Some i ->
      orphan_walk inodes (i_next_orphan i) rest last ->
      orphan_walk inodes ino ((ino, i) :: rest) last.

Section OptionVocabulary.
Context `{Ext4Headers}.

(** The three [errors=] options and the policy bit each stands for. *)
Definition error_policy (token : opt_token) : option Z :=
  match token with
  | Opt_err_panic => Some EXT4_MOUNT_ERRORS_PANIC
  | Opt_err_ro => Some EXT4_MOUNT_ERRORS_RO
  | Opt_err_cont => Some EXT4_MOUNT_ERRORS_CONT
  | _ => None
  end.

End OptionVocabulary.

(** Nothing is asked of the machine a computation leaves. *)
Definition anyhow (k k' : kernel) : Prop := True.

(** ** Stores into a group descriptor *)

(** A store of one byte, and of a little-endian field of two or four
    bytes, at byte [off] of the object [p].  The descriptors these are
    used on hold the whole field; a store past the end of the list is
    dropped. *)
Definition put_byte (p : list Z) (off v : Z) : list Z :=
  <[Z.to_nat off := v]> p.
Definition put_le16 (p : list Z) (off v : Z) : list Z :=
  put_byte (put_byte p off (u8 v)) (off + 1) (u8 (v ≫ 8)).
Definition put_le32 (p : list Z) (off v : Z) : list Z :=
  put_le16 (put_le16 p off v) (off + 2) (v ≫ 16).

(** [(s64) x], for [loff_t]. *)
Definition s64 (x : Z) : Z :=
  let y := u64 x in if y <? 2 ^ 63 then y else y - 2 ^ 64.

(** Constants of linux/fs.h and ext4.h that the size limits use. *)
Class Ext4Limits := {
  MAX_LFS_FILESIZE : Z;
  EXT4_NDIR_BLOCKS : Z;
}.

(** What linux/ioprio.h supplies to [ioprio_best] besides
    [IOPRIO_PRIO_VALUE] and [IOPRIO_CLASS_BE]. *)
Class IoprioHeaders := {
  IOPRIO_PRIO_CLASS : Z -> Z;
  ioprio_valid : Z -> bool;
  IOPRIO_NORM : Z;
}.

Section MoreCode.
Context `{Ext4Headers} `{Ext4Limits} `{IoprioHeaders}.

(** [ext4_block_bitmap_set], [ext4_inode_bitmap_set] and
    [ext4_inode_table_set]: the descriptor [bg] after the store. *)
Definition ext4_block_bitmap_set (k : kernel) (bg : list Z) (blk : Z) : list Z :=
  let bg := put_le32 bg offsetof_bg_block_bitmap_lo (cpu_to_le32 (u32 blk)) in
  if EXT4_DESC_SIZE k >=? EXT4_MIN_DESC_SIZE_64BIT
  then put_le32 bg offsetof_bg_block_bitmap_hi (cpu_to_le32 (blk ≫ 32))
  else bg.

Definition ext4_inode_bitmap_set (k : kernel) (bg : list Z) (blk : Z) : list Z :=
  let bg := put_le32 bg offsetof_bg_inode_bitmap_lo (cpu_to_le32 (u32 blk)) in
  if EXT4_DESC_SIZE k >=? EXT4_MIN_DESC_SIZE_64BIT
  then put_le32 bg offsetof_bg_inode_bitmap_hi (cpu_to_le32 (blk ≫ 32))
  else bg.

Definition ext4_inode_table_set (k : kernel) (bg : list Z) (blk : Z) : list Z :=
  let bg := put_le32 bg offsetof_bg_inode_table_lo (cpu_to_le32 (u32 blk)) in
  if EXT4_DESC_SIZE k >=? EXT4_MIN_DESC_SIZE_64BIT
  then put_le32 bg offsetof_bg_inode_table_hi (cpu_to_le32 (blk ≫ 32))
  else bg.

(** [ext4_max_size(blkbits, has_huge_files)]: the maximal size of a file
    in extent format, in [loff_t] arithmetic. *)
Definition ext4_max_size (blkbits has_huge_files : Z) : Z :=
  let upper_limit := MAX_LFS_FILESIZE in
  let upper_limit :=
    (* small i_blocks in vfs inode? *)
    if negb (nz has_huge_files) || blkcnt_t_is_narrow then
      let upper_limit := s64 (s64 (1 ≪ 32) - 1) in
      (* total blocks in file system block size *)
      let upper_limit := upper_limit ≫ (blkbits - 9) in
      s64 (upper_limit ≪ blkbits)
    else upper_limit in
  let res := s64 (s64 (1 ≪ 32) - 1) in
  let res := s64 (res ≪ blkbits) in
  (* Sanity check against vm- & vfs- imposed limits *)
  if res >? upper_limit then upper_limit else res.

(** [ext4_max_bitmap_size(bits, has_huge_files)]: the maximal size of a
    block-mapped file; [meta_blocks] is an [int].  [MAX_LFS_FILESIZE] is
    an unsigned 64-bit constant, so the last comparison is made on [res]
    read as unsigned, and the constant is stored back into the [loff_t]. *)
Definition ext4_max_bitmap_size (bits has_huge_files : Z) : Z :=
  let res := EXT4_NDIR_BLOCKS in
  let upper_limit :=
    if negb (nz has_huge_files) || blkcnt_t_is_narrow then
      let upper_limit := s64 (s64 (1 ≪ 32) - 1) in
      (* total blocks in file system block size *)
      upper_limit ≫ (bits - 9)
    else s64 (s64 (1 ≪ 48) - 1) in
  (* indirect blocks *)
  let meta_blocks := 1 in
  (* double indirect blocks *)
  let meta_blocks := s32 (meta_blocks + s64 (1 + s64 (1 ≪ (bits - 2)))) in
  (* tripple indirect blocks *)
  let meta_blocks :=
    s32 (meta_blocks
         + s64 (s64 (1 + s64 (1 ≪ (bits - 2))) + s64 (1 ≪ (2 * (bits - 2))))) in
  let upper_limit := s64 (upper_limit - meta_blocks) in
  let upper_limit := s64 (upper_limit ≪ bits) in
  let res := s64 (res + s64 (1 ≪ (bits - 2))) in
  let res := s64 (res + s64 (1 ≪ (2 * (bits - 2)))) in
  let res := s64 (res + s64 (1 ≪ (3 * (bits - 2)))) in
  let res := s64 (res ≪ bits) in
  let res := if res >? upper_limit then upper_limit else res in
  if u64 res >? MAX_LFS_FILESIZE then s64 MAX_LFS_FILESIZE else res.

(** [ext4_get_stripe_size(sbi)].  The superblock record of this model
    does not carry the two RAID fields, so [sbi->s_es->s_raid_stride] and
    [sbi->s_es->s_raid_stripe_width] are handed in; [ret] is an [int]. *)
Definition ext4_get_stripe_size (sbi : ext4_sb_info)
    (s_raid_stride s_raid_stripe_width : Z) : Z :=
  let stride := ulong (le16_to_cpu s_raid_stride) in
  let stripe_width := ulong (le32_to_cpu s_raid_stripe_width) in
  let ret :=
    if nz (s_stripe sbi) && (s_stripe sbi <=? s_blocks_per_group sbi)
    then s32 (s_stripe sbi)
    else if stripe_width <=? s_blocks_per_group sbi then s32 stripe_width
    else if stride <=? s_blocks_per_group sbi then s32 stride
    else 0 in
  (* If the stripe width is 1, this makes no sense and we set it to 0 to
     turn off stripe handling code. *)
  let ret := if ret <=? 1 then 0 else ret in
  ulong ret.

(** [ioprio_best(aprio, bprio)] of fs/ioprio.c, on [unsigned short]s. *)
Definition ioprio_best (aprio bprio : Z) : Z :=
  let aprio := u16 aprio in
  let bprio := u16 bprio in
  let aprio :=
    if negb (ioprio_valid aprio)
    then u16 (IOPRIO_PRIO_VALUE IOPRIO_CLASS_BE IOPRIO_NORM) else aprio in
  let bprio :=
    if negb (ioprio_valid bprio)
    then u16 (IOPRIO_PRIO_VALUE IOPRIO_CLASS_BE IOPRIO_NORM) else bprio in
  let aclass := u16 (IOPRIO_PRIO_CLASS aprio) in
  let bclass := u16 (IOPRIO_PRIO_CLASS bprio) in
  if aclass =? bclass then Z.min aprio bprio
  else if aclass >? bclass then bprio
  else aprio.

(** The priority [ioprio_best] works with: the argument as an
    [unsigned short], or best-effort at the normal level when that is not
    a valid priority. *)
Definition ioprio_or_default (prio : Z) : Z :=
  if negb (ioprio_valid (u16 prio))
  then u16 (IOPRIO_PRIO_VALUE IOPRIO_CLASS_BE IOPRIO_NORM) else u16 prio.

(** The four-byte field at [off] lies inside the descriptor [bg]. *)
Definition field_in (bg : list Z) (off : Z) : Prop :=
  0 <= off /\ off + 4 <= Z.of_nat (length bg).
(** Two four-byte fields do not overlap. *)
Definition fields_apart (off off' : Z) : Prop :=
  off + 4 <= off' \/ off' + 4 <= off.

(** The descriptor [bg] holds the three block-address fields, and their
    high halves when the descriptors are 64-bit ones, none overlapping
    another. *)
Definition address_fields (k : kernel) : list Z :=
  [offsetof_bg_block_bitmap_lo; offsetof_bg_inode_bitmap_lo;
   offsetof_bg_inode_table_lo]
  ++ (if EXT4_DESC_SIZE k >=? EXT4_MIN_DESC_SIZE_64BIT
      then [offsetof_bg_block_bitmap_hi; offsetof_bg_inode_bitmap_hi;
            offsetof_bg_inode_table_hi]
      else []).
Definition desc_layout (k : kernel) (bg : list Z) : Prop :=
  Forall (field_in bg) (address_fields k) /\
  forall i j o o',
    address_fields k !! i = Some o -> address_fields k !! j = Some o' ->
    i <> j -> fields_apart o o'.

(** A block number as a descriptor of this volume can hold it. *)
Definition desc_blocknr (k : kernel) (blk : Z) : Z :=
  if EXT4_DESC_SIZE k >=? EXT4_MIN_DESC_SIZE_64BIT then blk else u32 blk.

End MoreCode.

Section PolicyVocabulary.
Context `{Ext4Headers}.

(** The three error policies are bits of the policy mask, and the
    continue policy is a bit of its own. *)
Definition continue_policy_distinct : Prop :=
  EXT4_MOUNT_ERRORS_CONT <> 0 /\
  Z.land EXT4_MOUNT_ERRORS_CONT EXT4_MOUNT_ERRORS_MASK = EXT4_MOUNT_ERRORS_CONT /\
  Z.land EXT4_MOUNT_ERRORS_RO EXT4_MOUNT_ERRORS_MASK = EXT4_MOUNT_ERRORS_RO /\
  Z.land EXT4_MOUNT_ERRORS_PANIC EXT4_MOUNT_ERRORS_MASK = EXT4_MOUNT_ERRORS_PANIC /\
  Z.land EXT4_MOUNT_ERRORS_CONT EXT4_MOUNT_ERRORS_RO = 0 /\
  Z.land EXT4_MOUNT_ERRORS_CONT EXT4_MOUNT_ERRORS_PANIC = 0.

End PolicyVocabulary.

(** ** More sample volumes *)

#[global] Instance set_sbi_s_desc_size : Setter sbi_s_desc_size :=
  ltac:(mk_setter sbi_eta).

Module Samples.

(** linux/fs.h on a 32-bit machine with 4 KiB pages, and ext4.h. *)
Definition limits : Ext4Limits := {|
  MAX_LFS_FILESIZE := (4096 ≪ 31) - 1;
  EXT4_NDIR_BLOCKS := 12;
|}.

(** linux/ioprio.h: the class sits above bit 13, class 0 is no class. *)
Definition ioprio_headers : IoprioHeaders := {|
  IOPRIO_PRIO_CLASS := fun mask => mask ≫ 13;
  ioprio_valid := fun mask => negb (mask ≫ 13 =? 0);
  IOPRIO_NORM := 4;
|}.

(** The sample descriptor with its block bitmap at block 9000, past the
    end of the volume. *)
Definition stray_desc : list Z := put_le32 Linux.sample_desc 0 9000.
Definition stray_kernel : kernel :=
  Linux.sample_kernel_of (Linux.sample_sbi_with [stray_desc]) 0.

(** The sample volume with a superblock of the old revision. *)
Definition old_rev_kernel : kernel :=
  Linux.sample_kernel_of
    (Linux.sample_sbi <| s_es := Linux.sample_es <| s_rev_level := 0 |> |>) 0.



(** The orphaned sample volume with inode 17 gone: the chain breaks after
    its first entry. *)
Definition broken_orphan_kernel : kernel :=
  (Linux.orphaned_kernel 1 false 0) <| k_inodes ::= delete 17 |>.

(** Options as [match_token] hands them over. *)
Definition bad_readahead_option : list mount_option :=
  [{| mo_text := "inode_readahead_blks=48";
      mo_token := Opt_inode_readahead_blks; mo_arg := IntArg 48 |}].
Definition journal_dev_option : list mount_option :=
  [{| mo_text := "journal_dev=2049";
      mo_token := Opt_journal_dev; mo_arg := IntArg 2049 |}].

(** The sample volume with 64-byte descriptors, and a descriptor of it. *)
Definition wide_kernel : kernel :=
  Linux.sample_kernel_of (Linux.sample_sbi <| sbi_s_desc_size := 64 |>) 0.
Definition wide_desc : list Z := Linux.sample_desc ++ replicate 32 0.

End Samples.
(** * Properties *)

Ltac unfold_K :=
  unfold ext4_msg, printk;
  unfold mbind, mret, K_bind, K_ret, get_kernel, gets, modify, panic.

(** ** Bits *)

Lemma u32_testbit x n :
  0 <= n -> Z.testbit (u32 x) n = (n <? 32) && Z.testbit x n.
Proof.
  intros Hn. unfold u32. destruct (Z.ltb_spec n 32).
  - rewrite Z.mod_pow2_bits_low by lia. reflexivity.
  - rewrite Z.mod_pow2_bits_high by lia. reflexivity.
Qed.

Lemma unknown_bit_nz x supp :
  unknown_bit x supp -> nz (Z.land x (cpu_to_le32 (Z.lnot supp))) = true.
Proof.
  intros (n & Hn & Hx & Hs). unfold nz. apply negb_true_iff, Z.eqb_neq.
  intros H0. apply (f_equal (fun z => Z.testbit z n)) in H0.
  rewrite Z.land_spec, Z.bits_0 in H0. unfold cpu_to_le32 in H0.
  rewrite u32_testbit, Z.lnot_spec, Hx, Hs in H0 by lia.
  destruct (Z.ltb_spec n 32); [discriminate | lia].
Qed.

Lemma all_bits_known_nz x supp :
  all_bits_known x supp -> nz (Z.land x (cpu_to_le32 (Z.lnot supp))) = false.
Proof.
  intros Hall. unfold nz. apply negb_false_iff, Z.eqb_eq.
  apply Z.bits_inj'. intros n Hn.
  rewrite Z.land_spec, Z.bits_0. unfold cpu_to_le32.
  rewrite u32_testbit, Z.lnot_spec by lia.
  destruct (Z.ltb_spec n 32); simpl; [| apply andb_false_r].
  destruct (Z.testbit x n) eqn:Hx; [| reflexivity].
  rewrite (Hall n) by (auto; lia). reflexivity.
Qed.

Section FeatureGate.
Context `{Ext4Headers}.

(** C1. Feature gate.  Whatever the caller asks for, the check returns 0
    as soon as one incompatible-feature bit lies outside
    [EXT4_FEATURE_INCOMPAT_SUPP]; when every incompatible bit is supported
    and some read-only-compatible bit lies outside
    [EXT4_FEATURE_RO_COMPAT_SUPP], it returns 0 exactly when the mount is
    requested writable ([readonly = 0]) and 1 otherwise; and the
    compatible-feature word has no influence on the answer or on what is
    logged. *)
Theorem ext4_feature_set_ok_gate (k : kernel) (readonly : Z) :
  (unknown_bit (s_feature_incompat (k_es k)) EXT4_FEATURE_INCOMPAT_SUPP ->
     retval (ext4_feature_set_ok readonly k) = Some 0) /\
  (all_bits_known (s_feature_incompat (k_es k)) EXT4_FEATURE_INCOMPAT_SUPP ->
   unknown_bit (s_feature_ro_compat (k_es k)) EXT4_FEATURE_RO_COMPAT_SUPP ->
     (readonly = 0 -> retval (ext4_feature_set_ok readonly k) = Some 0) /\
     (readonly <> 0 -> retval (ext4_feature_set_ok readonly k) = Some 1)) /\
  (forall compat : Z,
     let k' := upd_es (fun es => es <| s_feature_compat := compat |>) k in
     retval (ext4_feature_set_ok readonly k')
       = retval (ext4_feature_set_ok readonly k) /\
     k_log (final (ext4_feature_set_ok readonly k'))
       = k_log (final (ext4_feature_set_ok readonly k))).
Proof.
  split; [| split].
  - intros Hu. unfold ext4_feature_set_ok, EXT4_HAS_INCOMPAT_FEATURE. unfold_K.
    rewrite (unknown_bit_nz _ _ Hu). reflexivity.
  - intros Hk Hu.
    unfold ext4_feature_set_ok, EXT4_HAS_INCOMPAT_FEATURE,
      EXT4_HAS_RO_COMPAT_FEATURE. unfold_K.
    rewrite (all_bits_known_nz _ _ Hk). split; intros Hro.
    + subst readonly. simpl. rewrite (unknown_bit_nz _ _ Hu). reflexivity.
    + unfold nz at 1. destruct (Z.eqb_spec readonly 0); [contradiction |].
      reflexivity.
  - intros compat k'. subst k'.
    unfold ext4_feature_set_ok, EXT4_HAS_INCOMPAT_FEATURE,
      EXT4_HAS_RO_COMPAT_FEATURE. unfold_K.
    change (k_es (upd_es _ k)) with ((k_es k) <| s_feature_compat := compat |>).
    simpl.
    repeat match goal with
           | |- context [if ?b then _ else _] => destruct b
           end; simpl; auto.
Qed.

End FeatureGate.

(** ** Machine integers and memory *)

Lemma u16_range x : 0 <= u16 x < 2 ^ 16.
Proof. unfold u16. apply Z.mod_pos_bound. lia. Qed.

Lemma u16_small x : 0 <= x < 2 ^ 16 -> u16 x = x.
Proof. intros. unfold u16. apply Z.mod_small. assumption. Qed.

Lemma u8_is_byte x : is_byte (u8 x).
Proof. unfold is_byte, u8. apply (Z.mod_pos_bound x (2 ^ 8)). lia. Qed.

Lemma le32_bytes_are_bytes x : Forall is_byte (le32_bytes x).
Proof. unfold le32_bytes. repeat constructor; apply u8_is_byte. Qed.

Lemma mem_read_le32_bytes x : mem_read (le32_bytes x) 0 4 = le32_bytes x.
Proof. reflexivity. Qed.

Lemma mem_read_bytes p off len :
  Forall is_byte p -> Forall is_byte (mem_read p off len).
Proof. intros. unfold mem_read. apply Forall_take, Forall_drop. assumption. Qed.

Lemma mem_read_lookup p off len (i : nat) :
  mem_read p off len !! i
  = if decide (i < Z.to_nat len)%nat then p !! (Z.to_nat off + i)%nat else None.
Proof.
  unfold mem_read. case_decide.
  - rewrite lookup_take_lt by assumption. apply lookup_drop.
  - apply lookup_take_ge. lia.
Qed.

(** Reading a window of memory only looks at the bytes inside it. *)
Lemma mem_read_ext p p' off len :
  0 <= off ->
  (forall i, off <= i < off + len -> p' !! Z.to_nat i = p !! Z.to_nat i) ->
  mem_read p' off len = mem_read p off len.
Proof.
  intros Hoff Hagree. apply list_eq. intros i.
  rewrite !mem_read_lookup. case_decide; [| reflexivity].
  replace (Z.to_nat off + i)%nat with (Z.to_nat (off + Z.of_nat i)) by lia.
  apply Hagree. lia.
Qed.

Lemma insert_differ_in_one_byte (l : list Z) (i : nat) (b b' : Z) :
  l !! i = Some b -> b <> b' -> differ_in_one_byte l (<[i := b']> l).
Proof.
  intros Hl Hne. exists (take i l), b, b', (drop (S i) l).
  split; [| split; [| assumption]].
  - symmetry. apply take_drop_middle. assumption.
  - apply insert_take_drop. eapply lookup_lt_Some. eassumption.
Qed.

(** A write into a window of memory is a write into what is read from it. *)
Lemma mem_read_insert_inside p off len (i : nat) b' :
  0 <= off -> (Z.to_nat off <= i < Z.to_nat off + Z.to_nat len)%nat ->
  mem_read (<[i := b']> p) off len
  = <[(i - Z.to_nat off)%nat := b']> (mem_read p off len).
Proof.
  intros Hoff Hi. unfold mem_read.
  rewrite drop_insert_ge by lia. apply take_insert_lt. lia.
Qed.

Lemma mem_read_insert_outside p off len (i : nat) b' :
  0 <= off -> ((i < Z.to_nat off) \/ (Z.to_nat off + Z.to_nat len <= i))%nat ->
  mem_read (<[i := b']> p) off len = mem_read p off len.
Proof.
  intros Hoff [Hi | Hi]; unfold mem_read.
  - rewrite drop_insert_lt by lia. reflexivity.
  - rewrite drop_insert_ge by lia. apply take_insert_ge. lia.
Qed.

(** ** The descriptor checksum *)

Section Checksum.
Context `{Ext4Headers}.

Lemma ext4_group_desc_csum_chain sbi block_group gdp :
  gdt_csum_enabled sbi = true ->
  ext4_group_desc_csum sbi block_group gdp
  = csum_chain (mem_read (s_uuid (s_es sbi)) 0 16)
      (le32_bytes (cpu_to_le32 block_group))
      (mem_read gdp 0 offsetof_bg_checksum) (csum_tail sbi gdp).
Proof.
  intros Hen. unfold ext4_group_desc_csum, csum_chain, csum_tail, csum_has_tail.
  unfold gdt_csum_enabled in Hen. rewrite Hen.
  unfold sizeof_s_uuid, sizeof_le_group, sizeof_bg_checksum, le16_to_cpu.
  rewrite mem_read_le32_bytes. unfold cpu_to_le16.
  destruct (nz _ && _); rewrite u16_small; auto using u16_range.
Qed.

Lemma csum_chain_range uuid grp prefix tail :
  0 <= csum_chain uuid grp prefix tail < 2 ^ 16.
Proof. unfold csum_chain. destruct tail; apply u16_range. Qed.

Lemma crc16_seed_inj c c' l :
  crc16_is_checksum -> 0 <= c < 2 ^ 16 -> 0 <= c' < 2 ^ 16 ->
  Forall is_byte l -> u16 (crc16 c l) = u16 (crc16 c' l) -> c = c'.
Proof.
  intros (Hr & Hs & _) Hc Hc' Hl Heq.
  rewrite !u16_small in Heq by apply Hr. eapply Hs; eassumption.
Qed.

Lemma crc16_flip c l l' :
  crc16_is_checksum -> 0 <= c < 2 ^ 16 -> Forall is_byte l -> Forall is_byte l' ->
  differ_in_one_byte l l' -> u16 (crc16 c l) <> u16 (crc16 c l').
Proof.
  intros (Hr & _ & Hf) Hc Hl Hl' (l1 & b & b' & l2 & -> & -> & Hne) Heq.
  rewrite !u16_small in Heq by apply Hr.
  apply Forall_app in Hl as [Hl1 Hl2]. apply Forall_app in Hl' as [_ Hl2'].
  apply Forall_cons in Hl2 as [Hb Hl2]. apply Forall_cons in Hl2' as [Hb' _].
  apply Hne. apply (Hf c l1 b b' l2); assumption.
Qed.

Lemma csum_tail_bytes sbi gdp :
  Forall is_byte gdp ->
  match csum_tail sbi gdp with Some t => Forall is_byte t | None => True end.
Proof.
  intros. unfold csum_tail. destruct (csum_has_tail sbi); [| exact I].
  apply mem_read_bytes. assumption.
Qed.

(** From the call that first sees a difference, the chain keeps it. *)
Lemma csum_chain_tail_inj c c' tail :
  crc16_is_checksum -> 0 <= c < 2 ^ 16 -> 0 <= c' < 2 ^ 16 ->
  match tail with Some t => Forall is_byte t | None => True end ->
  c <> c' ->
  match tail with Some t => u16 (crc16 c t) | None => c end
  <> match tail with Some t => u16 (crc16 c' t) | None => c' end.
Proof.
  intros Hcrc Hc Hc' Ht Hne. destruct tail as [t |]; [| assumption].
  intros Heq. apply Hne. eapply crc16_seed_inj; eassumption.
Qed.

Lemma csum_chain_flip_uuid uuid uuid' grp prefix tail :
  crc16_is_checksum ->
  Forall is_byte uuid -> Forall is_byte uuid' -> Forall is_byte grp ->
  Forall is_byte prefix ->
  match tail with Some t => Forall is_byte t | None => True end ->
  differ_in_one_byte uuid uuid' ->
  csum_chain uuid' grp prefix tail <> csum_chain uuid grp prefix tail.
Proof.
  intros Hcrc Hu Hu' Hg Hp Ht Hd. unfold csum_chain.
  apply csum_chain_tail_inj; auto using u16_range.
  intros Heq. apply crc16_seed_inj in Heq; auto using u16_range.
  apply crc16_seed_inj in Heq; auto using u16_range.
  symmetry in Heq. revert Heq. apply crc16_flip; auto using u16_range.
Qed.

Lemma csum_chain_flip_group uuid grp grp' prefix tail :
  crc16_is_checksum ->
  Forall is_byte grp -> Forall is_byte grp' -> Forall is_byte prefix ->
  match tail with Some t => Forall is_byte t | None => True end ->
  differ_in_one_byte grp grp' ->
  csum_chain uuid grp' prefix tail <> csum_chain uuid grp prefix tail.
Proof.
  intros Hcrc Hg Hg' Hp Ht Hd. unfold csum_chain.
  apply csum_chain_tail_inj; auto using u16_range.
  intros Heq. apply crc16_seed_inj in Heq; auto using u16_range.
  symmetry in Heq. revert Heq. apply crc16_flip; auto using u16_range.
Qed.

Lemma csum_chain_flip_prefix uuid grp prefix prefix' tail :
  crc16_is_checksum ->
  Forall is_byte prefix -> Forall is_byte prefix' ->
  match tail with Some t => Forall is_byte t | None => True end ->
  differ_in_one_byte prefix prefix' ->
  csum_chain uuid grp prefix' tail <> csum_chain uuid grp prefix tail.
Proof.
  intros Hcrc Hp Hp' Ht Hd. unfold csum_chain.
  apply csum_chain_tail_inj; auto using u16_range.
  intros Heq. symmetry in Heq. revert Heq.
  apply crc16_flip; auto using u16_range.
Qed.

Lemma csum_chain_flip_tail uuid grp prefix t t' :
  crc16_is_checksum -> Forall is_byte t -> Forall is_byte t' ->
  differ_in_one_byte t t' ->
  csum_chain uuid grp prefix (Some t') <> csum_chain uuid grp prefix (Some t).
Proof.
  intros Hcrc Ht Ht' Hd. unfold csum_chain.
  intros Heq. symmetry in Heq. revert Heq.
  apply crc16_flip; auto using u16_range.
Qed.

Lemma Forall_is_byte_insert (l : list Z) (i : nat) b :
  Forall is_byte l -> is_byte b -> Forall is_byte (<[i := b]> l).
Proof.
  intros Hl Hb. destruct (decide (i < length l)%nat).
  - apply Forall_insert; assumption.
  - rewrite list_insert_ge by lia. assumption.
Qed.

(** C6. Input range of the descriptor checksum.  With the checksum
    feature on, and [crc16] a 16-bit checksum that tells seeds apart and
    notices a changed byte, [ext4_group_desc_csum] (1) is a 16-bit value;
    (2) is the same for any two mount contexts, group numbers and
    descriptors that agree on the UUID, on the group index as a 32-bit
    number, on whether there is a checksummed tail and up to where, and on
    the descriptor bytes in the covered range (everything before the
    checksum field, and the tail after it when the 64-bit feature is on
    and the descriptor size reaches past the field), so no other input
    matters; (3) changes when one covered byte of the descriptor changes;
    (4) changes when one byte of the UUID changes; (5) changes when one
    byte of the little-endian group index changes. *)
Theorem ext4_group_desc_csum_input_range (sbi : ext4_sb_info)
    (block_group : Z) (gdp : list Z) :
  crc16_is_checksum ->
  gdt_csum_enabled sbi = true ->
  0 <= offsetof_bg_checksum ->
  Forall is_byte (s_uuid (s_es sbi)) ->
  Forall is_byte gdp ->
  0 <= ext4_group_desc_csum sbi block_group gdp < 2 ^ 16 /\
  (forall sbi' block_group' gdp',
     gdt_csum_enabled sbi' = true ->
     mem_read (s_uuid (s_es sbi')) 0 16 = mem_read (s_uuid (s_es sbi)) 0 16 ->
     u32 block_group' = u32 block_group ->
     csum_has_tail sbi' = csum_has_tail sbi ->
     (csum_has_tail sbi = true ->
      s_desc_size (s_es sbi') = s_desc_size (s_es sbi)) ->
     (forall i, csum_covered sbi i = true ->
                gdp' !! Z.to_nat i = gdp !! Z.to_nat i) ->
     ext4_group_desc_csum sbi' block_group' gdp'
     = ext4_group_desc_csum sbi block_group gdp) /\
  (forall i b',
     csum_covered sbi i = true -> (Z.to_nat i < length gdp)%nat ->
     is_byte b' -> gdp !! Z.to_nat i <> Some b' ->
     ext4_group_desc_csum sbi block_group (<[Z.to_nat i := b']> gdp)
     <> ext4_group_desc_csum sbi block_group gdp) /\
  (forall (j : nat) b',
     (j < 16)%nat -> (j < length (s_uuid (s_es sbi)))%nat ->
     is_byte b' -> s_uuid (s_es sbi) !! j <> Some b' ->
     ext4_group_desc_csum
       (sbi <| s_es ::= fun es => es <| s_uuid ::= fun u => <[j := b']> u |> |>)
       block_group gdp
     <> ext4_group_desc_csum sbi block_group gdp) /\
  (forall block_group',
     differ_in_one_byte (le32_bytes (cpu_to_le32 block_group))
                        (le32_bytes (cpu_to_le32 block_group')) ->
     ext4_group_desc_csum sbi block_group' gdp
     <> ext4_group_desc_csum sbi block_group gdp).
Proof.
  intros Hcrc Hen Hoff Huuid Hgdp.
  pose proof (csum_tail_bytes sbi gdp Hgdp) as Htail.
  rewrite (ext4_group_desc_csum_chain _ _ _ Hen).
  split; [apply csum_chain_range |].
  split; [| split; [| split]].
  - (* frame *)
    intros sbi' g' gdp' Hen' Hu Hg Ht Hds Hcov.
    rewrite (ext4_group_desc_csum_chain _ _ _ Hen').
    rewrite Hu. unfold cpu_to_le32. rewrite Hg. f_equal.
    + apply mem_read_ext; [lia |]. intros i Hi. apply Hcov.
      unfold csum_covered. apply orb_true_iff. left.
      apply andb_true_iff. split; [apply Z.leb_le | apply Z.ltb_lt]; lia.
    + unfold csum_tail. rewrite Ht.
      destruct (csum_has_tail sbi) eqn:Hhas; [| reflexivity].
      rewrite (Hds eq_refl). f_equal.
      apply mem_read_ext; [lia |]. intros i Hi. apply Hcov.
      unfold csum_covered. rewrite Hhas. apply orb_true_iff. right.
      apply andb_true_iff. split; [apply Z.leb_le | apply Z.ltb_lt]; lia.
  - (* a byte of the descriptor *)
    intros i b' Hcov Hlen Hb' Hold.
    destruct (gdp !! Z.to_nat i) as [b |] eqn:Hb;
      [| apply lookup_ge_None in Hb; lia].
    assert (b <> b') as Hne by congruence.
    rewrite ext4_group_desc_csum_chain by assumption.
    unfold csum_covered in Hcov. apply orb_true_iff in Hcov as [Hpre | Hpost].
    + apply andb_true_iff in Hpre as [Hi0 Hi1].
      apply Z.leb_le in Hi0. apply Z.ltb_lt in Hi1.
      replace (csum_tail sbi (<[Z.to_nat i := b']> gdp)) with (csum_tail sbi gdp).
      2:{ unfold csum_tail. destruct (csum_has_tail sbi); [| reflexivity].
          rewrite mem_read_insert_outside by lia. reflexivity. }
      rewrite mem_read_insert_inside by lia.
      apply csum_chain_flip_prefix; auto using mem_read_bytes.
      { apply Forall_is_byte_insert; auto using mem_read_bytes. }
      apply (insert_differ_in_one_byte _ _ b); [| assumption].
      rewrite mem_read_lookup. case_decide; [| lia].
      rewrite <- Hb. f_equal. lia.
    + apply andb_true_iff in Hpost as [Hpost Hi1].
      apply andb_true_iff in Hpost as [Hhas Hi0].
      apply Z.leb_le in Hi0. apply Z.ltb_lt in Hi1.
      rewrite mem_read_insert_outside by lia.
      unfold csum_tail. rewrite Hhas.
      rewrite mem_read_insert_inside by lia.
      apply csum_chain_flip_tail; auto using mem_read_bytes.
      { apply Forall_is_byte_insert; auto using mem_read_bytes. }
      apply (insert_differ_in_one_byte _ _ b); [| assumption].
      rewrite mem_read_lookup. case_decide; [| lia].
      rewrite <- Hb. f_equal. lia.
  - (* a byte of the UUID *)
    intros j b' Hj Hlen Hb' Hold.
    destruct (s_uuid (s_es sbi) !! j) as [b |] eqn:Hb;
      [| apply lookup_ge_None in Hb; lia].
    assert (b <> b') as Hne by congruence.
    rewrite ext4_group_desc_csum_chain by exact Hen.
    change (csum_tail (sbi <| s_es ::= _ |>) gdp) with (csum_tail sbi gdp).
    change (s_uuid (s_es (sbi <| s_es ::= _ |>)))
      with (<[j := b']> (s_uuid (s_es sbi))).
    replace j with (Z.to_nat (Z.of_nat j)) at 1 by lia.
    rewrite mem_read_insert_inside by lia.
    apply csum_chain_flip_uuid;
      auto using mem_read_bytes, le32_bytes_are_bytes.
    { apply Forall_is_byte_insert; auto using mem_read_bytes. }
    apply (insert_differ_in_one_byte _ _ b); [| assumption].
    rewrite mem_read_lookup. case_decide; [| lia].
    rewrite <- Hb. f_equal. lia.
  - (* a byte of the group index *)
    intros g' Hd.
    rewrite ext4_group_desc_csum_chain by exact Hen.
    apply csum_chain_flip_group;
      auto using mem_read_bytes, le32_bytes_are_bytes.
Qed.

End Checksum.

(** ** The CRC-16 of lib/crc16.c is such a checksum *)

Lemma mod_pow2_testbit x n m :
  0 <= n -> 0 <= m -> Z.testbit (x mod 2 ^ n) m = (m <? n) && Z.testbit x m.
Proof.
  intros Hn Hm. destruct (Z.ltb_spec m n).
  - rewrite Z.mod_pow2_bits_low by lia. reflexivity.
  - rewrite Z.mod_pow2_bits_high by lia. reflexivity.
Qed.

Lemma lxor_mod_pow2 a b n :
  0 <= n -> Z.lxor a b mod 2 ^ n = Z.lxor (a mod 2 ^ n) (b mod 2 ^ n).
Proof.
  intros Hn. apply Z.bits_inj'. intros m Hm.
  rewrite Z.lxor_spec, !mod_pow2_testbit, Z.lxor_spec by lia.
  destruct (m <? n); reflexivity.
Qed.

Lemma lxor_range a b n :
  0 <= n -> 0 <= a < 2 ^ n -> 0 <= b < 2 ^ n -> 0 <= Z.lxor a b < 2 ^ n.
Proof.
  intros Hn Ha Hb.
  assert (Z.lxor a b = Z.lxor a b mod 2 ^ n) as Heq.
  { rewrite lxor_mod_pow2, !Z.mod_small by assumption. reflexivity. }
  rewrite Heq. apply Z.mod_pos_bound. lia.
Qed.

Lemma lxor_cancel_r a b c : Z.lxor a c = Z.lxor b c -> a = b.
Proof.
  intros Heq. apply (f_equal (fun x => Z.lxor x c)) in Heq.
  rewrite !Z.lxor_assoc, Z.lxor_nilpotent, !Z.lxor_0_r in Heq. exact Heq.
Qed.

Lemma lxor_cancel_l a b c : Z.lxor c a = Z.lxor c b -> a = b.
Proof. rewrite !(Z.lxor_comm c). apply lxor_cancel_r. Qed.

Lemma land_255 x : Z.land x 255 = x mod 2 ^ 8.
Proof. apply (Z.land_ones x 8). lia. Qed.

Lemma table_indices_In i : 0 <= i < 256 -> List.In i table_indices.
Proof.
  intros Hi. unfold table_indices. apply List.in_map_iff.
  exists (Z.to_nat i). split; [lia |]. apply List.in_seq. lia.
Qed.

Lemma crc16_table_range i : 0 <= i < 256 -> 0 <= Linux.crc16_table i < 2 ^ 16.
Proof.
  intros Hi.
  assert (List.forallb (fun i => (0 <=? Linux.crc16_table i)
                                 && (Linux.crc16_table i <? 2 ^ 16))
            table_indices = true) as Hall by (vm_compute; reflexivity).
  rewrite List.forallb_forall in Hall.
  specialize (Hall i (table_indices_In i Hi)).
  apply andb_true_iff in Hall as [H0 H1].
  apply Z.leb_le in H0. apply Z.ltb_lt in H1. lia.
Qed.

(** The high bytes of the table entries are pairwise different. *)
Lemma crc16_table_high_inj i j :
  0 <= i < 256 -> 0 <= j < 256 ->
  Linux.crc16_table i ≫ 8 = Linux.crc16_table j ≫ 8 -> i = j.
Proof.
  intros Hi Hj Heq.
  assert (List.forallb (fun i => List.forallb (fun j =>
            (i =? j) || negb (Linux.crc16_table i ≫ 8 =? Linux.crc16_table j ≫ 8))
            table_indices) table_indices = true) as Hall
    by (vm_compute; reflexivity).
  rewrite List.forallb_forall in Hall.
  specialize (Hall i (table_indices_In i Hi)).
  rewrite List.forallb_forall in Hall.
  specialize (Hall j (table_indices_In j Hj)).
  apply orb_true_iff in Hall as [Hij | Hne].
  - apply Z.eqb_eq. exact Hij.
  - apply negb_true_iff, Z.eqb_neq in Hne. contradiction.
Qed.

Lemma crc16_byte_unfold c d :
  0 <= c < 2 ^ 16 -> is_byte d ->
  Linux.crc16_byte c d
  = Z.lxor (c ≫ 8) (Linux.crc16_table (Z.lxor (c mod 2 ^ 8) d)).
Proof.
  intros Hc Hd. unfold Linux.crc16_byte.
  rewrite (u16_small c) by assumption.
  rewrite land_255, lxor_mod_pow2 by lia.
  unfold u8. rewrite Z.mod_mod by lia.
  rewrite (Z.mod_small d) by (unfold is_byte in Hd; lia). reflexivity.
Qed.

Lemma crc16_index_range c d :
  is_byte d -> 0 <= Z.lxor (c mod 2 ^ 8) d < 256.
Proof.
  intros Hd. apply (lxor_range _ _ 8); [lia | |].
  - apply Z.mod_pos_bound. lia.
  - exact Hd.
Qed.

Lemma shiftr8_range c : 0 <= c < 2 ^ 16 -> 0 <= c ≫ 8 < 2 ^ 8.
Proof.
  intros Hc. rewrite Z.shiftr_div_pow2 by lia. split.
  - apply Z.div_pos; lia.
  - apply Z.div_lt_upper_bound; lia.
Qed.

Lemma crc16_byte_range c d :
  0 <= c < 2 ^ 16 -> is_byte d -> 0 <= Linux.crc16_byte c d < 2 ^ 16.
Proof.
  intros Hc Hd. rewrite crc16_byte_unfold by assumption.
  apply (lxor_range _ _ 16); [lia | |].
  - pose proof (shiftr8_range c Hc). lia.
  - apply crc16_table_range, crc16_index_range, Hd.
Qed.

(** One byte, two states: different states stay different. *)
Lemma crc16_byte_inj_state c c' d :
  0 <= c < 2 ^ 16 -> 0 <= c' < 2 ^ 16 -> is_byte d ->
  Linux.crc16_byte c d = Linux.crc16_byte c' d -> c = c'.
Proof.
  intros Hc Hc' Hd Heq. rewrite !crc16_byte_unfold in Heq by assumption.
  pose proof (crc16_index_range c d Hd) as Hi.
  pose proof (crc16_index_range c' d Hd) as Hi'.
  assert (Z.lxor (c mod 2 ^ 8) d = Z.lxor (c' mod 2 ^ 8) d) as Hidx.
  { apply crc16_table_high_inj; try assumption.
    apply (f_equal (fun x => x ≫ 8)) in Heq.
    rewrite !Z.shiftr_lxor, !Z.shiftr_shiftr in Heq by lia.
    rewrite !(Z.shiftr_div_pow2 _ (8 + 8)) in Heq by lia.
    rewrite !Z.div_small, !Z.lxor_0_l in Heq by (simpl; lia). exact Heq. }
  rewrite Hidx in Heq. apply lxor_cancel_r in Heq, Hidx.
  rewrite !Z.shiftr_div_pow2 in Heq by lia.
  rewrite (Z.div_mod c (2 ^ 8)), (Z.div_mod c' (2 ^ 8)) by lia.
  rewrite Heq, Hidx. reflexivity.
Qed.

(** One state, two bytes: different bytes give different states. *)
Lemma crc16_byte_inj_data c d d' :
  0 <= c < 2 ^ 16 -> is_byte d -> is_byte d' ->
  Linux.crc16_byte c d = Linux.crc16_byte c d' -> d = d'.
Proof.
  intros Hc Hd Hd' Heq. rewrite !crc16_byte_unfold in Heq by assumption.
  apply lxor_cancel_l in Heq.
  assert (Z.lxor (c mod 2 ^ 8) d = Z.lxor (c mod 2 ^ 8) d') as Hidx.
  { apply crc16_table_high_inj; auto using crc16_index_range.
    rewrite Heq. reflexivity. }
  apply lxor_cancel_l in Hidx. exact Hidx.
Qed.

Lemma crc16_fold_range l c :
  0 <= c < 2 ^ 16 -> Forall is_byte l ->
  0 <= fold_left Linux.crc16_byte l c < 2 ^ 16.
Proof.
  revert c. induction l as [| d l IH]; intros c Hc Hl; simpl; [assumption |].
  apply Forall_cons in Hl as [Hd Hl].
  apply IH; [apply crc16_byte_range |]; assumption.
Qed.

Lemma crc16_fold_inj l c c' :
  0 <= c < 2 ^ 16 -> 0 <= c' < 2 ^ 16 -> Forall is_byte l ->
  fold_left Linux.crc16_byte l c = fold_left Linux.crc16_byte l c' -> c = c'.
Proof.
  revert c c'. induction l as [| d l IH]; intros c c' Hc Hc' Hl Heq; simpl in Heq;
    [assumption |].
  apply Forall_cons in Hl as [Hd Hl].
  apply IH in Heq; auto using crc16_byte_range.
  eapply crc16_byte_inj_state; eassumption.
Qed.

Lemma crc16_byte_range_any c d : 0 <= Linux.crc16_byte c d < 2 ^ 16.
Proof.
  unfold Linux.crc16_byte. apply (lxor_range _ _ 16); [lia | |].
  - pose proof (shiftr8_range _ (u16_range c)). lia.
  - apply crc16_table_range. rewrite land_255. apply Z.mod_pos_bound. lia.
Qed.

Lemma crc16_fold_range_any l c :
  0 <= c < 2 ^ 16 -> 0 <= fold_left Linux.crc16_byte l c < 2 ^ 16.
Proof.
  revert c. induction l as [| d l IH]; intros c Hc; simpl; [assumption |].
  apply IH, crc16_byte_range_any.
Qed.

Lemma lib_crc16_is_checksum : @crc16_is_checksum Linux.headers.
Proof.
  unfold crc16_is_checksum. simpl. unfold Linux.lib_crc16.
  split; [| split].
  - intros c l. apply crc16_fold_range_any, u16_range.
  - intros c c' l Hc Hc' Hl Heq. rewrite !u16_small in Heq by assumption.
    eapply crc16_fold_inj; eassumption.
  - intros c l1 b b' l2 Hc Hl1 Hb Hb' Hl2 Heq.
    rewrite !fold_left_app in Heq. simpl in Heq.
    rewrite u16_small in Heq by assumption.
    pose proof (crc16_fold_range l1 c Hc Hl1) as Hs.
    apply crc16_fold_inj in Heq; auto using crc16_byte_range.
    eapply crc16_byte_inj_data; eassumption.
Qed.


(** ** Verifying the group descriptors *)

Section CheckDescriptors.
Context `{Ext4Headers} `{Ext4Collaborators}.

Lemma csum_verify_mismatch k i :
  nz (ext4_group_desc_csum_verify (k_sbi k) i (ext4_get_group_desc k i)) = false
  <-> desc_checksum_mismatch k i.
Proof.
  unfold ext4_group_desc_csum_verify, desc_checksum_mismatch, gdt_csum_enabled.
  destruct (nz (Z.land _ _)); simpl.
  - destruct (Z.eqb_spec (bg_checksum (ext4_get_group_desc k i))
                (ext4_group_desc_csum (k_sbi k) i (ext4_get_group_desc k i)));
      simpl.
    + split; [discriminate | intros [_ Hne]; contradiction].
    + split; [intros _; split; [reflexivity | assumption] | reflexivity].
  - split; [discriminate | intros [Hf _]; discriminate].
Qed.

Lemma mismatch_dec k i : desc_checksum_mismatch k i \/ ~ desc_checksum_mismatch k i.
Proof.
  destruct (nz (ext4_group_desc_csum_verify (k_sbi k) i (ext4_get_group_desc k i)))
    eqn:Hv.
  - right. intros Hm. apply csum_verify_mismatch in Hm. congruence.
  - left. apply csum_verify_mismatch. exact Hv.
Qed.

Lemma group_first_block_next k i :
  (if flex_bg k then group_first_block k i
   else u64 (group_first_block k i + EXT4_BLOCKS_PER_GROUP k))
  = group_first_block k (i + 1).
Proof.
  unfold group_first_block. destruct (flex_bg k); [reflexivity |].
  unfold u64. rewrite Zplus_mod_idemp_l. f_equal. lia.
Qed.

(** Everything the loop reads lives under the super block, which logging
    leaves alone. *)
Lemma check_descriptors_from_spec (k : kernel) (n : nat) :
  forall (i grp : Z) (k' : kernel),
  k_sb k' = k_sb k ->
  0 <= i -> i + Z.of_nat n <= s_groups_count (k_sbi k) ->
  s_groups_count (k_sbi k) < 2 ^ 32 ->
  (forall j, i <= j < i + Z.of_nat n -> desc_locations_in_range k j) ->
  let r := check_descriptors_from n i (group_first_block k i) grp (flex_bg k) k' in
  k_sb (final r) = k_sb k /\
  panicked r = false /\
  (exists msgs,
     k_log (final r) = k_log k' ++ msgs /\
     (mounted_read_only k ->
      forall j, i <= j < i + Z.of_nat n -> desc_checksum_mismatch k j ->
                In (csum_warning k j) msgs)) /\
  (mounted_read_only k -> exists g, retval r = Some (Some g)) /\
  ((forall j, i <= j < i + Z.of_nat n -> ~ desc_checksum_mismatch k j) ->
   exists g, retval r = Some (Some g)) /\
  (~ mounted_read_only k ->
   (exists j, i <= j < i + Z.of_nat n /\ desc_checksum_mismatch k j) ->
   retval r = Some None).
Proof.
  induction n as [| n IH]; intros i grp k' Hsb Hi Hn Hgc Hrange r.
  - subst r. simpl. unfold_K. simpl.
    split; [assumption |]. split; [reflexivity |]. split.
    { exists []. rewrite app_nil_r. split; [reflexivity |]. intros _ j Hj. lia. }
    split; [eauto |]. split; [eauto |].
    intros _ (j & Hj & _). lia.
  - subst r. cbn [check_descriptors_from]. unfold_K.
    assert (k_sbi k' = k_sbi k) as Hsbi by (unfold k_sbi; congruence).
    assert (forall g, ext4_get_group_desc k' g = ext4_get_group_desc k g) as Hgd
      by (intros; unfold ext4_get_group_desc; rewrite Hsbi; reflexivity).
    assert (forall g, ext4_block_bitmap k' g = ext4_block_bitmap k g) as Hbb
      by (intros; unfold ext4_block_bitmap, EXT4_DESC_SIZE; rewrite Hsbi; reflexivity).
    assert (forall g, ext4_inode_bitmap k' g = ext4_inode_bitmap k g) as Hib
      by (intros; unfold ext4_inode_bitmap, EXT4_DESC_SIZE; rewrite Hsbi; reflexivity).
    assert (forall g, ext4_inode_table k' g = ext4_inode_table k g) as Hit
      by (intros; unfold ext4_inode_table, EXT4_DESC_SIZE; rewrite Hsbi; reflexivity).
    assert (EXT4_BLOCKS_PER_GROUP k' = EXT4_BLOCKS_PER_GROUP k) as Hbpg
      by (unfold EXT4_BLOCKS_PER_GROUP; rewrite Hsbi; reflexivity).
    rewrite Hsbi, !Hgd, !Hbb, !Hib, !Hit, !Hbpg, Hsb.
    change (if (i =? u32 (s_groups_count (k_sbi k) - 1)) || flex_bg k
            then u64 (ext4_blocks_count (s_es (k_sbi k)) - 1)
            else u64 (group_first_block k i + ulong (EXT4_BLOCKS_PER_GROUP k - 1)))
      with (group_last_block k i).
    destruct (Hrange i ltac:(lia)) as ((Hb1 & Hb2) & (Hi1 & Hi2) & Ht1 & Ht2).
    rewrite !Z.gtb_ltb.
    rewrite (proj2 (Z.ltb_ge _ _) Hb1), (proj2 (Z.ltb_ge _ _) Hb2).
    rewrite (proj2 (Z.ltb_ge _ _) Hi1), (proj2 (Z.ltb_ge _ _) Hi2).
    rewrite (proj2 (Z.ltb_ge _ _) Ht1), (proj2 (Z.ltb_ge _ _) Ht2).
    cbn [orb].
    rewrite group_first_block_next.
    replace (u32 (i + 1)) with (i + 1)
      by (unfold u32; rewrite Z.mod_small; lia).
    set (grp' := if (grp =? _) && _ then i else grp).
    pose proof (csum_verify_mismatch k i) as Hmis.
    destruct (nz (ext4_group_desc_csum_verify (k_sbi k) i (ext4_get_group_desc k i)))
      eqn:Hv; cbn [negb].
    + (* the checksum of group i verifies *)
      assert (~ desc_checksum_mismatch k i) as Hok
        by (intros Hm; apply Hmis in Hm; discriminate).
      destruct (IH (i + 1) grp' k' Hsb ltac:(lia) ltac:(lia) Hgc
                  ltac:(intros; apply Hrange; lia))
        as (Hsb' & Hpan & (msgs & Hlog & Hwarn) & Hro & Hall & Hbad).
      split; [assumption |]. split; [assumption |]. split.
      { exists msgs. split; [assumption |]. intros Hr j Hj Hm.
        destruct (Z.eq_dec j i) as [-> | Hne]; [contradiction |].
        apply Hwarn; [assumption | lia | assumption]. }
      split; [assumption |]. split.
      { intros Hnone. apply Hall. intros j Hj. apply Hnone. lia. }
      intros Hnro (j & Hj & Hm). apply Hbad; [assumption |].
      exists j. split; [| assumption].
      destruct (Z.eq_dec j i) as [-> | Hne]; [contradiction | lia].
    + (* it does not *)
      assert (desc_checksum_mismatch k i) as Hbadi by (apply Hmis; reflexivity).
      unfold le16_to_cpu. fold (csum_warning k i).
      destruct (nz (Z.land (s_flags (k_sb k)) MS_RDONLY)) eqn:Hro; cbn [negb].
      * (* read-only: warn and go on *)
        assert (mounted_read_only k) as Hmro.
        { unfold mounted_read_only. unfold nz in Hro.
          apply negb_true_iff, Z.eqb_neq in Hro. exact Hro. }
        set (k1 := k' <| k_log ::= fun l => l ++ [csum_warning k i] |>).
        destruct (IH (i + 1) grp' k1 Hsb ltac:(lia) ltac:(lia) Hgc
                    ltac:(intros; apply Hrange; lia))
          as (Hsb' & Hpan & (msgs & Hlog & Hwarn) & Hr & Hall & Hbad).
        split; [assumption |]. split; [assumption |]. split.
        { exists (csum_warning k i :: msgs). split.
          - rewrite Hlog. subst k1. simpl. rewrite <- app_assoc. reflexivity.
          - intros _ j Hj Hm. destruct (Z.eq_dec j i) as [-> | Hne].
            + left. reflexivity.
            + right. apply Hwarn; [assumption | lia | assumption]. }
        split; [intros _; apply Hr; assumption |]. split.
        { intros Hnone. exfalso. apply (Hnone i); [lia | assumption]. }
        intros Hnro. contradiction.
      * (* writable: give up *)
        assert (~ mounted_read_only k) as Hnro.
        { unfold mounted_read_only. unfold nz in Hro.
          apply negb_false_iff, Z.eqb_eq in Hro. lia. }
        simpl. split; [assumption |]. split; [reflexivity |]. split.
        { exists [csum_warning k i]. split; [reflexivity |].
          intros Hr. contradiction. }
        split; [intros Hr; contradiction |]. split.
        { intros Hnone. exfalso. apply (Hnone i); [lia | assumption]. }
        intros _ _. reflexivity.
Qed.

(** C2. Group-descriptor verification.  On a volume all of whose
    descriptors place their bitmaps and inode table inside their group:
    if some descriptor's stored checksum differs from the recomputed one
    (the checksum feature being on) and the volume is mounted writable,
    [ext4_check_descriptors] returns 0; if the volume is mounted
    read-only it returns 1 and has logged a checksum warning for every
    such descriptor; and if no descriptor mismatches (all checksums are
    right, or the checksum feature is off) it returns 1 whatever the
    mode. *)
Theorem ext4_check_descriptors_checksum (k : kernel) :
  0 <= s_groups_count (k_sbi k) < 2 ^ 32 ->
  (forall i, 0 <= i < s_groups_count (k_sbi k) -> desc_locations_in_range k i) ->
  ((exists i, 0 <= i < s_groups_count (k_sbi k) /\ desc_checksum_mismatch k i) ->
   ~ mounted_read_only k ->
   retval (ext4_check_descriptors k) = Some (0, None)) /\
  (mounted_read_only k ->
   fst <$> retval (ext4_check_descriptors k) = Some 1 /\
   forall i, 0 <= i < s_groups_count (k_sbi k) -> desc_checksum_mismatch k i ->
     In (csum_warning k i) (k_log (final (ext4_check_descriptors k)))) /\
  ((forall i, 0 <= i < s_groups_count (k_sbi k) -> ~ desc_checksum_mismatch k i) ->
   fst <$> retval (ext4_check_descriptors k) = Some 1).
Proof.
  intros Hgc Hrange.
  pose proof (check_descriptors_from_spec k (Z.to_nat (s_groups_count (k_sbi k)))
                0 (s_groups_count (k_sbi k)) k eq_refl ltac:(lia) ltac:(lia)
                ltac:(lia) ltac:(intros; apply Hrange; lia)) as Hloop.
  cbv zeta in Hloop.
  assert (group_first_block k 0
          = u64 (le32_to_cpu (s_first_data_block (s_es (k_sbi k))))) as Hfb.
  { unfold group_first_block, le32_to_cpu, k_es.
    destruct (flex_bg k); [reflexivity |]. f_equal. lia. }
  unfold ext4_check_descriptors. unfold_K. fold (flex_bg k).
  rewrite <- Hfb.
  destruct Hloop as (Hsb & Hpan & (msgs & Hlog & Hwarn) & Hro & Hall & Hbad).
  rewrite Z2Nat.id in Hwarn, Hall, Hbad by lia.
  destruct (check_descriptors_from _ 0 _ _ _ k) as [[g |] k1 | k1];
    simpl in *; try discriminate.
  - split; [| split].
    + intros Hex Hnro. specialize (Hbad Hnro Hex). discriminate.
    + intros Hr. split; [reflexivity |]. intros i Hi Hm.
      rewrite Hlog. apply in_or_app. right. apply Hwarn; assumption.
    + intros _. reflexivity.
  - split; [| split].
    + intros _ _. reflexivity.
    + intros Hr. destruct (Hro Hr) as [g Hg]. discriminate.
    + intros Hnone. destruct (Hall Hnone) as [g Hg]. discriminate.
Qed.

End CheckDescriptors.

(** ** Committing the superblock *)

Ltac unfold_commit :=
  unfold ext4_commit_super, mark_buffer_dirty, sync_dirty_buffer,
    clear_buffer_write_io_error, set_buffer_uptodate; unfold_K.

(** Case analysis on every test a computation runs through. *)
Ltac case_split :=
  repeat match goal with
         | |- context [match ?x with _ => _ end] =>
           lazymatch x with
           | context [match _ with _ => _ end] => fail
           | _ => destruct x eqn:?
           end
         end.

Lemma nz_true x : nz x = true <-> x <> 0.
Proof.
  unfold nz. rewrite negb_true_iff, Z.eqb_neq. reflexivity.
Qed.

Lemma nz_false x : nz x = false <-> x = 0.
Proof.
  unfold nz. rewrite negb_false_iff, Z.eqb_eq. reflexivity.
Qed.

Lemma split_u64 blk :
  0 <= blk < 2 ^ 64 ->
  cpu_to_le32 (u32 blk) + 2 ^ 32 * cpu_to_le32 (blk ≫ 32) = blk.
Proof.
  intros Hblk. unfold cpu_to_le32, u32.
  rewrite Z.mod_mod by lia. rewrite Z.shiftr_div_pow2 by lia.
  rewrite (Z.mod_small (blk / 2 ^ 32)).
  - symmetry. rewrite Z.add_comm. apply Z.div_mod. lia.
  - split; [apply Z.div_pos; lia | apply Z.div_lt_upper_bound; lia].
Qed.

(** Turn the outcome of a C test into a fact about the number tested. *)
Ltac nz_hyps :=
  repeat match goal with
         | Hx : negb (nz _) = true |- _ => apply negb_true_iff, nz_false in Hx
         | Hx : negb (nz _) = false |- _ => apply negb_false_iff, nz_true in Hx
         | Hx : nz _ = true |- _ => apply nz_true in Hx
         | Hx : nz _ = false |- _ => apply nz_false in Hx
         end.

Section CommitSuper.
Context `{Ext4Headers}.

(** C8. Persist guard conditions.  When the backing device has been
    ejected, [ext4_commit_super] returns 0 and leaves the machine as it
    was: no write, no change; the same holds without superblock buffer, a
    state no caller is in, the buffer being set when the volume is mounted
    and never cleared.  Otherwise it does not panic; the write time
    becomes the current time if the volume is not mounted read-only and
    stays as it was if it is; and the record handed over when the buffer
    is marked dirty (and written at once when [sync] is set) is the record
    the call leaves, whose free-block count is the clusters counter, read
    as a non-negative number and turned into blocks, and whose free-inode
    count is the inodes counter read the same way. *)
Theorem ext4_commit_super_guarded (k : kernel) (sync : Z) :
  let r := ext4_commit_super sync k in
  let es' := k_es (final r) in
  (s_sbh (k_sbi k) = None \/ block_device_ejected k = true ->
   r = Returned 0 k) /\
  (commit_proceeds k ->
   panicked r = false /\
   (~ mounted_read_only k -> s_wtime es' = cpu_to_le32 (k_seconds k)) /\
   (mounted_read_only k -> s_wtime es' = s_wtime (k_es k)) /\
   s_free_blocks_count_lo es' + 2 ^ 32 * s_free_blocks_count_hi es'
     = u64 (Z.max (s_freeclusters_counter (k_sbi k)) 0 ≪ s_cluster_bits (k_sbi k)) /\
   s_free_inodes_count es'
     = cpu_to_le32 (Z.max (s_freeinodes_counter (k_sbi k)) 0) /\
   k_trace (final r)
     = k_trace k ++ EvMarkDirty es' :: (if nz sync then [EvSyncWrite es'] else [])).
Proof.
  intros r es'. subst r es'. split.
  - intros [Hnone | Hej]; unfold_commit.
    + rewrite Hnone. reflexivity.
    + rewrite Hej. destruct (s_sbh (k_sbi k)); reflexivity.
  - intros [Hsbh Hej]. destruct (s_sbh (k_sbi k)) as [sbh |] eqn:Hs;
      [clear Hsbh | contradiction].
    pose proof (split_u64 (EXT4_C2B (k_sbi k)
      (percpu_counter_sum_positive (s_freeclusters_counter (k_sbi k))))) as Hblk.
    unfold EXT4_C2B, percpu_counter_sum_positive in Hblk.
    specialize (Hblk ltac:(unfold u64; apply Z.mod_pos_bound; lia)).
    unfold mounted_read_only.
    unfold_commit. rewrite Hs, Hej.
    case_split; cbn;
      repeat match goal with
             | Hx : negb (nz _) = true |- _ => apply negb_true_iff, nz_false in Hx
             | Hx : negb (nz _) = false |- _ => apply negb_false_iff, nz_true in Hx
             end;
      (split; [reflexivity |]);
      (split; [intros; try reflexivity; try contradiction |]);
      (split; [intros; try reflexivity; try contradiction |]);
      (split; [exact Hblk |]);
      (split; [reflexivity |]);
      try reflexivity; rewrite <- app_assoc; reflexivity.
Qed.

(** A commit that passes its guard hands the record it leaves to the
    buffer layer, and writes it at once when [sync] is set. *)
Lemma ext4_commit_super_trace (k : kernel) (sync : Z) :
  commit_proceeds k ->
  let es' := k_es (final (ext4_commit_super sync k)) in
  k_trace (final (ext4_commit_super sync k))
  = k_trace k ++ EvMarkDirty es' :: (if nz sync then [EvSyncWrite es'] else []).
Proof.
  intros [Hsbh Hej] es'. subst es'.
  destruct (s_sbh (k_sbi k)) as [sbh |] eqn:Hs; [clear Hsbh | contradiction].
  unfold_commit. rewrite Hs, Hej.
  case_split; cbn; try reflexivity; rewrite <- app_assoc; reflexivity.
Qed.

Lemma ext4_commit_super_frame (k : kernel) (sync : Z) :
  panicked (ext4_commit_super sync k) = false /\
  commit_frame k (final (ext4_commit_super sync k)).
Proof.
  unfold commit_frame. unfold_commit.
  case_split; cbn; repeat split.
Qed.

End CommitSuper.

(** ** Recording an error *)

Section ErrorReport.
Context `{Ext4Headers}.

(** [save_error_info] is the recording followed by a synchronous commit. *)
Lemma save_error_info_unfold func line k :
  panicked (__save_error_info func line k) = false /\
  panicked (save_error_info func line k) = false /\
  final (save_error_info func line k)
  = final (ext4_commit_super 1 (final (__save_error_info func line k))).
Proof.
  assert (exists k1, __save_error_info func line k = Returned tt k1) as [k1 Hk1].
  { unfold __save_error_info, mod_timer_s_err_report. unfold_K.
    case_split; eauto. }
  unfold save_error_info. unfold_K. fold (__save_error_info func line k).
  rewrite Hk1. cbn.
  destruct (ext4_commit_super_frame k1 1) as [Hp _].
  destruct (ext4_commit_super 1 k1); cbn in *; [auto | discriminate].
Qed.

(** C7. Error reporting.  [save_error_info] never panics and leaves a
    superblock record in which: the last-error time, function and line are
    those of this fault; the first-error time, function, line, inode and
    block are those of this fault if no first error had been recorded
    (first-error time zero) and are untouched otherwise; the error count
    is one more than before (as a 32-bit number).  The daily report timer
    is armed, a day of jiffies ahead, if the error count was zero, and is
    left alone otherwise.  The machine it leaves is the one
    [ext4_commit_super] leaves when run with [sync = 1] after the
    recording; when that commit is let through by its guard, the record
    carrying these fields is marked dirty and written synchronously. *)
Theorem save_error_info_report (k : kernel) (func : string) (line : Z) :
  let r := save_error_info func line k in
  let es := k_es k in
  let es' := k_es (final r) in
  let name := strncpy (Z.to_nat sizeof_s_error_func) func in
  panicked r = false /\
  (s_last_error_time es' = cpu_to_le32 (k_seconds k) /\
   s_last_error_func es' = name /\
   s_last_error_line es' = cpu_to_le32 line) /\
  (s_first_error_time es = 0 ->
   s_first_error_time es' = cpu_to_le32 (k_seconds k) /\
   s_first_error_func es' = name /\
   s_first_error_line es' = cpu_to_le32 line /\
   s_first_error_ino es' = s_last_error_ino es /\
   s_first_error_block es' = s_last_error_block es) /\
  (s_first_error_time es <> 0 ->
   s_first_error_time es' = s_first_error_time es /\
   s_first_error_func es' = s_first_error_func es /\
   s_first_error_line es' = s_first_error_line es /\
   s_first_error_ino es' = s_first_error_ino es /\
   s_first_error_block es' = s_first_error_block es) /\
  s_error_count es' = cpu_to_le32 (s_error_count es + 1) /\
  (s_error_count es = 0 ->
   s_err_report (k_sbi (final r))
   = Some (ulong (k_jiffies k + 24 * 60 * 60 * HZ))) /\
  (s_error_count es <> 0 ->
   s_err_report (k_sbi (final r)) = s_err_report (k_sbi k)) /\
  final r = final (ext4_commit_super 1 (final (__save_error_info func line k))) /\
  (commit_proceeds k ->
   k_trace (final r) = k_trace k ++ [EvMarkDirty es'; EvSyncWrite es']).
Proof.
  intros r es es' name. subst r es es' name.
  destruct (save_error_info_unfold func line k) as (_ & Hpan & Hfin).
  split; [exact Hpan |]. rewrite Hfin.
  set (k1 := final (__save_error_info func line k)).
  destruct (ext4_commit_super_frame k1 1) as (_ & Hes & Hsbi & _ & _).
  pose proof (ext4_commit_super_trace k1 1) as Hcommit. cbv zeta in Hcommit.
  set (k2 := final (ext4_commit_super 1 k1)) in *.
  assert (s_last_error_time (k_es k2) = s_last_error_time (k_es k1)) as E0
    by (rewrite Hes; reflexivity).
  assert (s_last_error_func (k_es k2) = s_last_error_func (k_es k1)) as E1
    by (rewrite Hes; reflexivity).
  assert (s_last_error_line (k_es k2) = s_last_error_line (k_es k1)) as E2
    by (rewrite Hes; reflexivity).
  assert (s_first_error_time (k_es k2) = s_first_error_time (k_es k1)) as E3
    by (rewrite Hes; reflexivity).
  assert (s_first_error_func (k_es k2) = s_first_error_func (k_es k1)) as E4
    by (rewrite Hes; reflexivity).
  assert (s_first_error_line (k_es k2) = s_first_error_line (k_es k1)) as E5
    by (rewrite Hes; reflexivity).
  assert (s_first_error_ino (k_es k2) = s_first_error_ino (k_es k1)) as E6
    by (rewrite Hes; reflexivity).
  assert (s_first_error_block (k_es k2) = s_first_error_block (k_es k1)) as E7
    by (rewrite Hes; reflexivity).
  assert (s_error_count (k_es k2) = s_error_count (k_es k1)) as E8
    by (rewrite Hes; reflexivity).
  assert (s_err_report (k_sbi k2) = s_err_report (k_sbi k1)) as Htimer
    by (rewrite Hsbi; reflexivity).
  rewrite E0, E1, E2, E3, E4, E5, E6, E7, E8, Htimer.
  clear E0 E1 E2 E3 E4 E5 E6 E7 E8 Htimer.
  assert (commit_proceeds k -> commit_proceeds k1 /\ k_trace k1 = k_trace k)
    as Hguard.
  { subst k1. unfold commit_proceeds, block_device_ejected.
    unfold __save_error_info, mod_timer_s_err_report. unfold_K.
    case_split; cbn; auto. }
  subst k1. unfold __save_error_info, mod_timer_s_err_report in *.
  unfold_K.
  unfold k_es, k_sbi. cbn.
  split; [case_split; cbn; auto |].
  split; [intros Hz; case_split; cbn in *; nz_hyps; auto; congruence |].
  split; [intros Hz; case_split; cbn in *; nz_hyps; auto; congruence |].
  split; [case_split; cbn; auto |].
  split; [intros Hz; case_split; cbn in *; nz_hyps; auto; congruence |].
  split; [intros Hz; case_split; cbn in *; nz_hyps; auto; congruence |].
  split; [reflexivity |].
  intros Hgo. destruct (Hguard Hgo) as [Hgo1 Htr].
  pose proof (Hcommit Hgo1) as Htrace.
  fold (k_es k2). rewrite Htrace. cbn [nz Z.eqb negb]. rewrite Htr. reflexivity.
Qed.

End ErrorReport.

(** ** Handling an error on a read-only volume *)

Section HandleError.
Context `{Ext4Headers}.

(** Recording an error leaves the mount flags, the mount options, the
    abort flag and the journal alone. *)
Lemma save_error_info_policy_frame func line k :
  let k' := final (save_error_info func line k) in
  s_flags (k_sb k') = s_flags (k_sb k) /\
  s_mount_flags (k_sbi k') = s_mount_flags (k_sbi k) /\
  s_mount_opt (k_sbi k') = s_mount_opt (k_sbi k) /\
  s_journal (k_sbi k') = s_journal (k_sbi k).
Proof.
  intros k'. subst k'.
  destruct (save_error_info_unfold func line k) as (_ & _ & ->).
  set (k1 := final (__save_error_info func line k)).
  destruct (ext4_commit_super_frame k1 1) as (_ & _ & Hsbi & Hsb & _).
  assert (s_flags (k_sb k1) = s_flags (k_sb k) /\
          s_mount_flags (k_sbi k1) = s_mount_flags (k_sbi k) /\
          s_mount_opt (k_sbi k1) = s_mount_opt (k_sbi k) /\
          s_journal (k_sbi k1) = s_journal (k_sbi k)) as (<- & <- & <- & <-).
  { subst k1. unfold __save_error_info, mod_timer_s_err_report. unfold_K.
    case_split; cbn; auto. }
  rewrite Hsb, Hsbi. cbn. auto.
Qed.

(** C10. A fault on a volume that is already mounted read-only.
    Whatever the error policy in the mount options (continue, remount
    read-only or panic), [ext4_handle_error] returns at once and leaves the
    machine exactly as it found it; and a whole [__ext4_error] report
    neither panics nor touches the mount flags, the abort flag in
    [s_mount_flags] or the journal: the machine it leaves is the one left
    by logging the fault and recording it with [save_error_info]. *)
Theorem ext4_handle_error_read_only (k : kernel) :
  mounted_read_only k ->
  ext4_handle_error k = Returned tt k /\
  forall function line text,
    let r := __ext4_error function line text k in
    panicked r = false /\
    s_flags (k_sb (final r)) = s_flags (k_sb k) /\
    s_mount_flags (k_sbi (final r)) = s_mount_flags (k_sbi k) /\
    s_journal (k_sbi (final r)) = s_journal (k_sbi k) /\
    final r
    = final ((printk KERN_CRIT "EXT4-fs error (device %s): %s:%d: comm %s: %pV\n"
                [KStr function; KInt line; KStr text];;
              save_error_info function line) k).
Proof.
  intros Hro.
  assert (forall k0, mounted_read_only k0 -> ext4_handle_error k0 = Returned tt k0)
    as Hskip.
  { intros k0 Hro0. unfold ext4_handle_error. unfold_K.
    apply nz_true in Hro0. rewrite Hro0. reflexivity. }
  split; [apply Hskip; assumption |].
  intros function line text r. subst r.
  unfold __ext4_error, printk. unfold_K.
  set (k0 := k <| k_log ::= _ |>).
  destruct (save_error_info_unfold function line k0) as (_ & Hpan & _).
  pose proof (save_error_info_policy_frame function line k0) as Hframe.
  cbv zeta in Hframe. destruct Hframe as (Hf & Hmf & _ & Hj).
  destruct (save_error_info function line k0) as [[] k1 | k1]; cbn in *;
    [| discriminate].
  rewrite Hskip.
  - cbn. change (k_sb k0) with (k_sb k) in *. change (k_sbi k0) with (k_sbi k) in *.
    auto.
  - unfold mounted_read_only. rewrite Hf. exact Hro.
Qed.

End HandleError.

(** ** Orphan cleanup *)

Lemma s32_succ a : s32 (s32 a + 1) = s32 (a + 1).
Proof.
  unfold s32 at 1 3. replace (u32 (s32 a + 1)) with (u32 (a + 1)); [reflexivity |].
  unfold s32, u32. destruct (a mod 2 ^ 32 <? 2 ^ 31).
  - rewrite Zplus_mod_idemp_l. reflexivity.
  - replace (a mod 2 ^ 32 - 2 ^ 32 + 1) with (a mod 2 ^ 32 + 1 + (-1) * 2 ^ 32) by lia.
    rewrite Z.mod_add by lia. rewrite Zplus_mod_idemp_l. reflexivity.
Qed.

Lemma orphan_chain_deterministic inodes h l l' :
  orphan_chain inodes h l -> orphan_chain inodes h l' -> l = l'.
Proof.
  intros Hl. revert l'. induction Hl as [| ino i rest Hne Hi Hrest IH]; intros l' Hl'.
  - inversion Hl'; [reflexivity | contradiction].
  - inversion Hl' as [| ino' i' rest' Hne' Hi' Hrest']; subst; [contradiction |].
    assert (i' = i) as -> by congruence. f_equal. apply IH. assumption.
Qed.

Lemma orphan_chain_suffix inodes h l1 ino i l2 :
  orphan_chain inodes h (l1 ++ (ino, i) :: l2) ->
  orphan_chain inodes ino ((ino, i) :: l2).
Proof.
  revert h. induction l1 as [| e l1 IH]; intros h Hc; simpl in Hc.
  - inversion Hc; subst. assumption.
  - inversion Hc; subst. eapply IH. eassumption.
Qed.

(** An entry does not come back further down its own chain. *)
Lemma orphan_chain_head_fresh inodes ino i rest :
  orphan_chain inodes ino ((ino, i) :: rest) -> ino ∉ rest.*1.
Proof.
  intros Hc Hin. apply list_elem_of_fmap in Hin as ([ino' i'] & Heq & Hin).
  simpl in Heq. subst ino'.
  apply list_elem_of_split in Hin as (l1 & l2 & ->).
  inversion Hc as [| ? ? ? _ _ Hrest]; subst.
  apply orphan_chain_suffix in Hrest.
  pose proof (orphan_chain_deterministic _ _ _ _ Hc Hrest) as Heq.
  apply (f_equal length) in Heq. simpl in Heq. rewrite length_app in Heq.
  simpl in Heq. lia.
Qed.

Lemma orphan_chain_delete inodes ino h l :
  orphan_chain inodes h l -> ino ∉ l.*1 -> orphan_chain (delete ino inodes) h l.
Proof.
  induction 1 as [| ino' i rest Hne Hi Hrest IH]; intros Hnot.
  - constructor.
  - simpl in Hnot. apply not_elem_of_cons in Hnot as [Hneq Hnot].
    constructor; [assumption | | auto].
    rewrite lookup_delete_ne by congruence. assumption.
Qed.

Lemma count_events_cons e t :
  count_truncations (orphan_event e :: t)
  = ((if nz (i_nlink (snd e)) then 1 else 0) + count_truncations t)%nat /\
  count_deletions (orphan_event e :: t)
  = ((if nz (i_nlink (snd e)) then 0 else 1) + count_deletions t)%nat.
Proof.
  unfold count_truncations, count_deletions, orphan_event.
  destruct (nz (i_nlink (snd e))); simpl; auto.
Qed.

Lemma count_orphan_events l :
  (count_truncations (map orphan_event l) + count_deletions (map orphan_event l)
   = length l)%nat.
Proof.
  induction l as [| e l IH]; [reflexivity |]. simpl map.
  destruct (count_events_cons e (map orphan_event l)) as [-> ->].
  simpl length. destruct (nz (i_nlink (snd e))); lia.
Qed.

Section OrphanCleanup.
Context `{Ext4Headers}.

(** The loop walks a well-formed chain to its end: with fuel for every
    entry it returns, the head is zero, every entry has been truncated or
    deleted in chain order, and the two counters have advanced by the
    numbers of deletions and truncations. *)
Lemma orphan_loop_spec (l : list (Z * inode)) :
  forall (fuel : nat) (k : kernel) (a b : Z),
  orphan_chain (k_inodes k) (s_last_orphan (k_es k)) l ->
  (length l <= fuel)%nat ->
  exists k',
    orphan_loop fuel (s32 a) (s32 b) k
    = Returned (Some (s32 (a + Z.of_nat (count_deletions (map orphan_event l))),
                      s32 (b + Z.of_nat (count_truncations (map orphan_event l)))))
               k' /\
    s_last_orphan (k_es k') = 0 /\
    k_trace k' = k_trace k ++ map orphan_event l /\
    s_flags (k_sb k') = s_flags (k_sb k).
Proof.
  induction l as [| [ino i] rest IH]; intros fuel k a b Hchain Hfuel.
  - inversion Hchain as [Hhead |]. exists k.
    destruct fuel; simpl; unfold_K; rewrite <- Hhead; simpl;
      rewrite !Z.add_0_r, app_nil_r; auto.
  - inversion Hchain as [| ? ? ? Hne Hi Hrest]; subst.
    pose proof (orphan_chain_head_fresh _ _ _ _ Hchain) as Hfresh.
    destruct fuel as [| fuel]; [simpl in Hfuel; lia |].
    simpl in Hfuel. cbn [orphan_loop]. unfold_K.
    apply nz_true in Hne. rewrite Hne. cbn [negb].
    unfold ext4_orphan_get, le32_to_cpu. unfold_K. rewrite Hi.
    unfold list_add_s_orphan, ext4_truncate, iput, ext4_orphan_del. unfold_K.
    simpl map. destruct (count_events_cons (s_last_orphan (k_es k), i)
                           (map orphan_event rest)) as [-> ->].
    cbn [snd fst]. destruct (nz (i_nlink i)) eqn:Hlink; cbn.
    + rewrite s32_succ.
      match goal with
      | |- context [orphan_loop fuel _ _ ?k2] =>
        destruct (IH fuel k2 a (b + 1)) as (k' & Hrun & Hhead & Htrace & Hflags);
          [exact Hrest | lia |]
      end.
      exists k'. rewrite Hrun. split; [do 3 f_equal; apply (f_equal s32); lia |].
      split; [assumption |]. split; [| assumption].
      rewrite Htrace. cbn. unfold orphan_event at 2. cbn. rewrite Hlink.
      rewrite <- app_assoc. reflexivity.
    + rewrite s32_succ.
      match goal with
      | |- context [orphan_loop fuel _ _ ?k2] =>
        destruct (IH fuel k2 (a + 1) b) as (k' & Hrun & Hhead & Htrace & Hflags);
          [apply orphan_chain_delete; assumption | lia |]
      end.
      exists k'. rewrite Hrun. split; [do 3 f_equal; apply (f_equal s32); lia |].
      split; [assumption |]. split; [| assumption].
      rewrite Htrace. cbn. unfold orphan_event at 2. cbn. rewrite Hlink.
      rewrite <- app_assoc. reflexivity.
Qed.

(** A feature check that answers 1 has logged nothing. *)
Lemma ext4_feature_set_ok_silent readonly k :
  retval (ext4_feature_set_ok readonly k) = Some 1 ->
  ext4_feature_set_ok readonly k = Returned 1 k.
Proof.
  unfold ext4_feature_set_ok. unfold_K.
  case_split; cbn; intros Hr; try reflexivity; discriminate.
Qed.

(** Whatever it answers, the feature check changes the log only. *)
Lemma ext4_feature_set_ok_frame readonly k :
  exists v log, ext4_feature_set_ok readonly k = Returned v (k <| k_log := log |>).
Proof.
  unfold ext4_feature_set_ok. unfold_K.
  case_split; cbn; eauto.
  all: exists 1, (k_log k); reflexivity.
Qed.

(** C3. Orphan convergence.  On a volume whose device accepts writes,
    whose feature set allows a read-write mount and whose mount state has
    no error flag, and given a well-formed orphan chain of N entries
    starting at the superblock's head pointer, [ext4_orphan_cleanup]
    returns as soon as it has fuel for N rounds; afterwards the head
    pointer is zero, the storage has seen exactly one truncation for each
    entry that still had links and one deletion for each entry that had
    none, in chain order, so truncations plus deletions are N; and the two
    counters the function reports are these numbers as C [int]s. *)
Theorem ext4_orphan_cleanup_converges (k : kernel) (chain : list (Z * inode))
    (fuel : nat) :
  orphan_chain (k_inodes k) (s_last_orphan (k_es k)) chain ->
  bdev_read_only k = false ->
  retval (ext4_feature_set_ok 0 k) = Some 1 ->
  Z.land (s_mount_state (k_sbi k)) EXT4_ERROR_FS = 0 ->
  (length chain <= fuel)%nat ->
  exists nr_orphans nr_truncates k',
    ext4_orphan_cleanup fuel k = Returned (Some (nr_orphans, nr_truncates)) k' /\
    s_last_orphan (k_es k') = 0 /\
    k_trace k' = k_trace k ++ map orphan_event chain /\
    (count_truncations (map orphan_event chain)
     + count_deletions (map orphan_event chain) = length chain)%nat /\
    nr_truncates = s32 (Z.of_nat (count_truncations (map orphan_event chain))) /\
    nr_orphans = s32 (Z.of_nat (count_deletions (map orphan_event chain))).
Proof.
  intros Hchain Hbdev Hfeat Herr Hfuel.
  pose proof (count_orphan_events chain) as Hcount.
  unfold ext4_orphan_cleanup. unfold_K.
  destruct (nz (s_last_orphan (k_es k))) eqn:Hhead; cbn [negb].
  2:{ apply nz_false in Hhead. rewrite Hhead in Hchain.
      inversion Hchain as [Hnil | ? ? ? Hne]. 2: contradiction.
      cbn. exists 0, 0, k. rewrite app_nil_r. repeat split; auto. }
  rewrite Hbdev. rewrite (ext4_feature_set_ok_silent _ _ Hfeat). cbn.
  rewrite Herr. cbn.
  assert (forall k0, k_inodes k0 = k_inodes k -> k_es k0 = k_es k ->
            k_trace k0 = k_trace k ->
            exists k',
              orphan_loop fuel 0 0 k0
              = Returned (Some (s32 (Z.of_nat (count_deletions (map orphan_event chain))),
                                s32 (Z.of_nat (count_truncations (map orphan_event chain)))))
                         k' /\
              s_last_orphan (k_es k') = 0 /\
              k_trace k' = k_trace k ++ map orphan_event chain) as Hloop.
  { intros k0 Hin Hes Htr.
    destruct (orphan_loop_spec chain fuel k0 0 0) as (k' & Hrun & Hh & Ht & _).
    - rewrite Hin, Hes. assumption.
    - assumption.
    - exists k'. rewrite Htr in Ht. auto. }
  destruct (nz (Z.land (s_flags (k_sb k)) MS_RDONLY)); cbn.
  - match goal with
    | |- context [orphan_loop fuel 0 0 ?k0] =>
      destruct (Hloop k0 eq_refl eq_refl eq_refl) as (k' & -> & Hh & Ht)
    end.
    cbn. case_split; cbn; do 3 eexists; repeat split; eauto.
  - destruct (Hloop k eq_refl eq_refl eq_refl) as (k' & -> & Hh & Ht).
    cbn. case_split; cbn; do 3 eexists; repeat split; eauto.
Qed.

(** C9 (amended). Orphan cleanup with the error flag.  When the mount state
    carries the error flag, [ext4_orphan_cleanup] returns at once, with any
    fuel and whatever the chain holds: no inode is resolved, truncated or
    deleted (the storage trace, the inode store and the in-memory orphan
    list are as before).  The head pointer is set to zero when the device
    accepts writes and the feature set allows a read-write mount; when the
    device is read-only or the feature check fails, the earlier guards
    return first and the head pointer is left as it was. *)
Theorem ext4_orphan_cleanup_error_flag (k : kernel) (fuel : nat) :
  Z.land (s_mount_state (k_sbi k)) EXT4_ERROR_FS <> 0 ->
  let r := ext4_orphan_cleanup fuel k in
  retval r = Some (Some (0, 0)) /\
  k_trace (final r) = k_trace k /\
  k_inodes (final r) = k_inodes k /\
  s_orphan (k_sbi (final r)) = s_orphan (k_sbi k) /\
  (bdev_read_only k = false ->
   retval (ext4_feature_set_ok 0 k) = Some 1 ->
   s_last_orphan (k_es (final r)) = 0) /\
  (bdev_read_only k = true \/ retval (ext4_feature_set_ok 0 k) = Some 0 ->
   s_last_orphan (k_es (final r)) = s_last_orphan (k_es k)).
Proof.
  intros Herr. apply nz_true in Herr.
  unfold ext4_orphan_cleanup. unfold_K.
  destruct (nz (s_last_orphan (k_es k))) eqn:Hhead; cbn [negb].
  2:{ apply nz_false in Hhead. cbn. repeat split; auto. }
  destruct (bdev_read_only k) eqn:Hbdev.
  { cbn. repeat split; auto. discriminate. }
  destruct (ext4_feature_set_ok_frame 0 k) as (v & log & Hfeat).
  rewrite Hfeat. cbn. destruct (nz v) eqn:Hv; cbn.
  - rewrite Herr. cbn. repeat split; auto.
    intros [Hd | Hz]; [discriminate |]. injection Hz as ->. discriminate.
  - repeat split; auto. intros _ Hone. injection Hone as ->. discriminate.
Qed.

End OrphanCleanup.

(** ** Computations that always return *)

Lemma K_bind_get {A} (f : kernel -> K A) (k : kernel) :
  (get_kernel ≫= f) k = f k k.
Proof. reflexivity. Qed.

Lemma K_bind_run {A B} (f : A -> K B) (m : K A) k a k1 :
  m k = Returned a k1 -> (m ≫= f) k = f a k1.
Proof. intros Hm. unfold mbind, K_bind. rewrite Hm. reflexivity. Qed.

Section Ensures.
Context (R : kernel -> kernel -> Prop) `{!PreOrder R}.

Lemma ensures_ret {A} (Q : A -> Prop) (a : A) : Q a -> ensures R Q (mret a).
Proof. intros Hq k. exists a, k. repeat split; [reflexivity | assumption]. Qed.

Lemma ensures_bind {A B} (Q : B -> Prop) (f : A -> K B) (m : K A) :
  ensures R any m -> (forall a, ensures R Q (f a)) -> ensures R Q (m ≫= f).
Proof.
  intros Hm Hf k. destruct (Hm k) as (a & k1 & Hrun & HR & _).
  destruct (Hf a k1) as (b & k2 & Hrun2 & HR2 & Hq).
  exists b, k2. rewrite (K_bind_run _ _ _ _ _ Hrun).
  repeat split; [assumption | etransitivity; eassumption | assumption].
Qed.

Lemma ensures_get : ensures R any get_kernel.
Proof. intros k. exists k, k. repeat split. reflexivity. Qed.

Lemma ensures_gets {A} (f : kernel -> A) : ensures R any (gets f).
Proof. intros k. exists (f k), k. repeat split. reflexivity. Qed.

Lemma ensures_modify (f : kernel -> kernel) :
  (forall k, R k (f k)) -> ensures R any (modify f).
Proof. intros Hf k. exists tt, (f k). repeat split. apply Hf. Qed.

Lemma ensures_any {A} (Q : A -> Prop) (m : K A) :
  ensures R Q m -> ensures R any m.
Proof.
  intros Hm k. destruct (Hm k) as (a & k' & Hrun & HR & _).
  exists a, k'. repeat split; assumption.
Qed.

End Ensures.

Create HintDb ensures.
#[global] Hint Resolve ensures_get ensures_gets : ensures.

(** One step through a computation: [leaf] proves that a state update
    respects the relation. *)
Ltac ensures_step leaf :=
  lazymatch goal with
  | |- ensures _ _ (let _ := _ in _) => cbv zeta
  | |- ensures _ _ (_ ≫= _) => apply ensures_bind; [typeclasses eauto | | intros ?]
  | |- ensures _ _ (mret _) => apply ensures_ret; [typeclasses eauto | try exact I]
  | |- ensures _ _ (if ?b then _ else _) => destruct b eqn:?
  | |- ensures _ _ (match ?x with _ => _ end) => destruct x eqn:?
  | |- ensures _ _ (modify _) => apply ensures_modify; leaf
  | |- ensures _ _ (printk _ _ _) => unfold printk
  | |- ensures _ _ (ext4_msg _ _ _) => unfold ext4_msg
  | |- ensures _ _ _ => solve [eauto 3 with ensures typeclass_instances]
  end.
Ltac ensures_go leaf := repeat ensures_step leaf.

(** ** The revision level *)

Lemma land_lor_same f m : Z.land (Z.lor f m) m = m.
Proof.
  apply Z.bits_inj'. intros n _. rewrite Z.land_spec, Z.lor_spec.
  destruct (Z.testbit f n), (Z.testbit m n); reflexivity.
Qed.

Section RevisionLevel.
Context `{Ext4Headers}.

#[local] Instance flags_kept_preorder : PreOrder flags_kept.
Proof.
  split.
  - intros k. split; [reflexivity |]. exists []. rewrite app_nil_r. reflexivity.
  - intros k1 k2 k3 [Hf1 [l1 Hl1]] [Hf2 [l2 Hl2]]. split; [congruence |].
    exists (l1 ++ l2). rewrite Hl2, Hl1, app_assoc. reflexivity.
Qed.

Ltac flags_kept_leaf :=
  intros ?; split; cbn;
  [reflexivity | first [exists []; rewrite app_nil_r; reflexivity | eexists; reflexivity]].

Lemma ext4_commit_super_flags_kept sync :
  ensures flags_kept any (ext4_commit_super sync).
Proof.
  unfold ext4_commit_super, mark_buffer_dirty, sync_dirty_buffer,
    clear_buffer_write_io_error, set_buffer_uptodate.
  ensures_go flags_kept_leaf.
Qed.

Lemma ext4_update_dynamic_rev_flags_kept :
  ensures flags_kept any ext4_update_dynamic_rev.
Proof.
  unfold ext4_update_dynamic_rev, __ext4_warning.
  ensures_go flags_kept_leaf.
Qed.

#[local] Hint Resolve ext4_commit_super_flags_kept
  ext4_update_dynamic_rev_flags_kept : ensures.

(** A revision level above the supported one: [ext4_setup_super] says so
    in the log and returns [MS_RDONLY], in either mode. *)
Lemma ext4_setup_super_rev_level (k : kernel) (read_only : Z) :
  le32_to_cpu (s_rev_level (k_es k)) > u32 EXT4_MAX_SUPP_REV ->
  exists k',
    ext4_setup_super read_only k = Returned MS_RDONLY k' /\
    s_flags (k_sb k') = s_flags (k_sb k) /\
    In rev_too_high_msg (k_log k').
Proof.
  intros Hrev. apply Z.gt_lt, Z.gtb_lt in Hrev.
  unfold ext4_setup_super. rewrite K_bind_get. rewrite Hrev.
  erewrite K_bind_run by reflexivity.
  match goal with
  | |- exists k', ?m ?k1 = _ /\ _ =>
    assert (ensures flags_kept (fun res => res = MS_RDONLY) m) as Hrest;
      [| destruct (Hrest k1) as (res & k' & Hrun & [Hflags [l Hlog]] & ->)]
  end.
  { ensures_go flags_kept_leaf. reflexivity. }
  exists k'. split; [exact Hrun |]. split; [exact Hflags |].
  rewrite Hlog. cbn. rewrite !in_app_iff. left. right. left. reflexivity.
Qed.

(** C5 (amended). A superblock whose revision level exceeds the supported
    one does not fail the mount: [ext4_setup_super] logs that the revision
    level is too high and returns [MS_RDONLY], and [ext4_fill_super] goes
    on with the read-only flag set, so the volume is mounted read-only. *)
Theorem ext4_setup_super_rev_too_high (k : kernel) :
  MS_RDONLY <> 0 ->
  le32_to_cpu (s_rev_level (k_es k)) > u32 EXT4_MAX_SUPP_REV ->
  (forall read_only,
     retval (ext4_setup_super read_only k) = Some MS_RDONLY) /\
  exists k',
    ext4_fill_super_setup_super k = Returned Continue k' /\
    s_flags (k_sb k') = Z.lor (s_flags (k_sb k)) MS_RDONLY /\
    mounted_read_only k' /\
    In rev_too_high_msg (k_log k').
Proof.
  intros Hro Hrev. split.
  - intros read_only.
    destruct (ext4_setup_super_rev_level k read_only Hrev) as (k' & -> & _).
    reflexivity.
  - destruct (ext4_setup_super_rev_level k (Z.land (s_flags (k_sb k)) MS_RDONLY)
                Hrev) as (k1 & Hrun & Hflags & Hlog).
    unfold ext4_fill_super_setup_super. rewrite K_bind_get.
    rewrite (K_bind_run _ _ _ _ _ Hrun).
    apply nz_true in Hro. rewrite Hro.
    eexists. split; [reflexivity |]. unfold mounted_read_only. cbn.
    rewrite Hflags, land_lor_same. apply nz_true in Hro. auto.
Qed.

End RevisionLevel.

(** ** Remount *)

Lemma land_lor_disjoint f m r :
  Z.land m r = 0 -> Z.land (Z.lor f m) r = Z.land f r.
Proof.
  intros Hm. rewrite Z.land_lor_distr_l, Hm, Z.lor_0_r. reflexivity.
Qed.

Lemma land_replace_disjoint f m x r :
  Z.land m r = 0 -> x = m \/ x = 0 ->
  Z.land (Z.lor (Z.land f (Z.lnot m)) x) r = Z.land f r.
Proof.
  intros Hm Hx. apply Z.bits_inj'. intros n Hn.
  assert (Z.testbit m n && Z.testbit r n = false) as Hbit
    by (rewrite <- Z.land_spec, Hm; apply Z.bits_0).
  rewrite !Z.land_spec, Z.lor_spec, Z.land_spec, Z.lnot_spec by assumption.
  destruct Hx as [-> | ->]; [| rewrite Z.bits_0];
    destruct (Z.testbit f n), (Z.testbit m n), (Z.testbit r n);
    try reflexivity; discriminate.
Qed.

Section Remount.
Context `{Ext4Headers} `{RemountCollaborators}.
Hypothesis posixacl_not_rdonly : Z.land MS_POSIXACL MS_RDONLY = 0.
Hypothesis i_version_not_rdonly : Z.land MS_I_VERSION MS_RDONLY = 0.

#[local] Instance read_only_kept_preorder : PreOrder read_only_kept.
Proof.
  split.
  - intros k. split; reflexivity.
  - intros k1 k2 k3 [Hf1 Ho1] [Hf2 Ho2]. split; congruence.
Qed.

Ltac read_only_kept_leaf :=
  intros ?; split; cbn;
  first [reflexivity | apply land_lor_disjoint; assumption].

Lemma handle_mount_opt_table_read_only_kept opt token args_from arg is_remount :
  ensures read_only_kept any
    (handle_mount_opt_table opt token args_from arg is_remount).
Proof.
  unfold handle_mount_opt_table, set_opt, clear_opt, set_opt2.
  ensures_go read_only_kept_leaf.
Qed.

#[local] Hint Resolve handle_mount_opt_table_read_only_kept : ensures.

Lemma handle_mount_opt_read_only_kept opt token args journal_ioprio is_remount :
  ensures read_only_kept any
    (handle_mount_opt opt token args journal_ioprio is_remount).
Proof.
  unfold handle_mount_opt.
  destruct args; [| | ensures_go read_only_kept_leaf]; cbv zeta;
    destruct token; ensures_go read_only_kept_leaf.
Qed.

#[local] Hint Resolve handle_mount_opt_read_only_kept : ensures.

Lemma parse_options_loop_read_only_kept options is_remount :
  forall journal_ioprio,
    ensures read_only_kept any
      (parse_options_loop options journal_ioprio is_remount).
Proof.
  induction options as [| p rest IH]; intros journal_ioprio; cbn [parse_options_loop].
  - ensures_go read_only_kept_leaf.
  - apply ensures_bind; [typeclasses eauto | auto with ensures |].
    intros r. destruct (fst r <? 0); [ensures_go read_only_kept_leaf | apply IH].
Qed.

#[local] Hint Resolve parse_options_loop_read_only_kept : ensures.

Lemma parse_options_read_only_kept options journal_ioprio is_remount :
  ensures read_only_kept any (parse_options options journal_ioprio is_remount).
Proof.
  unfold parse_options. ensures_go read_only_kept_leaf.
Qed.

Lemma ext4_commit_super_read_only_kept sync :
  ensures read_only_kept any (ext4_commit_super sync).
Proof.
  unfold ext4_commit_super, mark_buffer_dirty, sync_dirty_buffer,
    clear_buffer_write_io_error, set_buffer_uptodate, ext4_free_blocks_count_set.
  ensures_go read_only_kept_leaf.
Qed.

#[local] Hint Resolve ext4_commit_super_read_only_kept : ensures.

Lemma save_error_info_read_only_kept func line :
  ensures read_only_kept any (save_error_info func line).
Proof.
  unfold save_error_info, __save_error_info, mod_timer_s_err_report.
  ensures_go read_only_kept_leaf.
Qed.

Lemma restore_opts_refuses (k kx : kernel) old_sb_flags old_opts (err : Z) :
  remount_snapshot k = (old_sb_flags, old_opts) ->
  err = - EINVAL \/ err = - EROFS ->
  remount_refused k (restore_opts old_sb_flags old_opts err kx).
Proof.
  intros Hsnap Herr. unfold restore_opts. unfold_K. cbn.
  constructor; [exact Herr |]. rewrite Hsnap. reflexivity.
Qed.

Lemma remount_journal_params_read_only_kept journal_ioprio :
  ensures read_only_kept any
    (k ← get_kernel;
     match s_journal (k_sbi k) with
     | Some _ =>
       ext4_init_journal_params;;
       modify (upd_sbi (fun sbi =>
         sbi <| s_journal ::= fmap (fun j => set_task_ioprio j journal_ioprio) |>))
     | None => mret tt
     end).
Proof.
  unfold ext4_init_journal_params. ensures_go read_only_kept_leaf.
Qed.

(** [__ext4_abort] on a volume that is already mounted read-only records
    the error and logs it, and then either returns or, under the panic
    policy, panics. *)
Lemma ext4_abort_read_only function line text (k : kernel) :
  mounted_read_only k ->
  let r := __ext4_abort function line text k in
  read_only_kept k (final r) /\
  s_mount_flags (k_sbi (final r)) = s_mount_flags (k_sbi k) /\
  (panicked r = true -> test_opt (final r) EXT4_MOUNT_ERRORS_PANIC <> 0).
Proof.
  intros Hro r. subst r. unfold __ext4_abort.
  destruct (save_error_info_read_only_kept function line k)
    as ([] & k1 & Hrun & [Hbit Horph] & _).
  pose proof (save_error_info_policy_frame function line k) as Hframe.
  cbv zeta in Hframe. rewrite Hrun in Hframe. cbn in Hframe.
  destruct Hframe as (_ & Hmf & _ & _).
  rewrite (K_bind_run _ _ _ _ _ Hrun).
  unfold mounted_read_only in Hro. rewrite <- Hbit in Hro.
  apply Z.eqb_neq in Hro.
  unfold printk. unfold_K.
  unfold read_only_kept, test_opt, k_es, k_sbi in *. cbn in *.
  rewrite Hro. cbn.
  destruct (nz (Z.land (s_mount_opt (s_fs_info (k_sb k1))) EXT4_MOUNT_ERRORS_PANIC))
    eqn:Hpanic; [apply nz_true in Hpanic |];
    case_split; cbn; repeat split; auto; discriminate.
Qed.

(** C4 (amended). Remount with an orphan chain.  On a volume that is
    mounted read-only and whose superblock records a non-zero orphan head,
    a remount that asks for read-write is never carried out.  Unless it
    panics (the file system marked aborted under the panic policy), it
    returns [-EINVAL] or [-EROFS], and what the function had saved before
    parsing the options is as before the call: the mount flags, the two
    option words, the reserved uid and gid, the commit interval and the
    two batch times.  ([MS_POSIXACL] and [MS_I_VERSION], the flag bits
    that parsing and the ACL update write, are taken not to overlap
    [MS_RDONLY].) *)
Theorem ext4_remount_orphan_chain (k : kernel) (flags : Z)
    (data : option (list mount_option)) :
  mounted_read_only k ->
  Z.land flags MS_RDONLY = 0 ->
  s_last_orphan (k_es k) <> 0 ->
  remount_refused k (ext4_remount flags data k).
Proof.
  intros Hro Hrw Horphan.
  unfold ext4_remount. rewrite K_bind_get. cbv zeta.
  match goal with
  | |- context [restore_opts ?fl ?o] =>
    assert (forall err kx, err = - EINVAL \/ err = - EROFS ->
              remount_refused k (restore_opts fl o err kx)) as Hend
      by (intros; apply restore_opts_refuses; [reflexivity | assumption]);
    set (restore := restore_opts fl o) in *; clearbody restore
  end.
  destruct (parse_options_read_only_kept data
              match s_journal (k_sbi k) with
              | Some j => default DEFAULT_JOURNAL_IOPRIO (j_task_ioprio j)
              | None => DEFAULT_JOURNAL_IOPRIO
              end 1 k) as (r & k1 & Hrun & HR1 & _).
  rewrite (K_bind_run _ _ _ _ _ Hrun).
  destruct (negb (nz r.1)); [apply Hend; auto |].
  rewrite K_bind_get.
  destruct (_ && _);
    [unfold ext4_msg, printk; erewrite K_bind_run by reflexivity;
     apply Hend; auto |].
  destruct (_ && _);
    [unfold ext4_msg, printk; erewrite K_bind_run by reflexivity;
     apply Hend; auto |].
  assert (mounted_read_only k1) as Hro1
    by (unfold mounted_read_only; rewrite (proj1 HR1); exact Hro).
  match goal with
  | |- remount_refused k ((_ ≫= ?rest) k1) =>
    assert (forall k2, read_only_kept k k2 -> remount_refused k (rest tt k2))
      as Hrest
  end.
  { intros k2 HR2. cbv beta.
    erewrite K_bind_run by reflexivity.
    match goal with
    | |- remount_refused k ((_ ≫= _) ?k2') =>
      assert (read_only_kept k k2') as HR2'
    end.
    { destruct HR2 as [Hbit2 Horph2]. split; [| exact Horph2]. cbn.
      rewrite land_replace_disjoint; [exact Hbit2 | assumption |].
      destruct (nz (test_opt k1 EXT4_MOUNT_POSIX_ACL)); auto. }
    match goal with
    | |- remount_refused k ((_ ≫= _) ?k2') =>
      destruct (remount_journal_params_read_only_kept r.2 k2')
        as ([] & k3 & Hrun3 & HR3 & _)
    end.
    rewrite (K_bind_run _ _ _ _ _ Hrun3). rewrite K_bind_get. cbv zeta.
    assert (read_only_kept k k3) as [Hbit3 Horph3] by (etransitivity; eassumption).
    rewrite Hbit3, Hrw.
    destruct (Z.eqb_spec 0 (Z.land (s_flags (k_sb k)) MS_RDONLY)) as [Heq | _];
      [symmetry in Heq; contradiction |].
    cbn [negb].
    destruct (nz (Z.land (s_mount_flags (k_sbi k3)) EXT4_MF_FS_ABORTED));
      [apply Hend; auto |].
    change (nz 0) with false. cbv iota.
    destruct (ext4_feature_set_ok_frame 0 k3) as (v & log & Hfeat).
    rewrite (K_bind_run _ _ _ _ _ Hfeat).
    destruct (negb (nz v)); [apply Hend; auto |].
    destruct (remount_csum_loop _ _ _);
      [unfold ext4_msg, printk; erewrite K_bind_run by reflexivity;
       apply Hend; auto |].
    rewrite Horph3. rewrite (proj2 (nz_true _) Horphan).
    unfold ext4_msg, printk. erewrite K_bind_run by reflexivity.
    apply Hend; auto. }
  destruct (nz (Z.land (s_mount_flags (k_sbi k1)) EXT4_MF_FS_ABORTED)) eqn:Hab.
  - pose proof (ext4_abort_read_only "ext4_remount" 4435 "Abort forced by user"
                  k1 Hro1) as Habort.
    cbv zeta in Habort. destruct Habort as (HR2 & Hmf & Hpanic).
    destruct (__ext4_abort "ext4_remount" 4435 "Abort forced by user" k1)
      as [[] k2 | k2] eqn:Hrun2; cbn in HR2, Hmf, Hpanic.
    + rewrite (K_bind_run _ _ _ _ _ Hrun2). apply Hrest.
      etransitivity; eassumption.
    + unfold mbind, K_bind. rewrite Hrun2. apply refused_by_panic.
      * rewrite Hmf. apply nz_true. exact Hab.
      * apply Hpanic. reflexivity.
  - erewrite K_bind_run by reflexivity. apply Hrest. exact HR1.
Qed.

End Remount.

(** * Further properties of the code *)

(** ** The feature check *)

Section FeatureGateMore.
Context `{Ext4Headers}.

(** A feature set that may be mounted read-write may be mounted in any
    mode: when [ext4_feature_set_ok] accepts the volume for a read-write
    mount it accepts it for every value of [readonly], and logs nothing. *)
Theorem ext4_feature_set_ok_read_write_implies_any (k : kernel) (readonly : Z) :
  retval (ext4_feature_set_ok 0 k) = Some 1 ->
  ext4_feature_set_ok readonly k = Returned 1 k.
Proof.
  unfold ext4_feature_set_ok. unfold_K.
  case_split; cbn; intros Hr; try reflexivity; discriminate.
Qed.

End FeatureGateMore.

(** ** The locations in the group descriptors *)

Section CheckDescriptorsMore.
Context `{Ext4Headers} `{Ext4Collaborators}.

Lemma desc_locations_dec k i :
  desc_locations_in_range k i \/ ~ desc_locations_in_range k i.
Proof. unfold desc_locations_in_range. cbv zeta. lia. Qed.

Lemma check_descriptors_from_result (k : kernel) (n : nat) :
  forall (i grp : Z) (k' : kernel),
  k_sb k' = k_sb k ->
  0 <= i -> i + Z.of_nat n <= s_groups_count (k_sbi k) ->
  s_groups_count (k_sbi k) < 2 ^ 32 ->
  let r := check_descriptors_from n i (group_first_block k i) grp (flex_bg k) k' in
  ((exists j, i <= j < i + Z.of_nat n /\ ~ desc_locations_in_range k j) ->
   retval r = Some None) /\
  (forall g, scanned k i grp -> retval r = Some (Some g) ->
             scanned k (i + Z.of_nat n) g).
Proof.
  induction n as [| n IH]; intros i grp k' Hsb Hi Hn Hgc r.
  - subst r. simpl. unfold_K. simpl. split.
    + intros (j & Hj & _). lia.
    + intros g Hscan Hg. injection Hg as <-. rewrite Z.add_0_r. exact Hscan.
  - subst r. cbn [check_descriptors_from]. unfold_K.
    assert (k_sbi k' = k_sbi k) as Hsbi by (unfold k_sbi; congruence).
    assert (forall g, ext4_get_group_desc k' g = ext4_get_group_desc k g) as Hgd
      by (intros; unfold ext4_get_group_desc; rewrite Hsbi; reflexivity).
    assert (forall g, ext4_block_bitmap k' g = ext4_block_bitmap k g) as Hbb
      by (intros; unfold ext4_block_bitmap, EXT4_DESC_SIZE; rewrite Hsbi; reflexivity).
    assert (forall g, ext4_inode_bitmap k' g = ext4_inode_bitmap k g) as Hib
      by (intros; unfold ext4_inode_bitmap, EXT4_DESC_SIZE; rewrite Hsbi; reflexivity).
    assert (forall g, ext4_inode_table k' g = ext4_inode_table k g) as Hit
      by (intros; unfold ext4_inode_table, EXT4_DESC_SIZE; rewrite Hsbi; reflexivity).
    assert (EXT4_BLOCKS_PER_GROUP k' = EXT4_BLOCKS_PER_GROUP k) as Hbpg
      by (unfold EXT4_BLOCKS_PER_GROUP; rewrite Hsbi; reflexivity).
    rewrite Hsbi, !Hgd, !Hbb, !Hib, !Hit, !Hbpg, Hsb.
    change (if (i =? u32 (s_groups_count (k_sbi k) - 1)) || flex_bg k
            then u64 (ext4_blocks_count (s_es (k_sbi k)) - 1)
            else u64 (group_first_block k i + ulong (EXT4_BLOCKS_PER_GROUP k - 1)))
      with (group_last_block k i).
    fold (inode_table_zeroed k i).
    rewrite group_first_block_next.
    replace (u32 (i + 1)) with (i + 1)
      by (unfold u32; rewrite Z.mod_small; lia).
    set (grp' := if (grp =? _) && _ then i else grp).
    assert (scanned k i grp -> scanned k (i + 1) grp') as Hstep.
    { subst grp'. intros [[-> Hall] | (Hg & Hz & Hall)].
      - rewrite Z.eqb_refl. cbn [andb].
        destruct (inode_table_zeroed k i) eqn:Hzi; cbn [negb].
        + left. split; [reflexivity |]. intros j Hj.
          destruct (Z.eq_dec j i) as [-> | Hne]; [assumption | apply Hall; lia].
        + right. split; [lia |]. split; assumption.
      - destruct (Z.eqb_spec grp (s_groups_count (k_sbi k))); [lia |].
        cbn [andb]. right. split; [lia |]. split; assumption. }
    clearbody grp'.
    assert (forall k1, k_sb k1 = k_sb k ->
              let r := check_descriptors_from n (i + 1) (group_first_block k (i + 1))
                         grp' (flex_bg k) k1 in
              (desc_locations_in_range k i ->
               (exists j, i <= j < i + Z.of_nat (S n) /\ ~ desc_locations_in_range k j) ->
               retval r = Some None) /\
              (forall g, scanned k i grp -> retval r = Some (Some g) ->
                         scanned k (i + Z.of_nat (S n)) g)) as Hnext.
    { intros k1 Hsb1 r.
      destruct (IH (i + 1) grp' k1 Hsb1 ltac:(lia) ltac:(lia) Hgc) as [Hbad Hgood].
      replace (i + Z.of_nat (S n)) with (i + 1 + Z.of_nat n) by lia.
      split.
      - intros Hok (j & Hj & Hnot). apply Hbad. exists j. split; [| assumption].
        destruct (Z.eq_dec j i) as [-> | Hne]; [contradiction | lia].
      - intros g Hscan Hg. apply Hgood; auto. }
    rewrite !Z.gtb_ltb.
    destruct ((ext4_block_bitmap k _ <? _) || _) eqn:Hb; [cbn; split; [reflexivity | discriminate] |].
    destruct ((ext4_inode_bitmap k _ <? _) || _) eqn:Hi'; [cbn; split; [reflexivity | discriminate] |].
    destruct ((ext4_inode_table k _ <? _) || _) eqn:Ht; [cbn; split; [reflexivity | discriminate] |].
    assert (desc_locations_in_range k i) as Hok.
    { apply orb_false_iff in Hb as [Hb1 Hb2], Hi' as [Hi1 Hi2], Ht as [Ht1 Ht2].
      apply Z.ltb_ge in Hb1, Hb2, Hi1, Hi2, Ht1, Ht2.
      unfold desc_locations_in_range. cbv zeta. lia. }
    destruct (nz (ext4_group_desc_csum_verify _ _ _)); cbn [negb].
    + destruct (Hnext k' Hsb) as [Hbad Hgood]. split; [apply Hbad, Hok | exact Hgood].
    + destruct (nz (Z.land (s_flags (k_sb k)) MS_RDONLY)); cbn [negb].
      * match goal with
        | |- context [check_descriptors_from n _ _ _ _ ?k1] =>
          destruct (Hnext k1 Hsb) as [Hbad Hgood]
        end.
        split; [apply Hbad, Hok | exact Hgood].
      * cbn. split; [reflexivity | discriminate].
Qed.

Lemma group_first_block_0 k :
  group_first_block k 0 = u64 (le32_to_cpu (s_first_data_block (s_es (k_sbi k)))).
Proof.
  unfold group_first_block, le32_to_cpu, k_es.
  destruct (flex_bg k); [reflexivity |]. f_equal. lia.
Qed.

(** A bitmap or an inode table placed outside its group makes
    [ext4_check_descriptors] return 0, whether the volume is mounted
    read-only or not and whatever the checksums are. *)
Theorem ext4_check_descriptors_location (k : kernel) :
  0 <= s_groups_count (k_sbi k) < 2 ^ 32 ->
  (exists i, 0 <= i < s_groups_count (k_sbi k) /\ ~ desc_locations_in_range k i) ->
  retval (ext4_check_descriptors k) = Some (0, None).
Proof.
  intros Hgc Hbad.
  destruct (check_descriptors_from_result k (Z.to_nat (s_groups_count (k_sbi k)))
              0 (s_groups_count (k_sbi k)) k eq_refl ltac:(lia) ltac:(lia)
              ltac:(lia)) as [Hloop _].
  rewrite Z2Nat.id in Hloop by lia. specialize (Hloop Hbad).
  unfold ext4_check_descriptors. unfold_K. fold (flex_bg k).
  rewrite <- group_first_block_0.
  destruct (check_descriptors_from _ 0 _ _ _ k) as [[g |] k1 | k1];
    simpl in *; try discriminate. reflexivity.
Qed.

(** When [ext4_check_descriptors] returns 1, the group it reports through
    [first_not_zeroed] is the first one whose descriptor lacks the
    [EXT4_BG_INODE_ZEROED] flag, and the number of groups when every
    descriptor has it. *)
Theorem ext4_check_descriptors_first_not_zeroed (k : kernel) (g : Z) :
  0 <= s_groups_count (k_sbi k) < 2 ^ 32 ->
  retval (ext4_check_descriptors k) = Some (1, Some g) ->
  first_not_zeroed k g.
Proof.
  intros Hgc Hret.
  destruct (check_descriptors_from_result k (Z.to_nat (s_groups_count (k_sbi k)))
              0 (s_groups_count (k_sbi k)) k eq_refl ltac:(lia) ltac:(lia)
              ltac:(lia)) as [_ Hloop].
  rewrite Z2Nat.id in Hloop by lia.
  unfold ext4_check_descriptors in Hret. unfold_K. fold (flex_bg k) in Hret.
  unfold mbind, mret, K_bind, K_ret, get_kernel, modify in Hret.
  rewrite <- group_first_block_0 in Hret.
  destruct (check_descriptors_from _ 0 _ _ _ k) as [[g' |] k1 | k1];
    simpl in *; try discriminate.
  injection Hret as <-.
  destruct (Hloop g') as [[-> Hall] | (Hg & Hz & Hall)].
  - left. split; [reflexivity |]. intros j Hj. lia.
  - reflexivity.
  - split; [lia |]. split; [exact Hall | lia].
  - split; [lia |]. split; [exact Hall |]. intros _. exact Hz.
Qed.

End CheckDescriptorsMore.

(** ** Setting up the superblock at mount time *)

Section SetupSuper.
Context `{Ext4Headers}.

(** On a read-only mount [ext4_setup_super] writes nothing: it returns
    [MS_RDONLY] or 0 as the revision level is or is not above the
    supported one, and the machine it leaves differs from the one it found
    in the log only. *)
Theorem ext4_setup_super_read_only (k : kernel) (read_only : Z) :
  read_only <> 0 ->
  let r := ext4_setup_super read_only k in
  retval r
  = Some (if le32_to_cpu (s_rev_level (k_es k)) >? u32 EXT4_MAX_SUPP_REV
          then MS_RDONLY else 0) /\
  final r = k <| k_log := k_log (final r) |>.
Proof.
  intros Hro r. subst r. apply nz_true in Hro.
  unfold ext4_setup_super. unfold_K. rewrite Hro.
  case_split; cbn; split; reflexivity.
Qed.

Lemma land_clear_same s v : Z.land (Z.land s (u16 (Z.lnot v))) v = 0.
Proof.
  apply Z.bits_inj'. intros n Hn. rewrite !Z.land_spec, Z.bits_0.
  unfold u16. destruct (Z.lt_ge_cases n 16).
  - rewrite Z.mod_pow2_bits_low, Z.lnot_spec by lia.
    destruct (Z.testbit s n), (Z.testbit v n); reflexivity.
  - rewrite Z.mod_pow2_bits_high by lia. rewrite andb_false_r. reflexivity.
Qed.

(** On a read-write mount [ext4_setup_super] counts the mount, stamps the
    mount time, takes the valid flag off the on-disk state when there is
    no journal, sets the recovery flag when there is one, and commits the
    record synchronously. *)
Theorem ext4_setup_super_read_write (k : kernel) :
  let r := ext4_setup_super 0 k in
  let es := k_es k in
  let es' := k_es (final r) in
  panicked r = false /\
  s_mnt_count es' = cpu_to_le16 (s_mnt_count es + 1) /\
  s_mtime es' = cpu_to_le32 (k_seconds k) /\
  (s_journal (k_sbi k) = None -> Z.land (s_state es') EXT4_VALID_FS = 0) /\
  (s_journal (k_sbi k) <> None ->
   Z.land (s_feature_incompat es') (cpu_to_le32 EXT4_FEATURE_INCOMPAT_RECOVER)
   = cpu_to_le32 EXT4_FEATURE_INCOMPAT_RECOVER) /\
  (commit_proceeds k ->
   k_trace (final r) = k_trace k ++ [EvMarkDirty es'; EvSyncWrite es']).
Proof.
  intros r es es'. subst r es es'.
  assert (forall k1,
            exists v k2, ext4_commit_super 1 k1 = Returned v k2 /\
                         commit_frame k1 k2 /\
                         (commit_proceeds k1 ->
                          k_trace k2
                          = k_trace k1 ++ [EvMarkDirty (k_es k2); EvSyncWrite (k_es k2)]))
    as Hcommit.
  { intros k1. destruct (ext4_commit_super_frame k1 1) as [Hpan Hframe].
    pose proof (ext4_commit_super_trace k1 1) as Htrace. cbv zeta in Htrace.
    destruct (ext4_commit_super 1 k1) as [v k2 | k2]; [| discriminate].
    exists v, k2. auto. }
  unfold ext4_setup_super, ext4_update_dynamic_rev, __ext4_warning. unfold_K.
  change (nz 0) with false. cbv iota.
  repeat match goal with
         | |- context [ext4_commit_super 1 ?k1] =>
           let v := fresh "v" in
           let k2 := fresh "k2" in
           let Hrun := fresh "Hrun" in
           let Hframe := fresh "Hframe" in
           let Htrace := fresh "Htrace" in
           destruct (Hcommit k1) as (v & k2 & Hrun & Hframe & Htrace);
           rewrite Hrun; clear Hrun
         | |- context [match ?x with _ => _ end] =>
           lazymatch x with
           | context [match _ with _ => _ end] => fail
           | context [ext4_commit_super] => fail
           | _ => destruct x eqn:?
           end
         end.
  all: destruct Hframe as (Hes & _).
  all: split; [reflexivity |].
  all: split;
    [change (s_mnt_count (k_es k2) = cpu_to_le16 (s_mnt_count (k_es k) + 1));
     rewrite Hes; reflexivity |].
  all: split;
    [change (s_mtime (k_es k2) = cpu_to_le32 (k_seconds k));
     rewrite Hes; reflexivity |].
  all: split;
    [intros Hnone;
     change (Z.land (s_state (k_es k2)) EXT4_VALID_FS = 0);
     rewrite Hes; first [congruence | apply land_clear_same] |].
  all: split;
    [intros Hsome;
     change (Z.land (s_feature_incompat (k_es k2))
                    (cpu_to_le32 EXT4_FEATURE_INCOMPAT_RECOVER)
             = cpu_to_le32 EXT4_FEATURE_INCOMPAT_RECOVER);
     rewrite Hes; first [contradiction | apply land_lor_same] |].
  all: intros Hgo; exact (Htrace Hgo).
Qed.

End SetupSuper.

(** ** Moving to the dynamic revision *)

Section DynamicRev.
Context `{Ext4Headers}.

(** [ext4_update_dynamic_rev] leaves a volume of a later revision than
    the good old one untouched.  Provided the dynamic revision is later
    than the good old one, it lifts any other volume to the dynamic
    revision, and doing it again changes nothing more. *)
Theorem ext4_update_dynamic_rev_idempotent (k : kernel) :
  u32 EXT4_GOOD_OLD_REV < u32 EXT4_DYNAMIC_REV ->
  let k' := final (ext4_update_dynamic_rev k) in
  (le32_to_cpu (s_rev_level (k_es k)) > u32 EXT4_GOOD_OLD_REV -> k' = k) /\
  le32_to_cpu (s_rev_level (k_es k')) > u32 EXT4_GOOD_OLD_REV /\
  ext4_update_dynamic_rev k' = Returned tt k'.
Proof.
  intros Hrev k'. subst k'.
  unfold ext4_update_dynamic_rev, __ext4_warning, printk. unfold_K.
  unfold le32_to_cpu, cpu_to_le32.
  destruct (s_rev_level (k_es k) >? u32 EXT4_GOOD_OLD_REV) eqn:Hold; cbn.
  - rewrite Hold. split; [reflexivity |]. split; [| reflexivity].
    apply Z.lt_gt, Z.gtb_lt. exact Hold.
  - unfold k_es, k_sbi in *. cbn.
    assert ((u32 EXT4_DYNAMIC_REV >? u32 EXT4_GOOD_OLD_REV) = true) as Hnew
      by (apply Z.gtb_lt; exact Hrev).
    rewrite Hnew. split; [| split; [lia | reflexivity]].
    intros Hgt. apply Z.gt_lt, Z.gtb_lt in Hgt. congruence.
Qed.

End DynamicRev.

(** ** Write errors on the superblock buffer *)

Section CommitSuperMore.
Context `{Ext4Headers}.


End CommitSuperMore.

(** ** The mount flags across orphan cleanup *)

Section OrphanCleanupMore.
Context `{Ext4Headers}.

(** [ext4_orphan_cleanup] may lift [MS_RDONLY] while it works, but it
    puts it back: on a well-formed chain it returns, whichever of its
    guards applies, and the mount flags it leaves are those it found. *)
Theorem ext4_orphan_cleanup_restores_flags (k : kernel)
    (chain : list (Z * inode)) (fuel : nat) :
  orphan_chain (k_inodes k) (s_last_orphan (k_es k)) chain ->
  (length chain <= fuel)%nat ->
  exists counts k',
    ext4_orphan_cleanup fuel k = Returned (Some counts) k' /\
    s_flags (k_sb k') = s_flags (k_sb k).
Proof.
  intros Hchain Hfuel.
  unfold ext4_orphan_cleanup. unfold_K.
  destruct (negb (nz (s_last_orphan (k_es k)))); [eauto |].
  destruct (bdev_read_only k); [cbn; eauto |].
  destruct (ext4_feature_set_ok_frame 0 k) as (v & log & ->). cbn.
  destruct (negb (nz v)); [cbn; eauto |].
  destruct (nz (Z.land (s_mount_state (k_sbi k)) EXT4_ERROR_FS)); [cbn; eauto |].
  destruct (nz (Z.land (s_flags (k_sb k)) MS_RDONLY)); cbn.
  all: match goal with
       | |- context [orphan_loop ?f 0 0 ?k0] =>
         destruct (orphan_loop_spec chain f k0 0 0 Hchain Hfuel)
           as (k1 & Hrun & _);
         change (s32 0) with 0 in Hrun; rewrite Hrun
       end; cbn.
  all: destruct (nz _), (nz _); cbn; eauto.
Qed.

End OrphanCleanupMore.

(** ** Error policies at work *)

Section ErrorPolicies.
Context `{Ext4Headers}.

(** Recording an error always returns, and leaves the mount flags, the
    abort flag, the mount options and the journal alone. *)
Lemma save_error_info_returns func line k :
  exists k',
    save_error_info func line k = Returned tt k' /\
    s_flags (k_sb k') = s_flags (k_sb k) /\
    s_mount_flags (k_sbi k') = s_mount_flags (k_sbi k) /\
    s_mount_opt (k_sbi k') = s_mount_opt (k_sbi k) /\
    s_journal (k_sbi k') = s_journal (k_sbi k).
Proof.
  destruct (save_error_info_unfold func line k) as (_ & Hpan & _).
  pose proof (save_error_info_policy_frame func line k) as Hframe.
  cbv zeta in Hframe.
  destruct (save_error_info func line k) as [[] k' | k']; [| discriminate].
  exists k'. split; [reflexivity | exact Hframe].
Qed.

Lemma ext4_handle_error_skips (k : kernel) :
  mounted_read_only k -> ext4_handle_error k = Returned tt k.
Proof.
  intros Hro. apply nz_true in Hro.
  unfold ext4_handle_error. unfold_K. rewrite Hro. reflexivity.
Qed.

(** [__ext4_abort] leaves the volume mounted read-only, whether it
    returns or panics; it panics under the panic policy only; and a volume
    it found writable it leaves marked as aborted. *)
Theorem ext4_abort_forces_read_only (k : kernel) (function : string) (line : Z)
    (text : string) :
  MS_RDONLY <> 0 ->
  let r := __ext4_abort function line text k in
  mounted_read_only (final r) /\
  (panicked r = true -> test_opt (final r) EXT4_MOUNT_ERRORS_PANIC <> 0) /\
  (~ mounted_read_only k ->
   Z.land (s_mount_flags (k_sbi (final r))) EXT4_MF_FS_ABORTED
   = EXT4_MF_FS_ABORTED).
Proof.
  intros Hbit r. subst r.
  pattern (__ext4_abort function line text k).
  match goal with |- ?P _ => set (post := P) end.
  unfold __ext4_abort.
  destruct (save_error_info_returns function line k)
    as (k1 & Hrun1 & Hf1 & Hmf1 & Hmo1 & Hj1).
  rewrite (K_bind_run _ _ _ _ _ Hrun1).
  unfold printk at 1 2 3. do 3 (erewrite K_bind_run by reflexivity).
  rewrite K_bind_get.
  match goal with
  | |- context [(_ ≫= _) ?k1'] => set (k2 := k1')
  end.
  assert (s_flags (k_sb k2) = s_flags (k_sb k)) as Hf2 by exact Hf1.
  assert (s_mount_opt (k_sbi k2) = s_mount_opt (k_sbi k1)) as Hmo2 by reflexivity.
  assert (s_journal (k_sbi k2) = s_journal (k_sbi k1)) as Hj2 by reflexivity.
  clearbody k2. rewrite Hf2.
  destruct (Z.eqb_spec (Z.land (s_flags (k_sb k)) MS_RDONLY) 0) as [Hrw | Hro].
  - (* the volume was writable *)
    match goal with
    | |- context [(?blk ≫= _) k2] =>
      assert (exists k5,
                blk k2 = Returned tt k5 /\
                s_flags (k_sb k5) = Z.lor (s_flags (k_sb k2)) MS_RDONLY /\
                s_mount_flags (k_sbi k5)
                = Z.lor (s_mount_flags (k_sbi k2)) EXT4_MF_FS_ABORTED)
        as (k5 & Hrun5 & Hf5 & Hmf5)
    end.
    { unfold ext4_msg, printk at 1. do 3 (erewrite K_bind_run by reflexivity).
      match goal with
      | |- context [(_ ≫= _) ?k2'] => set (k3 := k2')
      end.
      assert (exists k4,
                (match s_journal (k_sbi k2) with
                 | Some _ => jbd2_journal_abort (- EIO)
                 | None => mret tt
                 end) k3 = Returned tt k4 /\
                s_flags (k_sb k4) = Z.lor (s_flags (k_sb k2)) MS_RDONLY /\
                s_mount_flags (k_sbi k4)
                = Z.lor (s_mount_flags (k_sbi k2)) EXT4_MF_FS_ABORTED)
        as (k4 & Hrun4 & Hf4 & Hmf4).
      { destruct (s_journal (k_sbi k2)); eexists;
          (split; [reflexivity |]); split; reflexivity. }
      rewrite (K_bind_run _ _ _ _ _ Hrun4).
      destruct (save_error_info_returns function line k4)
        as (k5 & Hrun5 & Hf5 & Hmf5 & _).
      exists k5. split; [exact Hrun5 |]. split; congruence. }
    rewrite (K_bind_run _ _ _ _ _ Hrun5). rewrite K_bind_get.
    assert (mounted_read_only k5) as Hro5.
    { unfold mounted_read_only. rewrite Hf5, land_lor_same. exact Hbit. }
    assert (Z.land (s_mount_flags (k_sbi k5)) EXT4_MF_FS_ABORTED
            = EXT4_MF_FS_ABORTED) as Hab5
      by (rewrite Hmf5; apply land_lor_same).
    destruct (nz (test_opt k5 EXT4_MOUNT_ERRORS_PANIC)) eqn:Hpanic;
      [apply nz_true in Hpanic;
       destruct (s_journal (k_sbi k5)) as [j |];
       [destruct (negb (nz (Z.land (j_flags j) JBD2_REC_ERR))) |] |];
      subst post; cbv beta;
      (split; [exact Hro5 |]);
      (split; [intros Hp; first [exact Hpanic | discriminate Hp | cbn in Hp; discriminate Hp] |]);
      intros _; exact Hab5.
  - (* it was read-only already *)
    erewrite K_bind_run by reflexivity. rewrite K_bind_get.
    assert (mounted_read_only k2) as Hro2
      by (unfold mounted_read_only; rewrite Hf2; exact Hro).
    destruct (nz (test_opt k2 EXT4_MOUNT_ERRORS_PANIC)) eqn:Hpanic;
      [apply nz_true in Hpanic;
       destruct (s_journal (k_sbi k2)) as [j |];
       [destruct (negb (nz (Z.land (j_flags j) JBD2_REC_ERR))) |] |];
      subst post; cbv beta;
      (split; [exact Hro2 |]);
      (split; [intros Hp; first [exact Hpanic | discriminate Hp | cbn in Hp; discriminate Hp] |]);
      intros Hnot; contradiction.
Qed.

(** Under the remount-read-only policy without the panic policy, the
    first error reported on a writable volume leaves it mounted
    read-only, and every error reported after that is recorded without any
    further policy action: no panic, and mount flags, abort flag and
    journal as the first error left them. *)
Theorem ext4_error_remount_ro_once (k : kernel) (function : string) (line : Z)
    (text : string) :
  MS_RDONLY <> 0 ->
  test_opt k EXT4_MOUNT_ERRORS_RO <> 0 ->
  test_opt k EXT4_MOUNT_ERRORS_PANIC = 0 ->
  exists k1,
    __ext4_error function line text k = Returned tt k1 /\
    mounted_read_only k1 /\
    forall function' line' text',
    exists k2,
      __ext4_error function' line' text' k1 = Returned tt k2 /\
      s_flags (k_sb k2) = s_flags (k_sb k1) /\
      s_mount_flags (k_sbi k2) = s_mount_flags (k_sbi k1) /\
      s_journal (k_sbi k2) = s_journal (k_sbi k1).
Proof.
  intros Hbit Hpolicy Hpanic.
  assert (forall f l t k0, mounted_read_only k0 ->
            exists k2,
              __ext4_error f l t k0 = Returned tt k2 /\
              s_flags (k_sb k2) = s_flags (k_sb k0) /\
              s_mount_flags (k_sbi k2) = s_mount_flags (k_sbi k0) /\
              s_journal (k_sbi k2) = s_journal (k_sbi k0) /\
              s_mount_opt (k_sbi k2) = s_mount_opt (k_sbi k0)) as Hlater.
  { intros f l t k0 Hro0. unfold __ext4_error, printk at 1.
    erewrite K_bind_run by reflexivity.
    match goal with
    | |- context [(_ ≫= _) ?k0'] =>
      destruct (save_error_info_returns f l k0')
        as (k2 & Hrun & Hf & Hmf & Hmo & Hj)
    end.
    rewrite (K_bind_run _ _ _ _ _ Hrun).
    exists k2. split; [| auto].
    apply ext4_handle_error_skips. unfold mounted_read_only. rewrite Hf.
    exact Hro0. }
  destruct (nz (Z.land (s_flags (k_sb k)) MS_RDONLY)) eqn:Hrw;
    [apply nz_true in Hrw; rename Hrw into Hro |].
  - destruct (Hlater function line text k Hro) as (k1 & Hrun & Hf & Hmf & Hj & Hmo).
    exists k1. split; [exact Hrun |].
    assert (mounted_read_only k1) as Hro1
      by (unfold mounted_read_only; rewrite Hf; exact Hro).
    split; [exact Hro1 |]. intros f' l' t'.
    destruct (Hlater f' l' t' k1 Hro1) as (k2 & Hrun2 & Hf2 & Hmf2 & Hj2 & _).
    exists k2. auto.
  - unfold __ext4_error, printk at 1. erewrite K_bind_run by reflexivity.
    match goal with
    | |- context [(_ ≫= _) ?k0'] =>
      destruct (save_error_info_returns function line k0')
        as (k1 & Hrun & Hf & Hmf & Hmo & Hj)
    end.
    rewrite (K_bind_run _ _ _ _ _ Hrun).
    assert (exists k2, ext4_handle_error k1 = Returned tt k2 /\
                       s_flags (k_sb k2) = Z.lor (s_flags (k_sb k1)) MS_RDONLY)
      as (k2 & Hrun2 & Hf2).
    { assert (nz (Z.land (s_flags (k_sb k1)) MS_RDONLY) = false) as Hrw1
        by (rewrite Hf; exact Hrw).
      assert (nz (Z.land (s_mount_opt (s_fs_info (k_sb k1))) EXT4_MOUNT_ERRORS_RO)
              = true) as Hp1
        by (apply nz_true; fold (k_sbi k1); rewrite Hmo; exact Hpolicy).
      assert (nz (Z.land (s_mount_opt (s_fs_info (k_sb k1))) EXT4_MOUNT_ERRORS_PANIC)
              = false) as Hq1
        by (apply nz_false; fold (k_sbi k1); rewrite Hmo; exact Hpanic).
      unfold ext4_handle_error, jbd2_journal_abort, ext4_msg, printk. unfold_K.
      unfold test_opt, k_sbi. rewrite Hrw1.
      destruct (negb (nz (Z.land (s_mount_opt (s_fs_info (k_sb k1)))
                                 EXT4_MOUNT_ERRORS_CONT)));
        [destruct (s_journal (s_fs_info (k_sb k1))) |];
        cbn; rewrite Hp1; cbn; rewrite Hq1;
        eexists; split; reflexivity. }
    exists k2. split; [exact Hrun2 |].
    assert (mounted_read_only k2) as Hro2
      by (unfold mounted_read_only; rewrite Hf2, land_lor_same; exact Hbit).
    split; [exact Hro2 |]. intros f' l' t'.
    destruct (Hlater f' l' t' k2 Hro2) as (k3 & Hrun3 & Hf3 & Hmf3 & Hj3 & _).
    exists k3. auto.
Qed.

End ErrorPolicies.

(** ** Orphan cleanup after an error, and on a broken chain *)

Lemma land_u16_lor_same s e : 0 <= e < 2 ^ 16 -> Z.land (u16 (Z.lor s e)) e = e.
Proof.
  intros He. apply Z.bits_inj'. intros n Hn. rewrite Z.land_spec. unfold u16.
  destruct (Z.lt_ge_cases n 16).
  - rewrite Z.mod_pow2_bits_low, Z.lor_spec by lia.
    destruct (Z.testbit s n), (Z.testbit e n); reflexivity.
  - rewrite Z.mod_pow2_bits_high by lia.
    assert (Z.testbit e n = false) as ->; [| reflexivity].
    destruct (Z.eq_dec e 0) as [-> | Hne]; [apply Z.bits_0 |].
    apply Z.bits_above_log2; [lia |].
    apply Z.lt_le_trans with 16; [| lia]. apply Z.log2_lt_pow2; lia.
Qed.

Lemma orphan_walk_stuck_deterministic inodes h l l' last last' :
  orphan_walk inodes h l last -> inodes !! last = None ->
  orphan_walk inodes h l' last' -> inodes !! last' = None ->
  l = l'.
Proof.
  intros Hl. revert l' last'.
  induction Hl as [ino | ino i rest last Hne Hi Hrest IH];
    intros l' last' Hlast Hl' Hlast'.
  - inversion Hl' as [| ? ? ? ? _ Hi' _]; subst; [reflexivity | congruence].
  - inversion Hl' as [| ? i' rest' ? _ Hi' Hrest']; subst; [congruence |].
    assert (i' = i) as -> by congruence. f_equal. eapply IH; eassumption.
Qed.

Lemma orphan_walk_suffix inodes h l1 ino i l2 last :
  orphan_walk inodes h (l1 ++ (ino, i) :: l2) last ->
  orphan_walk inodes ino ((ino, i) :: l2) last.
Proof.
  revert h. induction l1 as [| e l1 IH]; intros h Hw; simpl in Hw.
  - inversion Hw; subst. assumption.
  - inversion Hw; subst. eapply IH. eassumption.
Qed.

Lemma orphan_walk_head_fresh inodes ino i rest last :
  orphan_walk inodes ino ((ino, i) :: rest) last -> inodes !! last = None ->
  ino ∉ rest.*1.
Proof.
  intros Hw Hlast Hin. apply list_elem_of_fmap in Hin as ([ino' i'] & Heq & Hin).
  simpl in Heq. subst ino'.
  apply list_elem_of_split in Hin as (l1 & l2 & ->).
  inversion Hw as [| ? ? ? ? _ _ Hrest]; subst.
  apply orphan_walk_suffix in Hrest.
  pose proof (orphan_walk_stuck_deterministic _ _ _ _ _ _ Hw Hlast Hrest Hlast)
    as Heq.
  apply (f_equal length) in Heq. simpl in Heq. rewrite length_app in Heq.
  simpl in Heq. lia.
Qed.

Lemma orphan_walk_delete inodes ino h l last :
  orphan_walk inodes h l last -> ino ∉ l.*1 ->
  orphan_walk (delete ino inodes) h l last.
Proof.
  induction 1 as [| ino' i rest last Hne Hi Hrest IH]; intros Hnot.
  - constructor.
  - simpl in Hnot. apply not_elem_of_cons in Hnot as [Hneq Hnot].
    constructor; [assumption | | auto].
    rewrite lookup_delete_ne by congruence. assumption.
Qed.

Section OrphanCleanupBroken.
Context `{Ext4Headers}.

Lemma orphan_cleanup_skips_on_error (k : kernel) (fuel : nat) :
  Z.land (s_mount_state (k_sbi k)) EXT4_ERROR_FS <> 0 ->
  exists k',
    ext4_orphan_cleanup fuel k = Returned (Some (0, 0)) k' /\
    k_trace k' = k_trace k /\
    k_inodes k' = k_inodes k.
Proof.
  intros Herr. apply nz_true in Herr.
  unfold ext4_orphan_cleanup. unfold_K.
  destruct (negb (nz (s_last_orphan (k_es k)))); [eauto |].
  destruct (bdev_read_only k); [cbn; eauto |].
  destruct (ext4_feature_set_ok_frame 0 k) as (v & log & ->). cbn.
  destruct (negb (nz v)); [cbn; eauto |].
  rewrite Herr. cbn. eauto.
Qed.

(** Once an error has been recorded with [save_error_info], orphan
    cleanup does nothing to the chain: no inode is truncated or deleted,
    however the error flag is spelled (any non-zero 16-bit flag). *)
Theorem ext4_orphan_cleanup_after_error (k : kernel) (func : string) (line : Z)
    (fuel : nat) :
  0 < EXT4_ERROR_FS < 2 ^ 16 ->
  let k1 := final (save_error_info func line k) in
  let r := ext4_orphan_cleanup fuel k1 in
  Z.land (s_mount_state (k_sbi k1)) EXT4_ERROR_FS = EXT4_ERROR_FS /\
  retval r = Some (Some (0, 0)) /\
  k_trace (final r) = k_trace k1 /\
  k_inodes (final r) = k_inodes k.
Proof.
  intros Hflag k1 r.
  assert (Z.land (s_mount_state (k_sbi k1)) EXT4_ERROR_FS = EXT4_ERROR_FS
          /\ k_inodes k1 = k_inodes k) as [Hstate Hino].
  { subst k1. destruct (save_error_info_unfold func line k) as (_ & _ & ->).
    set (k0 := final (__save_error_info func line k)).
    destruct (ext4_commit_super_frame k0 1) as (_ & _ & Hsbi & _ & Hk).
    rewrite Hsbi, Hk. cbn.
    subst k0. unfold __save_error_info, mod_timer_s_err_report. unfold_K.
    unfold k_sbi, k_es.
    case_split; cbn; (split; [apply land_u16_lor_same; lia | reflexivity]). }
  split; [exact Hstate |].
  destruct (orphan_cleanup_skips_on_error k1 fuel) as (k' & Hrun & Htrace & Hino').
  { rewrite Hstate. lia. }
  subst r. rewrite Hrun. cbn. split; [reflexivity |]. split; congruence.
Qed.

Lemma orphan_loop_broken (l : list (Z * inode)) :
  forall (fuel : nat) (k : kernel) (a b bad : Z),
  orphan_walk (k_inodes k) (s_last_orphan (k_es k)) l bad ->
  bad <> 0 -> k_inodes k !! bad = None ->
  (length l < fuel)%nat ->
  exists k',
    orphan_loop fuel (s32 a) (s32 b) k
    = Returned (Some (s32 (a + Z.of_nat (count_deletions (map orphan_event l))),
                      s32 (b + Z.of_nat (count_truncations (map orphan_event l)))))
               k' /\
    s_last_orphan (k_es k') = 0 /\
    k_trace k' = k_trace k ++ map orphan_event l.
Proof.
  induction l as [| [ino i] rest IH]; intros fuel k a b bad Hwalk Hbad Hnone Hfuel.
  - inversion Hwalk as [? Hhead |]. subst bad.
    destruct fuel as [| fuel]; [simpl in Hfuel; lia |].
    cbn [orphan_loop]. unfold_K.
    apply nz_true in Hbad. rewrite Hbad. cbn [negb].
    unfold ext4_orphan_get, le32_to_cpu. unfold_K. rewrite Hnone. cbn.
    rewrite !Z.add_0_r, app_nil_r. eauto.
  - inversion Hwalk as [| ? ? ? ? Hne Hi Hrest]; subst.
    pose proof (orphan_walk_head_fresh _ _ _ _ _ Hwalk Hnone) as Hfresh.
    destruct fuel as [| fuel]; [simpl in Hfuel; lia |].
    simpl in Hfuel. cbn [orphan_loop]. unfold_K.
    apply nz_true in Hne. rewrite Hne. cbn [negb].
    unfold ext4_orphan_get, le32_to_cpu. unfold_K. rewrite Hi.
    unfold list_add_s_orphan, ext4_truncate, iput, ext4_orphan_del. unfold_K.
    simpl map. destruct (count_events_cons (s_last_orphan (k_es k), i)
                           (map orphan_event rest)) as [-> ->].
    cbn [snd fst]. destruct (nz (i_nlink i)) eqn:Hlink; cbn.
    + rewrite s32_succ.
      match goal with
      | |- context [orphan_loop fuel _ _ ?k2] =>
        destruct (IH fuel k2 a (b + 1) bad) as (k' & Hrun & Hhead & Htrace);
          [exact Hrest | exact Hbad | exact Hnone | lia |]
      end.
      exists k'. rewrite Hrun. split; [do 3 f_equal; apply (f_equal s32); lia |].
      split; [assumption |].
      rewrite Htrace. cbn. unfold orphan_event at 2. cbn. rewrite Hlink.
      rewrite <- app_assoc. reflexivity.
    + rewrite s32_succ.
      match goal with
      | |- context [orphan_loop fuel _ _ ?k2] =>
        destruct (IH fuel k2 (a + 1) b bad) as (k' & Hrun & Hhead & Htrace);
          [apply orphan_walk_delete; assumption | exact Hbad
           | cbn; rewrite lookup_delete_None; right; exact Hnone | lia |]
      end.
      exists k'. rewrite Hrun. split; [do 3 f_equal; apply (f_equal s32); lia |].
      split; [assumption |].
      rewrite Htrace. cbn. unfold orphan_event at 2. cbn. rewrite Hlink.
      rewrite <- app_assoc. reflexivity.
Qed.

(** A chain that runs into an inode number that cannot be resolved.  When
    the guards of [ext4_orphan_cleanup] let it through, that is, the
    device takes writes, the features are supported for a writable mount
    and the mount state carries no error flag, it truncates or deletes the
    entries before that inode, in order, then clears the head pointer and
    stops; it needs one round more than there are entries. *)
Theorem ext4_orphan_cleanup_unresolvable (k : kernel) (l : list (Z * inode))
    (bad : Z) (fuel : nat) :
  orphan_walk (k_inodes k) (s_last_orphan (k_es k)) l bad ->
  bad <> 0 -> k_inodes k !! bad = None ->
  bdev_read_only k = false ->
  retval (ext4_feature_set_ok 0 k) = Some 1 ->
  Z.land (s_mount_state (k_sbi k)) EXT4_ERROR_FS = 0 ->
  (length l < fuel)%nat ->
  exists k',
    ext4_orphan_cleanup fuel k
    = Returned (Some (s32 (Z.of_nat (count_deletions (map orphan_event l))),
                      s32 (Z.of_nat (count_truncations (map orphan_event l)))))
               k' /\
    s_last_orphan (k_es k') = 0 /\
    k_trace k' = k_trace k ++ map orphan_event l.
Proof.
  intros Hwalk Hbad Hnone Hbdev Hfeat Herr Hfuel.
  assert (s_last_orphan (k_es k) <> 0) as Hhead.
  { inversion Hwalk; subst; assumption. }
  unfold ext4_orphan_cleanup. unfold_K.
  apply nz_true in Hhead. rewrite Hhead. cbn [negb].
  rewrite Hbdev. rewrite (ext4_feature_set_ok_silent _ _ Hfeat). cbn.
  rewrite Herr. cbn.
  destruct (nz (Z.land (s_flags (k_sb k)) MS_RDONLY)); cbn.
  all: match goal with
       | |- context [orphan_loop ?f 0 0 ?k0] =>
         destruct (orphan_loop_broken l f k0 0 0 bad Hwalk Hbad Hnone Hfuel)
           as (k1 & Hrun & Hh & Ht);
         change (s32 0) with 0 in Hrun; rewrite !Z.add_0_l in Hrun; rewrite Hrun
       end; cbn.
  all: case_split; cbn; eexists; repeat split; eauto.
Qed.

End OrphanCleanupBroken.

(** ** Mount options *)

Lemma is_power_of_2_spec n :
  0 < n -> (is_power_of_2 n = true <-> exists e, 0 <= e /\ n = 2 ^ e).
Proof.
  intros Hn. unfold is_power_of_2.
  assert (nz n = true) as -> by (apply nz_true; lia). cbn [andb].
  rewrite Z.eqb_eq. split.
  - intros Hland. exists (Z.log2 n). split; [apply Z.log2_nonneg |].
    destruct (Z.log2_spec n Hn) as [Hlo Hhi].
    destruct (Z.eq_dec n (2 ^ Z.log2 n)) as [| Hne]; [assumption | exfalso].
    assert (Z.log2 (n - 1) = Z.log2 n) as Hlog
      by (apply Z.log2_unique; [apply Z.log2_nonneg | lia]).
    assert (Z.testbit (Z.land n (n - 1)) (Z.log2 n) = true) as Hbit.
    { rewrite Z.land_spec, (Z.bit_log2 n Hn). rewrite <- Hlog.
      rewrite Z.bit_log2; [reflexivity |].
      assert (0 < 2 ^ Z.log2 n) by (apply Z.pow_pos_nonneg; [lia | apply Z.log2_nonneg]).
      lia. }
    rewrite Hland, Z.bits_0 in Hbit. discriminate.
  - intros (e & He & ->).
    replace (2 ^ e - 1) with (Z.ones e) by (rewrite Z.ones_equiv; lia).
    rewrite Z.land_ones by assumption. apply Z_mod_same_full.
Qed.

Lemma land_policy_in_mask o m b :
  Z.land b m = b ->
  Z.land (Z.lor (Z.land o (Z.lnot m)) b) m = b /\
  Z.land (Z.lor (Z.land o (Z.lnot m)) b) (Z.lnot m) = Z.land o (Z.lnot m).
Proof.
  intros Hb.
  assert (forall n, 0 <= n -> Z.testbit b n = true -> Z.testbit m n = true) as Hsub.
  { intros n Hn Hbn. rewrite <- Hb, Z.land_spec in Hbn.
    apply andb_true_iff in Hbn. tauto. }
  split; apply Z.bits_inj'; intros n Hn;
    rewrite ?Z.land_spec, ?Z.lor_spec, ?Z.land_spec, ?Z.lnot_spec by assumption;
    specialize (Hsub n Hn);
    destruct (Z.testbit o n), (Z.testbit b n), (Z.testbit m n);
    try reflexivity; specialize (Hsub eq_refl); discriminate.
Qed.

Section MountOptions.
Context `{Ext4Headers}.

(** The error policies exclude one another: handling one of the
    [errors=] options leaves exactly its own bit inside the policy mask,
    whatever policy was set before, and leaves the options outside the mask
    alone. *)
Theorem handle_mount_opt_error_policy (k : kernel) (opt : string)
    (token : opt_token) (policy : Z) (journal_ioprio is_remount : Z) :
  error_policy token = Some policy ->
  Z.land policy EXT4_MOUNT_ERRORS_MASK = policy ->
  exists k',
    handle_mount_opt opt token NoArg journal_ioprio is_remount k
    = Returned (1, journal_ioprio) k' /\
    test_opt k' EXT4_MOUNT_ERRORS_MASK = policy /\
    Z.land (s_mount_opt (k_sbi k')) (Z.lnot EXT4_MOUNT_ERRORS_MASK)
    = Z.land (s_mount_opt (k_sbi k)) (Z.lnot EXT4_MOUNT_ERRORS_MASK).
Proof.
  intros Htoken Hmask.
  destruct (land_policy_in_mask (s_mount_opt (k_sbi k)) _ _ Hmask) as [Hin Hout].
  destruct token; try discriminate; injection Htoken as <-;
    unfold handle_mount_opt, handle_mount_opt_table, set_opt, clear_opt, set_opt2;
    unfold_K; cbn; eexists; (split; [reflexivity |]);
    unfold test_opt, k_sbi in *; cbn; split; assumption.
Qed.

(** [inode_readahead_blks=v], for [v] an [int]: the option is accepted
    exactly when [v] is 0 or a power of two up to 2^30, and then [v] is
    the new read-ahead; any other value is refused with -1 and leaves the
    super block as it was. *)
Theorem handle_mount_opt_inode_readahead_blks (k : kernel) (opt : string)
    (v : Z) (journal_ioprio is_remount : Z) :
  - 2 ^ 31 <= v < 2 ^ 31 ->
  let r := handle_mount_opt opt Opt_inode_readahead_blks (IntArg v)
             journal_ioprio is_remount k in
  let accepted := v = 0 \/ exists e, 0 <= e <= 30 /\ v = 2 ^ e in
  (accepted ->
   retval r = Some (1, journal_ioprio) /\
   s_inode_readahead_blks (k_sbi (final r)) = v) /\
  (~ accepted ->
   retval r = Some (-1, journal_ioprio) /\
   k_sb (final r) = k_sb k).
Proof.
  intros Hv r accepted. subst r accepted.
  unfold handle_mount_opt, handle_mount_opt_table, set_opt, clear_opt, set_opt2.
  unfold_K. cbn.
  destruct (v <? 0) eqn:Hneg.
  { apply Z.ltb_lt in Hneg. cbn. split.
    - intros [-> | (e & He & ->)]; [lia |].
      assert (0 < 2 ^ e) by (apply Z.pow_pos_nonneg; lia). lia.
    - intros _. split; reflexivity. }
  apply Z.ltb_ge in Hneg.
  assert (u32 v = v) as Hu by (unfold u32; apply Z.mod_small; lia).
  rewrite Hu.
  destruct (v >? 1 ≪ 30) eqn:Hbig.
  { apply Z.gtb_lt in Hbig. change (1 ≪ 30) with (2 ^ 30) in Hbig. cbn. split.
    - intros [-> | (e & He & ->)]; [lia |].
      assert (2 ^ e <= 2 ^ 30) by (apply Z.pow_le_mono_r; lia). lia.
    - intros _. split; reflexivity. }
  rewrite Z.gtb_ltb in Hbig. apply Z.ltb_ge in Hbig.
  change (1 ≪ 30) with (2 ^ 30) in Hbig.
  destruct (Z.eq_dec v 0) as [-> | Hnz].
  { cbn. split; [intros _; split; reflexivity |]. intros Hnot. exfalso. auto. }
  assert (nz v = true) as Hnzb by (apply nz_true; assumption).
  rewrite Hnzb. cbn [andb].
  pose proof (is_power_of_2_spec v ltac:(lia)) as Hpow.
  destruct (is_power_of_2 v); cbn.
  - split; [intros _; split; reflexivity |].
    intros Hnot. exfalso. apply Hnot. right.
    destruct (proj1 Hpow eq_refl) as (e & He & ->). exists e. split; [| reflexivity].
    split; [assumption |].
    destruct (Z.le_gt_cases e 30); [assumption |].
    assert (2 ^ 31 <= 2 ^ e) by (apply Z.pow_le_mono_r; lia). lia.
  - split; [| intros _; split; reflexivity].
    intros [-> | (e & He & ->)]; [contradiction |].
    assert (false = true) by (apply Hpow; exists e; split; [lia | reflexivity]).
    discriminate.
Qed.

(** Options that follow a refused one are never looked at: a list of
    options that [parse_options]' loop refuses is refused in the same way,
    with the same effects, whatever is appended to it. *)
Theorem parse_options_loop_stops (l1 l2 : list mount_option)
    (journal_ioprio is_remount : Z) (k : kernel) :
  fst <$> retval (parse_options_loop l1 journal_ioprio is_remount k) = Some 0 ->
  parse_options_loop (l1 ++ l2) journal_ioprio is_remount k
  = parse_options_loop l1 journal_ioprio is_remount k.
Proof.
  revert journal_ioprio k.
  induction l1 as [| p rest IH]; intros journal_ioprio k Hret.
  - discriminate.
  - cbn [app parse_options_loop] in *. unfold mbind, K_bind in *.
    destruct (handle_mount_opt _ _ _ _ _ k) as [r k1 | k1]; [| reflexivity].
    destruct (r.1 <? 0); [reflexivity |]. apply IH. exact Hret.
Qed.

End MountOptions.

(** ** Options that a remount refuses *)

Section RemountOptions.
Context `{Ext4Headers} `{RemountCollaborators}.

#[local] Instance anyhow_preorder : PreOrder anyhow.
Proof. split; repeat intro; exact I. Qed.

Ltac anyhow_leaf := intros ?; exact I.

Lemma handle_mount_opt_table_returns opt token args_from arg is_remount :
  ensures anyhow any (handle_mount_opt_table opt token args_from arg is_remount).
Proof.
  unfold handle_mount_opt_table, set_opt, clear_opt, set_opt2.
  ensures_go anyhow_leaf.
Qed.

#[local] Hint Resolve handle_mount_opt_table_returns : ensures.

Lemma handle_mount_opt_returns opt token args journal_ioprio is_remount :
  ensures anyhow any (handle_mount_opt opt token args journal_ioprio is_remount).
Proof.
  unfold handle_mount_opt.
  destruct args; [| | ensures_go anyhow_leaf]; cbv zeta;
    destruct token; ensures_go anyhow_leaf.
Qed.

Lemma handle_mount_opt_journal_dev opt args journal_ioprio is_remount k :
  is_remount <> 0 ->
  exists r k',
    handle_mount_opt opt Opt_journal_dev args journal_ioprio is_remount k
    = Returned r k' /\ fst r = -1.
Proof.
  intros Hre. apply nz_true in Hre.
  unfold handle_mount_opt. destruct args; rewrite ?Hre; cbn; eauto.
Qed.

Lemma parse_options_loop_journal_dev (l : list mount_option) is_remount :
  is_remount <> 0 ->
  (exists p, In p l /\ mo_token p = Opt_journal_dev) ->
  forall journal_ioprio k,
  exists r k',
    parse_options_loop l journal_ioprio is_remount k = Returned r k' /\
    fst r = 0.
Proof.
  intros Hre. induction l as [| q rest IH]; intros (p & Hin & Htok) journal_ioprio k.
  - destruct Hin.
  - cbn [parse_options_loop].
    destruct (handle_mount_opt_returns (mo_text q) (mo_token q) (mo_arg q)
                journal_ioprio is_remount k) as (r & k1 & Hrun & _).
    rewrite (K_bind_run _ _ _ _ _ Hrun).
    destruct (r.1 <? 0) eqn:Hneg; [cbn; eauto |].
    destruct Hin as [-> | Hin].
    + rewrite Htok in Hrun.
      destruct (handle_mount_opt_journal_dev (mo_text p) (mo_arg p) journal_ioprio
                  is_remount k Hre) as (r' & k' & Hrun' & Hr').
      rewrite Hrun' in Hrun. injection Hrun as -> ->.
      rewrite Hr' in Hneg. discriminate.
    + apply IH. eauto.
Qed.

(** The journal device cannot be changed by a remount: whatever the
    volume and the other options, a remount whose options name a journal
    device returns [-EINVAL] with what it had saved put back. *)
Theorem ext4_remount_journal_dev (k : kernel) (flags : Z)
    (data : list mount_option) :
  (exists p, In p data /\ mo_token p = Opt_journal_dev) ->
  exists k',
    ext4_remount flags (Some data) k = Returned (- EINVAL) k' /\
    remount_snapshot k' = remount_snapshot k.
Proof.
  intros Hdev.
  unfold ext4_remount. rewrite K_bind_get. cbv zeta.
  match goal with
  | |- context [parse_options (Some data) ?io 1] =>
    assert (exists r k1, parse_options (Some data) io 1 k = Returned r k1 /\
                         fst r = 0) as (r & k1 & Hrun & Hr)
  end.
  { match goal with
    | |- context [parse_options (Some data) ?io 1] =>
      destruct (parse_options_loop_journal_dev data 1 ltac:(discriminate) Hdev io k)
        as (r & k1 & Hrun & Hr)
    end.
    unfold parse_options. rewrite (K_bind_run _ _ _ _ _ Hrun). rewrite Hr.
    cbn. eauto. }
  rewrite (K_bind_run _ _ _ _ _ Hrun). rewrite Hr. cbn [nz Z.eqb negb].
  unfold restore_opts. unfold_K. cbn. eexists. split; reflexivity.
Qed.

End RemountOptions.

(** ** Block addresses in a group descriptor *)

Lemma byte_at_put_same p off v :
  0 <= off < Z.of_nat (length p) -> byte_at (put_byte p off v) off = v.
Proof.
  intros Hoff. unfold byte_at, put_byte.
  rewrite list_lookup_insert_eq by lia. reflexivity.
Qed.

Lemma byte_at_put_other p off off' v :
  0 <= off -> 0 <= off' -> off <> off' ->
  byte_at (put_byte p off v) off' = byte_at p off'.
Proof.
  intros Hoff Hoff' Hne. unfold byte_at, put_byte.
  rewrite list_lookup_insert_ne by lia. reflexivity.
Qed.

Lemma length_put_byte p off v : length (put_byte p off v) = length p.
Proof. unfold put_byte. apply length_insert. Qed.

Lemma length_put_le32 p off v : length (put_le32 p off v) = length p.
Proof. unfold put_le32, put_le16. rewrite !length_put_byte. reflexivity. Qed.

Ltac bits_done :=
  repeat rewrite orb_false_r; cbn [orb]; repeat rewrite orb_false_r;
  try reflexivity; f_equal; lia.

Lemma le32_of_bytes v :
  Z.lor (Z.lor (u8 v) (u8 (v ≫ 8) ≪ 8))
        (Z.lor (u8 (v ≫ 16)) (u8 ((v ≫ 16) ≫ 8) ≪ 8) ≪ 16)
  = u32 v.
Proof.
  apply Z.bits_inj'. intros n Hn. unfold u8, u32.
  rewrite !Z.lor_spec.
  destruct (Z.lt_ge_cases n 8).
  { rewrite !Z.shiftl_spec_low by lia.
    rewrite !Z.mod_pow2_bits_low by lia. bits_done. }
  rewrite (Z.mod_pow2_bits_high v 8 n) by lia.
  rewrite (Z.shiftl_spec _ 8 n) by lia.
  destruct (Z.lt_ge_cases n 16).
  { rewrite (Z.shiftl_spec_low _ 16) by lia.
    rewrite (Z.mod_pow2_bits_low (v ≫ 8)) by lia.
    rewrite (Z.mod_pow2_bits_low v 32) by lia.
    rewrite Z.shiftr_spec by lia. bits_done. }
  rewrite (Z.mod_pow2_bits_high (v ≫ 8) 8) by lia.
  rewrite (Z.shiftl_spec _ 16 n) by lia. rewrite Z.lor_spec.
  destruct (Z.lt_ge_cases n 24).
  { rewrite (Z.shiftl_spec_low _ 8 (n - 16)) by lia.
    rewrite (Z.mod_pow2_bits_low (v ≫ 16)) by lia.
    rewrite (Z.mod_pow2_bits_low v 32) by lia.
    rewrite Z.shiftr_spec by lia. bits_done. }
  rewrite (Z.mod_pow2_bits_high (v ≫ 16) 8) by lia.
  rewrite (Z.shiftl_spec _ 8 (n - 16)) by lia.
  destruct (Z.lt_ge_cases n 32).
  { rewrite (Z.mod_pow2_bits_low ((v ≫ 16) ≫ 8)) by lia.
    rewrite (Z.mod_pow2_bits_low v 32) by lia.
    rewrite !Z.shiftr_spec by lia. bits_done. }
  rewrite !Z.mod_pow2_bits_high by lia. reflexivity.
Qed.

Lemma get_le32_put_le32_same p off v :
  0 <= off -> off + 4 <= Z.of_nat (length p) ->
  get_le32 (put_le32 p off v) off = u32 v.
Proof.
  intros Hoff Hlen. unfold get_le32, get_le16, put_le32, put_le16.
  replace (off + 2 + 1) with (off + 3) by lia.
  rewrite (byte_at_put_other _ (off + 3) off) by lia.
  rewrite (byte_at_put_other _ (off + 2) off) by lia.
  rewrite (byte_at_put_other _ (off + 1) off) by lia.
  rewrite byte_at_put_same by lia.
  rewrite (byte_at_put_other _ (off + 3) (off + 1)) by lia.
  rewrite (byte_at_put_other _ (off + 2) (off + 1)) by lia.
  rewrite byte_at_put_same by (rewrite !length_put_byte; lia).
  rewrite (byte_at_put_other _ (off + 3) (off + 2)) by lia.
  rewrite byte_at_put_same by (rewrite !length_put_byte; lia).
  rewrite byte_at_put_same by (rewrite !length_put_byte; lia).
  apply le32_of_bytes.
Qed.

Lemma get_le32_put_le32_other p off off' v :
  0 <= off -> 0 <= off' -> fields_apart off off' ->
  get_le32 (put_le32 p off v) off' = get_le32 p off'.
Proof.
  intros Hoff Hoff' Hapart. unfold fields_apart in Hapart.
  unfold get_le32, get_le16, put_le32, put_le16.
  rewrite !byte_at_put_other by lia. reflexivity.
Qed.

Lemma blocknr_of_halves blk :
  0 <= blk < 2 ^ 64 ->
  Z.lor (u32 (u32 (u32 blk))) (u64 (u32 (u32 (blk ≫ 32)) ≪ 32)) = blk.
Proof.
  intros Hblk. apply Z.bits_inj'. intros n Hn. unfold u32, u64.
  rewrite Z.lor_spec.
  destruct (Z.lt_ge_cases n 32).
  - rewrite !Z.mod_pow2_bits_low by lia.
    rewrite Z.shiftl_spec_low by lia. apply orb_false_r.
  - rewrite (Z.mod_pow2_bits_high _ 32 n) by lia. cbn [orb].
    destruct (Z.lt_ge_cases n 64).
    + rewrite Z.mod_pow2_bits_low by lia.
      rewrite Z.shiftl_spec by lia.
      rewrite !Z.mod_pow2_bits_low by lia.
      rewrite Z.shiftr_spec by lia. f_equal. lia.
    + rewrite Z.mod_pow2_bits_high by lia. symmetry.
      destruct (Z.eq_dec blk 0) as [-> | Hne]; [apply Z.bits_0 |].
      apply Z.bits_above_log2; [lia |].
      apply Z.lt_le_trans with 64; [| lia]. apply Z.log2_lt_pow2; lia.
Qed.

Section DescriptorAddresses.
Context `{Ext4Headers}.

Lemma desc_layout_fields k bg :
  desc_layout k bg ->
  field_in bg offsetof_bg_block_bitmap_lo /\
  field_in bg offsetof_bg_inode_bitmap_lo /\
  field_in bg offsetof_bg_inode_table_lo /\
  fields_apart offsetof_bg_block_bitmap_lo offsetof_bg_inode_bitmap_lo /\
  fields_apart offsetof_bg_block_bitmap_lo offsetof_bg_inode_table_lo /\
  fields_apart offsetof_bg_inode_bitmap_lo offsetof_bg_inode_table_lo /\
  ((EXT4_DESC_SIZE k >=? EXT4_MIN_DESC_SIZE_64BIT) = true ->
   field_in bg offsetof_bg_block_bitmap_hi /\
   field_in bg offsetof_bg_inode_bitmap_hi /\
   field_in bg offsetof_bg_inode_table_hi /\
   (forall lo hi,
      In lo [offsetof_bg_block_bitmap_lo; offsetof_bg_inode_bitmap_lo;
             offsetof_bg_inode_table_lo] ->
      In hi [offsetof_bg_block_bitmap_hi; offsetof_bg_inode_bitmap_hi;
             offsetof_bg_inode_table_hi] ->
      fields_apart lo hi) /\
   fields_apart offsetof_bg_block_bitmap_hi offsetof_bg_inode_bitmap_hi /\
   fields_apart offsetof_bg_block_bitmap_hi offsetof_bg_inode_table_hi /\
   fields_apart offsetof_bg_inode_bitmap_hi offsetof_bg_inode_table_hi).
Proof.
  intros [Hin Hapart]. unfold address_fields in *.
  assert (forall i j o o', (i < j)%nat ->
            ([offsetof_bg_block_bitmap_lo; offsetof_bg_inode_bitmap_lo;
              offsetof_bg_inode_table_lo] ++
             (if EXT4_DESC_SIZE k >=? EXT4_MIN_DESC_SIZE_64BIT
              then [offsetof_bg_block_bitmap_hi; offsetof_bg_inode_bitmap_hi;
                    offsetof_bg_inode_table_hi]
              else [])) !! i = Some o ->
            ([offsetof_bg_block_bitmap_lo; offsetof_bg_inode_bitmap_lo;
              offsetof_bg_inode_table_lo] ++
             (if EXT4_DESC_SIZE k >=? EXT4_MIN_DESC_SIZE_64BIT
              then [offsetof_bg_block_bitmap_hi; offsetof_bg_inode_bitmap_hi;
                    offsetof_bg_inode_table_hi]
              else [])) !! j = Some o' ->
            fields_apart o o') as Hlt
    by (intros i j o o' Hij Hi Hj; apply (Hapart i j); [assumption .. | lia]).
  destruct (EXT4_DESC_SIZE k >=? EXT4_MIN_DESC_SIZE_64BIT); cbn in Hin, Hlt;
    repeat match goal with
           | Hf : Forall _ (_ :: _) |- _ =>
             apply Forall_cons in Hf; destruct Hf as [? Hf]
           end.
  - do 6 (split; [first [assumption
                        | apply (Hlt 0%nat 1%nat); [lia | reflexivity ..]
                        | apply (Hlt 0%nat 2%nat); [lia | reflexivity ..]
                        | apply (Hlt 1%nat 2%nat); [lia | reflexivity ..]] |]).
    intros _.
    do 3 (split; [assumption |]).
    split; [| split; [| split]].
    + intros lo hi Hlo Hhi. cbn in Hlo, Hhi.
      destruct Hlo as [<- | [<- | [<- | []]]], Hhi as [<- | [<- | [<- | []]]].
      * apply (Hlt 0%nat 3%nat); [lia | reflexivity ..].
      * apply (Hlt 0%nat 4%nat); [lia | reflexivity ..].
      * apply (Hlt 0%nat 5%nat); [lia | reflexivity ..].
      * apply (Hlt 1%nat 3%nat); [lia | reflexivity ..].
      * apply (Hlt 1%nat 4%nat); [lia | reflexivity ..].
      * apply (Hlt 1%nat 5%nat); [lia | reflexivity ..].
      * apply (Hlt 2%nat 3%nat); [lia | reflexivity ..].
      * apply (Hlt 2%nat 4%nat); [lia | reflexivity ..].
      * apply (Hlt 2%nat 5%nat); [lia | reflexivity ..].
    + apply (Hlt 3%nat 4%nat); [lia | reflexivity ..].
    + apply (Hlt 3%nat 5%nat); [lia | reflexivity ..].
    + apply (Hlt 4%nat 5%nat); [lia | reflexivity ..].
  - do 6 (split; [first [assumption
                        | apply (Hlt 0%nat 1%nat); [lia | reflexivity ..]
                        | apply (Hlt 0%nat 2%nat); [lia | reflexivity ..]
                        | apply (Hlt 1%nat 2%nat); [lia | reflexivity ..]] |]).
    discriminate.
Qed.

Lemma fields_apart_sym o o' : fields_apart o o' -> fields_apart o' o.
Proof. unfold fields_apart. lia. Qed.

(** What is stored with one of the three setters is what the matching
    getter reads back: the block number itself with 64-bit descriptors,
    its low 32 bits with the smaller ones, whose high half is not stored;
    and the store leaves the other two addresses as they were. *)
Theorem ext4_block_address_set_get (k : kernel) (bg : list Z) (blk : Z) :
  desc_layout k bg ->
  0 <= blk < 2 ^ 64 ->
  (ext4_block_bitmap k (ext4_block_bitmap_set k bg blk) = desc_blocknr k blk /\
   ext4_inode_bitmap k (ext4_block_bitmap_set k bg blk) = ext4_inode_bitmap k bg /\
   ext4_inode_table k (ext4_block_bitmap_set k bg blk) = ext4_inode_table k bg) /\
  (ext4_inode_bitmap k (ext4_inode_bitmap_set k bg blk) = desc_blocknr k blk /\
   ext4_block_bitmap k (ext4_inode_bitmap_set k bg blk) = ext4_block_bitmap k bg /\
   ext4_inode_table k (ext4_inode_bitmap_set k bg blk) = ext4_inode_table k bg) /\
  (ext4_inode_table k (ext4_inode_table_set k bg blk) = desc_blocknr k blk /\
   ext4_block_bitmap k (ext4_inode_table_set k bg blk) = ext4_block_bitmap k bg /\
   ext4_inode_bitmap k (ext4_inode_table_set k bg blk) = ext4_inode_bitmap k bg).
Proof.
  intros Hlayout Hblk.
  destruct (desc_layout_fields k bg Hlayout)
    as (Hbb & Hib & Hit & Hbi & Hbt & Hitb & Hwide).
  unfold ext4_block_bitmap, ext4_inode_bitmap, ext4_inode_table,
    ext4_block_bitmap_set, ext4_inode_bitmap_set, ext4_inode_table_set,
    desc_blocknr, bg_block_bitmap_lo, bg_block_bitmap_hi, bg_inode_bitmap_lo,
    bg_inode_bitmap_hi, bg_inode_table_lo, bg_inode_table_hi,
    le32_to_cpu, cpu_to_le32.
  pose proof fields_apart_sym as Hsym.
  destruct (EXT4_DESC_SIZE k >=? EXT4_MIN_DESC_SIZE_64BIT) eqn:Hsize; cbv zeta.
  - destruct (Hwide eq_refl) as (Hbbh & Hibh & Hith & Hlh & Hbih & Hbth & Hith').
    assert (forall lo hi,
              In lo [offsetof_bg_block_bitmap_lo; offsetof_bg_inode_bitmap_lo;
                     offsetof_bg_inode_table_lo] ->
              In hi [offsetof_bg_block_bitmap_hi; offsetof_bg_inode_bitmap_hi;
                     offsetof_bg_inode_table_hi] ->
              fields_apart hi lo) as Hhl by (intros; apply Hsym, Hlh; assumption).
    unfold field_in in *.
    repeat split;
      repeat first
        [ rewrite get_le32_put_le32_same by (rewrite ?length_put_le32; lia)
        | rewrite get_le32_put_le32_other
            by first [lia | assumption | apply Hsym; assumption
                      | apply Hlh; cbn; tauto | apply Hhl; cbn; tauto] ];
      first [apply blocknr_of_halves; assumption | reflexivity].
  - unfold field_in in *.
    repeat split;
      repeat first
        [ rewrite get_le32_put_le32_same by (rewrite ?length_put_le32; lia)
        | rewrite get_le32_put_le32_other
            by first [lia | assumption | apply Hsym; assumption] ];
      first [rewrite Z.lor_0_r; unfold u32; rewrite !Zmod_mod; reflexivity
            | reflexivity].
Qed.

End DescriptorAddresses.

(** ** Size limits *)

Lemma s64_small x : 0 <= x < 2 ^ 63 -> s64 x = x.
Proof.
  intros Hx. unfold s64, u64. rewrite Z.mod_small by lia.
  destruct (Z.ltb_spec x (2 ^ 63)); lia.
Qed.

Lemma u64_small x : 0 <= x < 2 ^ 64 -> u64 x = x.
Proof. intros Hx. unfold u64. apply Z.mod_small. lia. Qed.

Lemma s32_small x : 0 <= x < 2 ^ 31 -> s32 x = x.
Proof.
  intros Hx. unfold s32, u32. rewrite Z.mod_small by lia.
  destruct (Z.ltb_spec x (2 ^ 31)); lia.
Qed.

(** One closed arithmetic subterm replaced by its value. *)
Ltac is_numeral v :=
  lazymatch v with
  | Z0 => idtac
  | Zpos _ => idtac
  | Zneg _ => idtac
  end.
Ltac is_closed x :=
  lazymatch x with
  | context [EXT4_NDIR_BLOCKS] => fail
  | context [MAX_LFS_FILESIZE] => fail
  | context [if _ then _ else _] => fail
  | _ => idtac
  end.
Ltac closed_step :=
  match goal with
  | |- context [2 ^ ?e] =>
    is_closed e;
    let v := eval vm_compute in (2 ^ e) in
    is_numeral v; progress change (2 ^ e) with v
  | |- context [?a `div` ?b] =>
    is_closed a; is_closed b;
    let v := eval vm_compute in (a `div` b) in
    is_numeral v; progress change (a `div` b) with v
  | |- context [s64 ?x] =>
    is_closed x;
    let v := eval vm_compute in (s64 x) in
    is_numeral v; progress change (s64 x) with v
  | |- context [s32 ?x] =>
    is_closed x;
    let v := eval vm_compute in (s32 x) in
    is_numeral v; progress change (s32 x) with v
  | |- context [?a - ?b] =>
    is_closed a; is_closed b;
    let v := eval vm_compute in (a - b) in
    is_numeral v; progress change (a - b) with v
  end.

Section SizeLimits.
Context `{Ext4Headers} `{Ext4Limits}.

(** For block sizes from 512 bytes to 1 GiB, the size [ext4_max_size]
    allows never needs a logical block number beyond 32 bits, and without
    huge files (or with a narrow [blkcnt_t]) it is a whole number of
    blocks whose count of 512-byte sectors fits in 32 bits. *)
Theorem ext4_max_size_fits (blkbits has_huge_files : Z) :
  9 <= blkbits <= 30 ->
  0 <= MAX_LFS_FILESIZE ->
  let res := ext4_max_size blkbits has_huge_files in
  0 <= res <= (2 ^ 32 - 1) * 2 ^ blkbits /\
  res <= Z.max MAX_LFS_FILESIZE ((2 ^ 32 - 1) * 2 ^ 9) /\
  (negb (nz has_huge_files) || blkcnt_t_is_narrow = true ->
   res ≫ 9 <= 2 ^ 32 - 1 /\ res mod 2 ^ blkbits = 0).
Proof.
  intros Hbits Hlfs res. subst res. unfold ext4_max_size. cbv zeta.
  change (1 ≪ 32) with (2 ^ 32).
  rewrite !(s64_small (2 ^ 32)) by lia.
  rewrite !(s64_small (2 ^ 32 - 1)) by lia.
  rewrite Z.shiftr_div_pow2, !Z.shiftl_mul_pow2 by lia.
  assert (0 < 2 ^ blkbits) as Hpb by (apply Z.pow_pos_nonneg; lia).
  assert (0 < 2 ^ (blkbits - 9)) as Hp9 by (apply Z.pow_pos_nonneg; lia).
  assert (2 ^ blkbits = 2 ^ (blkbits - 9) * 2 ^ 9) as Hsplit
    by (rewrite <- Z.pow_add_r by lia; f_equal; lia).
  assert (2 ^ blkbits <= 2 ^ 30) as Hle by (apply Z.pow_le_mono_r; lia).
  set (q := (2 ^ 32 - 1) / 2 ^ (blkbits - 9)).
  assert (0 <= q) as Hq0 by (apply Z.div_pos; lia).
  assert (q * 2 ^ (blkbits - 9) <= 2 ^ 32 - 1) as Hq
    by (rewrite Z.mul_comm; apply Z.mul_div_le; lia).
  assert (q * 2 ^ blkbits <= (2 ^ 32 - 1) * 2 ^ 9) as Hupper
    by (rewrite Hsplit; nia).
  assert (q * 2 ^ blkbits <= (2 ^ 32 - 1) * 2 ^ blkbits) as Hupper'.
  { apply Z.mul_le_mono_nonneg_r; [lia |]. subst q.
    apply Z.div_le_upper_bound; [lia |]. nia. }
  rewrite (s64_small ((2 ^ 32 - 1) * 2 ^ blkbits)) by nia.
  rewrite (s64_small (q * 2 ^ blkbits)) by nia.
  rewrite Z.shiftr_div_pow2 by lia.
  destruct (negb (nz has_huge_files) || blkcnt_t_is_narrow).
  - destruct (Z.gtb_spec ((2 ^ 32 - 1) * 2 ^ blkbits) (q * 2 ^ blkbits)).
    + split; [nia |]. split; [lia |]. intros _. split.
      * apply Z.div_le_upper_bound; lia.
      * apply Z_mod_mult.
    + assert (q * 2 ^ blkbits = (2 ^ 32 - 1) * 2 ^ blkbits) as Heq by lia.
      split; [nia |]. split; [lia |]. intros _. split.
      * apply Z.div_le_upper_bound; lia.
      * apply Z_mod_mult.
  - destruct (Z.gtb_spec ((2 ^ 32 - 1) * 2 ^ blkbits) MAX_LFS_FILESIZE).
    + split; [nia |]. split; [lia |]. discriminate.
    + split; [nia |]. split; [lia |]. discriminate.
Qed.

(** For block sizes from 1 KiB to 16 KiB, [ext4_max_bitmap_size] is
    positive, at most [MAX_LFS_FILESIZE], a size the direct and the three
    levels of indirect blocks can map, and, without huge files (or with a
    narrow [blkcnt_t]), small enough that the data blocks and the indirect
    blocks together fit the 32-bit count of 512-byte sectors. *)
Theorem ext4_max_bitmap_size_fits (bits has_huge_files : Z) :
  10 <= bits <= 14 ->
  0 <= EXT4_NDIR_BLOCKS < 2 ^ 16 ->
  0 < MAX_LFS_FILESIZE ->
  let res := ext4_max_bitmap_size bits has_huge_files in
  let addr := 2 ^ (bits - 2) in
  let meta := 3 + 2 * addr + addr * addr in
  0 < res <= MAX_LFS_FILESIZE /\
  res <= (EXT4_NDIR_BLOCKS + addr + addr * addr + addr * addr * addr) * 2 ^ bits /\
  (negb (nz has_huge_files) || blkcnt_t_is_narrow = true ->
   (res / 2 ^ bits + meta) * 2 ^ (bits - 9) <= 2 ^ 32 - 1).
Proof.
  intros Hbits Hndir Hlfs res addr meta. subst res addr meta.
  unfold ext4_max_bitmap_size. cbv zeta.
  assert (bits = 10 \/ bits = 11 \/ bits = 12 \/ bits = 13 \/ bits = 14)
    as Hcase by lia.
  assert (forall e, 0 <= e <= 62 -> s64 (1 ≪ e) = 2 ^ e) as Hpow.
  { intros e He. rewrite Z.shiftl_mul_pow2, Z.mul_1_l by lia.
    apply s64_small. split; [apply Z.pow_nonneg; lia |].
    apply Z.pow_lt_mono_r; lia. }
  rewrite !Hpow by lia.
  rewrite (s64_small (2 ^ 32 - 1)), (s64_small (2 ^ 48 - 1)) by lia.
  rewrite Z.shiftr_div_pow2, !Z.shiftl_mul_pow2 by lia.
  destruct (negb (nz has_huge_files) || blkcnt_t_is_narrow);
    destruct Hcase as [-> | [-> | [-> | [-> | ->]]]];
    repeat closed_step;
    repeat match goal with
           | |- context [s64 ?x] => rewrite (s64_small x) by lia
           end;
    repeat match goal with
           | |- context [?a >? ?b] => destruct (Z.gtb_spec a b)
           | Hc : context [?a >? ?b] |- _ => destruct (Z.gtb_spec a b)
           end;
    repeat match goal with
           | Hc : context [u64 ?x] |- _ => rewrite (u64_small x) in Hc by lia
           end;
    try rewrite (s64_small MAX_LFS_FILESIZE) by lia;
    (split; [lia |]); (split; [lia |]);
    first [discriminate | intros _; Z.div_mod_to_equations; lia].
Qed.

End SizeLimits.

(** ** The stripe size *)

Section StripeSize.
Context `{Ext4Headers}.

(** The stripe size handed to the allocator is 0 or lies between 2 and
    the number of blocks per group, and a stripe given at mount time wins
    when it fits. *)
Theorem ext4_get_stripe_size_fits (sbi : ext4_sb_info)
    (s_raid_stride s_raid_stripe_width : Z) :
  32 <= BITS_PER_LONG ->
  0 <= s_blocks_per_group sbi < 2 ^ 31 ->
  0 <= s_stripe sbi ->
  let stripe := ext4_get_stripe_size sbi s_raid_stride s_raid_stripe_width in
  (stripe = 0 \/ 2 <= stripe <= s_blocks_per_group sbi) /\
  (2 <= s_stripe sbi <= s_blocks_per_group sbi -> stripe = s_stripe sbi).
Proof.
  intros Hlong Hbpg Hstripe stripe. subst stripe.
  unfold ext4_get_stripe_size. cbv zeta.
  assert (2 ^ 31 < 2 ^ BITS_PER_LONG) as Hpow by (apply Z.pow_lt_mono_r; lia).
  assert (forall x, 0 <= x < 2 ^ 31 -> ulong x = x) as Hul
    by (intros x Hx; unfold ulong; apply Z.mod_small; lia).
  assert (forall x, 0 <= ulong x) as Hpos
    by (intros x; unfold ulong; apply Z.mod_pos_bound; lia).
  set (width := ulong (le32_to_cpu s_raid_stripe_width)) in *.
  set (stride := ulong (le16_to_cpu s_raid_stride)) in *.
  pose proof (Hpos (le32_to_cpu s_raid_stripe_width)) as Hw. fold width in Hw.
  pose proof (Hpos (le16_to_cpu s_raid_stride)) as Hs. fold stride in Hs.
  unfold nz.
  destruct (Z.eqb_spec (s_stripe sbi) 0) as [Hz | Hz]; cbn [negb andb];
    [| destruct (Z.leb_spec (s_stripe sbi) (s_blocks_per_group sbi)) as [Hfit | Hfit]];
    try (rewrite (s32_small (s_stripe sbi)) by lia;
         destruct (Z.leb_spec (s_stripe sbi) 1);
         [rewrite (Hul 0) by lia | rewrite Hul by lia]; lia).
  all: destruct (Z.leb_spec width (s_blocks_per_group sbi));
    [rewrite (s32_small width) by lia;
     destruct (Z.leb_spec width 1);
     [rewrite (Hul 0) by lia | rewrite Hul by lia]; lia |].
  all: destruct (Z.leb_spec stride (s_blocks_per_group sbi));
    [rewrite (s32_small stride) by lia;
     destruct (Z.leb_spec stride 1);
     [rewrite (Hul 0) by lia | rewrite Hul by lia]; lia |].
  all: cbn; rewrite (Hul 0) by lia; lia.
Qed.

End StripeSize.

(** ** The better of two I/O priorities *)

Section IoprioBest.
Context `{Ext4Headers} `{IoprioHeaders}.

(** [ioprio_best] does not depend on the order of its arguments; what it
    returns is one of the two priorities, each taken as best-effort at the
    normal level when invalid; and of two priorities in different classes
    it returns the one in the class with the smaller number. *)
Theorem ioprio_best_symmetric (aprio bprio : Z) :
  let a := ioprio_or_default aprio in
  let b := ioprio_or_default bprio in
  ioprio_best aprio bprio = ioprio_best bprio aprio /\
  (ioprio_best aprio bprio = a \/ ioprio_best aprio bprio = b) /\
  ioprio_best aprio aprio = a /\
  (u16 (IOPRIO_PRIO_CLASS a) < u16 (IOPRIO_PRIO_CLASS b) ->
   ioprio_best aprio bprio = a).
Proof.
  intros a b. unfold ioprio_best. cbv zeta.
  fold (ioprio_or_default aprio) (ioprio_or_default bprio). fold a b.
  destruct (Z.eqb_spec (u16 (IOPRIO_PRIO_CLASS a)) (u16 (IOPRIO_PRIO_CLASS b)))
    as [Heq | Hne].
  - rewrite Heq, !Z.eqb_refl. repeat split.
    + apply Z.min_comm.
    + destruct (Z.min_spec a b) as [[_ ->] | [_ ->]]; auto.
    + apply Z.min_id.
    + lia.
  - destruct (Z.eqb_spec (u16 (IOPRIO_PRIO_CLASS b)) (u16 (IOPRIO_PRIO_CLASS a)));
      [congruence |].
    rewrite Z.eqb_refl.
    destruct (Z.gtb_spec (u16 (IOPRIO_PRIO_CLASS a)) (u16 (IOPRIO_PRIO_CLASS b)));
      destruct (Z.gtb_spec (u16 (IOPRIO_PRIO_CLASS b)) (u16 (IOPRIO_PRIO_CLASS a)));
      repeat split; auto; try lia; apply Z.min_id.
Qed.

End IoprioBest.

(** ** The continue policy *)

Section ContinuePolicy.
Context `{Ext4Headers}.

Lemma handle_mount_opt_err_cont (k : kernel) (opt : string)
    (journal_ioprio is_remount : Z) :
  exists k',
    handle_mount_opt opt Opt_err_cont NoArg journal_ioprio is_remount k
    = Returned (1, journal_ioprio) k' /\
    s_mount_opt (k_sbi k')
    = Z.lor (Z.land (s_mount_opt (k_sbi k)) (Z.lnot EXT4_MOUNT_ERRORS_MASK))
            EXT4_MOUNT_ERRORS_CONT /\
    s_flags (k_sb k') = s_flags (k_sb k) /\
    s_mount_flags (k_sbi k') = s_mount_flags (k_sbi k) /\
    s_journal (k_sbi k') = s_journal (k_sbi k).
Proof.
  unfold handle_mount_opt, handle_mount_opt_table, set_opt, clear_opt, set_opt2.
  unfold_K. cbn. eexists. split; [reflexivity |]. repeat split.
Qed.

Lemma land_through_mask o m x : Z.land x m = x -> Z.land (Z.land o m) x = Z.land o x.
Proof.
  intros Hx. rewrite <- Z.land_assoc, (Z.land_comm m x), Hx. reflexivity.
Qed.

(** After [errors=continue] has been handled, an error reported with
    [__ext4_error] is logged and recorded and nothing more: no panic, and
    mount flags, abort flag and journal as they were before the option. *)
Theorem ext4_error_under_continue (k : kernel) (opt : string)
    (journal_ioprio is_remount : Z) (function : string) (line : Z)
    (text : string) :
  continue_policy_distinct ->
  exists k1 k2,
    handle_mount_opt opt Opt_err_cont NoArg journal_ioprio is_remount k
    = Returned (1, journal_ioprio) k1 /\
    __ext4_error function line text k1 = Returned tt k2 /\
    s_flags (k_sb k2) = s_flags (k_sb k) /\
    s_mount_flags (k_sbi k2) = s_mount_flags (k_sbi k) /\
    s_journal (k_sbi k2) = s_journal (k_sbi k).
Proof.
  intros (Hnz & Hc & Hr & Hp & Hcr & Hcp).
  destruct (handle_mount_opt_err_cont k opt journal_ioprio is_remount)
    as (k1 & Hrun1 & Hmo1 & Hf1 & Hmf1 & Hj1).
  destruct (land_policy_in_mask (s_mount_opt (k_sbi k)) _ _ Hc) as [Hin _].
  rewrite <- Hmo1 in Hin.
  assert (forall x, Z.land x EXT4_MOUNT_ERRORS_MASK = x ->
            Z.land (s_mount_opt (k_sbi k1)) x = Z.land EXT4_MOUNT_ERRORS_CONT x)
    as Hpol by (intros x Hx; rewrite <- (land_through_mask _ _ _ Hx), Hin; reflexivity).
  exists k1. unfold __ext4_error, printk at 1.
  erewrite K_bind_run by reflexivity.
  match goal with
  | |- context [(_ ≫= _) ?k0] =>
    destruct (save_error_info_returns function line k0)
      as (k2 & Hrun2 & Hf2 & Hmf2 & Hmo2 & Hj2)
  end.
  rewrite (K_bind_run _ _ _ _ _ Hrun2).
  exists k2. split; [exact Hrun1 |]. split.
  - assert (nz (test_opt k2 EXT4_MOUNT_ERRORS_CONT) = true) as Hcont.
    { apply nz_true. unfold test_opt. rewrite Hmo2.
      change (Z.land (s_mount_opt (k_sbi k1)) EXT4_MOUNT_ERRORS_CONT <> 0).
      rewrite (Hpol _ Hc), Z.land_diag. exact Hnz. }
    assert (nz (test_opt k2 EXT4_MOUNT_ERRORS_RO) = false) as Hro.
    { apply nz_false. unfold test_opt. rewrite Hmo2.
      change (Z.land (s_mount_opt (k_sbi k1)) EXT4_MOUNT_ERRORS_RO = 0).
      rewrite (Hpol _ Hr). exact Hcr. }
    assert (nz (test_opt k2 EXT4_MOUNT_ERRORS_PANIC) = false) as Hpanic.
    { apply nz_false. unfold test_opt. rewrite Hmo2.
      change (Z.land (s_mount_opt (k_sbi k1)) EXT4_MOUNT_ERRORS_PANIC = 0).
      rewrite (Hpol _ Hp). exact Hcp. }
    unfold ext4_handle_error. unfold_K.
    destruct (nz (Z.land (s_flags (k_sb k2)) MS_RDONLY)); [reflexivity |].
    rewrite Hcont. cbn. rewrite Hro. cbn. rewrite Hpanic. reflexivity.
  - rewrite Hf2, Hmf2, Hj2. cbn. auto.
Qed.

End ContinuePolicy.
(** ** Instances on the sample volume *)

Section OnLinux.
#[local] Existing Instance Linux.headers.
#[local] Existing Instance Linux.collaborators.
#[local] Existing Instance Linux.remount_collaborators.

Lemma sample_uuid_bytes : Forall is_byte Linux.sample_uuid.
Proof. unfold Linux.sample_uuid, is_byte. repeat constructor; lia. Qed.

Lemma sample_desc_bytes : Forall is_byte Linux.sample_desc.
Proof.
  unfold Linux.sample_desc.
  do 2 (apply Forall_is_byte_insert; [| apply u8_is_byte]).
  unfold Linux.sample_desc_unsigned, is_byte. repeat constructor; lia.
Qed.

(** The checksum of the sample descriptor is 16 bits wide and changes when
    the first byte of the descriptor, first byte of the UUID, or the low
    byte of the group number is changed. *)
Lemma ext4_group_desc_csum_input_range_witness :
  gdt_csum_enabled Linux.sample_sbi = true /\
  0 <= ext4_group_desc_csum Linux.sample_sbi 0 Linux.sample_desc < 2 ^ 16 /\
  ext4_group_desc_csum Linux.sample_sbi 0 (<[0%nat := 7]> Linux.sample_desc)
  <> ext4_group_desc_csum Linux.sample_sbi 0 Linux.sample_desc /\
  ext4_group_desc_csum Linux.sample_sbi 1 Linux.sample_desc
  <> ext4_group_desc_csum Linux.sample_sbi 0 Linux.sample_desc.
Proof.
  destruct (ext4_group_desc_csum_input_range Linux.sample_sbi 0 Linux.sample_desc
              lib_crc16_is_checksum eq_refl ltac:(simpl; lia)
              sample_uuid_bytes sample_desc_bytes)
    as (Hrange & _ & Hdesc & _ & Hgroup).
  split; [reflexivity |]. split; [exact Hrange |]. split.
  - apply (Hdesc 0 7); [reflexivity | vm_compute; lia | unfold is_byte; lia |].
    vm_compute. discriminate.
  - apply Hgroup. exists [], 0, 1, [0; 0; 0]. repeat split. discriminate.
Defined.

(** One descriptor, its stored checksum off by one bit: verification fails
    on the writable mount and passes, with the warning logged, on the
    read-only one. *)
Lemma ext4_check_descriptors_checksum_witness :
  retval (ext4_check_descriptors
            (Linux.sample_kernel_of (Linux.sample_sbi_with [Linux.sample_desc_bad]) 0))
  = Some (0, None) /\
  fst <$> retval (ext4_check_descriptors
            (Linux.sample_kernel_of (Linux.sample_sbi_with [Linux.sample_desc_bad]) 1))
  = Some 1.
Proof.
  assert (forall flags,
            let k := Linux.sample_kernel_of
                       (Linux.sample_sbi_with [Linux.sample_desc_bad]) flags in
            (0 <= s_groups_count (k_sbi k) < 2 ^ 32) /\
            (forall i, 0 <= i < s_groups_count (k_sbi k) ->
                       desc_locations_in_range k i) /\
            (exists i, 0 <= i < s_groups_count (k_sbi k) /\
                       desc_checksum_mismatch k i)) as Hyp.
  { intros flags k. split; [simpl; lia |]. split.
    - intros i Hi. simpl in Hi. assert (i = 0) as -> by lia.
      vm_compute. repeat split; discriminate.
    - exists 0. split; [simpl; lia |]. split; [reflexivity |].
      vm_compute. discriminate. }
  split.
  - destruct (Hyp 0) as (Hgc & Hrange & Hbad).
    destruct (ext4_check_descriptors_checksum _ Hgc Hrange) as (Hrw & _ & _).
    refine (Hrw Hbad _). intros Hro. apply Hro. reflexivity.
  - destruct (Hyp 1) as (Hgc & Hrange & Hbad).
    destruct (ext4_check_descriptors_checksum _ Hgc Hrange) as (_ & Hro & _).
    refine (proj1 (Hro _)). vm_compute. discriminate.
Defined.

(** The guarded commit on the read-write sample volume at time 5000: the
    write time and the free counts are refreshed and the record is written
    at once. *)
Example ext4_commit_super_sample :
  let r := ext4_commit_super 1 Linux.sample_kernel in
  retval r = Some 0 /\
  s_wtime (k_es (final r)) = 5000 /\
  s_free_blocks_count_lo (k_es (final r)) = 8000 /\
  k_trace (final r) = [EvMarkDirty (k_es (final r)); EvSyncWrite (k_es (final r))].
Proof. vm_compute. repeat split. Qed.

(** The same commit after the device was ejected, and on a volume
    without superblock buffer: nothing is written and nothing changes. *)
Example ext4_commit_super_guard_samples :
  ext4_commit_super 1 Linux.ejected_kernel = Returned 0 Linux.ejected_kernel /\
  ext4_commit_super 1 Linux.unbuffered_kernel = Returned 0 Linux.unbuffered_kernel.
Proof. split; reflexivity. Qed.

(** A fault on the read-only sample volume under the panic policy: no
    panic, flags and abort flag as before. *)
Lemma ext4_handle_error_read_only_witness :
  let k := Linux.policy_kernel EXT4_MOUNT_ERRORS_PANIC MS_RDONLY in
  mounted_read_only k /\
  test_opt k EXT4_MOUNT_ERRORS_PANIC <> 0 /\
  ext4_handle_error k = Returned tt k /\
  panicked (__ext4_error "ext4_lookup" 1044 "deleted inode referenced" k) = false.
Proof.
  intros k.
  assert (mounted_read_only k) as Hro by (vm_compute; discriminate).
  destruct (ext4_handle_error_read_only k Hro) as [Hret Herr].
  split; [exact Hro |]. split; [vm_compute; discriminate |].
  split; [exact Hret |].
  exact (proj1 (Herr "ext4_lookup"%string 1044 "deleted inode referenced"%string)).
Defined.

(** The same fault on the same volume mounted read-write does panic. *)
Example ext4_handle_error_panics_when_writable :
  panicked (__ext4_error "ext4_lookup" 1044 "deleted inode referenced"
              (Linux.policy_kernel EXT4_MOUNT_ERRORS_PANIC 0)) = true.
Proof. vm_compute. reflexivity. Qed.

Lemma sample_orphan_chain_ok state ro flags :
  orphan_chain (k_inodes (Linux.orphaned_kernel state ro flags))
               (s_last_orphan (k_es (Linux.orphaned_kernel state ro flags)))
               Linux.sample_orphan_chain.
Proof.
  repeat (constructor; [discriminate | reflexivity |]). constructor.
Qed.

(** The three sample orphans on the clean, writable sample volume: two
    truncations and one deletion, the head pointer cleared. *)
Lemma ext4_orphan_cleanup_converges_witness :
  let k := Linux.orphaned_kernel EXT4_VALID_FS false 0 in
  exists k',
    ext4_orphan_cleanup 3 k = Returned (Some (1, 2)) k' /\
    s_last_orphan (k_es k') = 0 /\
    k_trace k' = [EvTruncate 12 4096; EvDelete 17; EvTruncate 23 100].
Proof.
  intros k.
  assert (bdev_read_only k = false) as Hdev by reflexivity.
  assert (retval (ext4_feature_set_ok 0 k) = Some 1) as Hfeat by reflexivity.
  assert (Z.land (s_mount_state (k_sbi k)) EXT4_ERROR_FS = 0) as Hclean
    by reflexivity.
  destruct (ext4_orphan_cleanup_converges k Linux.sample_orphan_chain 3
              (sample_orphan_chain_ok _ _ _) Hdev Hfeat Hclean
              ltac:(simpl; lia))
    as (no & nt & k' & Hrun & Hhead & Htrace & _ & Hnt & Hno).
  exists k'. rewrite Hrun, Hnt, Hno. repeat split; assumption.
Defined.

(** C9, the claim as written fails.  With the error flag in the mount
    state and a device that refuses writes, cleanup leaves the head
    pointer at inode 12. *)
Lemma ext4_orphan_cleanup_error_flag_counterexample :
  let k := Linux.orphaned_kernel (Z.lor EXT4_VALID_FS EXT4_ERROR_FS) true 0 in
  Z.land (s_mount_state (k_sbi k)) EXT4_ERROR_FS = EXT4_ERROR_FS /\
  EXT4_ERROR_FS = 2 /\
  s_last_orphan (k_es k) = 12 /\
  s_last_orphan (k_es (final (ext4_orphan_cleanup 3 k))) = 12.
Proof. vm_compute. repeat split. Qed.

(** With the error flag and a device that accepts writes, the head pointer
    is cleared and nothing is truncated or deleted. *)
Lemma ext4_orphan_cleanup_error_flag_witness :
  let k := Linux.orphaned_kernel (Z.lor EXT4_VALID_FS EXT4_ERROR_FS) false 0 in
  Z.land (s_mount_state (k_sbi k)) EXT4_ERROR_FS <> 0 /\
  retval (ext4_orphan_cleanup 3 k) = Some (Some (0, 0)) /\
  k_trace (final (ext4_orphan_cleanup 3 k)) = [] /\
  s_last_orphan (k_es (final (ext4_orphan_cleanup 3 k))) = 0.
Proof.
  intros k.
  assert (Z.land (s_mount_state (k_sbi k)) EXT4_ERROR_FS <> 0) as Herr
    by (vm_compute; discriminate).
  destruct (ext4_orphan_cleanup_error_flag k 3 Herr)
    as (Hret & Htrace & _ & _ & Hzero & _).
  split; [exact Herr |]. split; [exact Hret |]. split; [exact Htrace |].
  apply Hzero; reflexivity.
Defined.

(** C5, the claim as written fails.  The sample volume with revision
    level 2, one above the supported revision 1, is not refused: the mount
    goes on, with the read-only flag set. *)
Lemma ext4_setup_super_rev_counterexample :
  le32_to_cpu (s_rev_level (k_es Linux.future_rev_kernel)) = 2 /\
  EXT4_MAX_SUPP_REV = 1 /\
  retval (ext4_fill_super_setup_super Linux.future_rev_kernel) = Some Continue /\
  s_flags (k_sb (final (ext4_fill_super_setup_super Linux.future_rev_kernel)))
  = MS_RDONLY.
Proof. vm_compute. repeat split. Qed.

Lemma ext4_setup_super_rev_too_high_witness :
  MS_RDONLY <> 0 /\
  le32_to_cpu (s_rev_level (k_es Linux.future_rev_kernel)) > u32 EXT4_MAX_SUPP_REV /\
  retval (ext4_setup_super 0 Linux.future_rev_kernel) = Some MS_RDONLY /\
  exists k',
    ext4_fill_super_setup_super Linux.future_rev_kernel = Returned Continue k' /\
    mounted_read_only k'.
Proof.
  assert (MS_RDONLY <> 0) as Hro by (vm_compute; discriminate).
  assert (le32_to_cpu (s_rev_level (k_es Linux.future_rev_kernel))
          > u32 EXT4_MAX_SUPP_REV) as Hrev by reflexivity.
  destruct (ext4_setup_super_rev_too_high Linux.future_rev_kernel Hro Hrev)
    as (Hret & k' & Hrun & _ & Hmro & _).
  split; [exact Hro |]. split; [exact Hrev |]. split; [apply Hret |].
  exists k'. split; assumption.
Defined.

(** C4, the claim as written fails.  The sample volume is mounted
    read-only with three orphans pending.  Remounting it read-write with
    [stripe=8] is refused with [-EINVAL], yet the stripe, 0 before, is 8
    afterwards; remounting it with [abort] is refused with [-EROFS], yet
    the abort flag, clear before, is set afterwards. *)
Lemma ext4_remount_not_restored_counterexample :
  let k := Linux.orphaned_kernel EXT4_VALID_FS false MS_RDONLY in
  let r1 := ext4_remount 0 (Some Linux.stripe_option) k in
  let r2 := ext4_remount 0 (Some Linux.abort_option) k in
  Z.land (s_flags (k_sb k)) MS_RDONLY = MS_RDONLY /\
  s_last_orphan (k_es k) = 12 /\
  retval r1 = Some (- EINVAL) /\
  s_stripe (k_sbi k) = 0 /\
  s_stripe (k_sbi (final r1)) = 8 /\
  retval r2 = Some (- EROFS) /\
  s_mount_flags (k_sbi k) = 0 /\
  s_mount_flags (k_sbi (final r2)) = EXT4_MF_FS_ABORTED.
Proof. vm_compute. repeat split. Qed.

Lemma ext4_remount_orphan_chain_witness :
  let k := Linux.orphaned_kernel EXT4_VALID_FS false MS_RDONLY in
  mounted_read_only k /\
  s_last_orphan (k_es k) <> 0 /\
  remount_refused k (ext4_remount 0 (Some Linux.stripe_option) k).
Proof.
  intros k.
  assert (mounted_read_only k) as Hro by (vm_compute; discriminate).
  assert (s_last_orphan (k_es k) <> 0) as Horphan by (vm_compute; discriminate).
  split; [exact Hro |]. split; [exact Horphan |].
  apply ext4_remount_orphan_chain; [reflexivity | reflexivity | exact Hro | | exact Horphan].
  reflexivity.
Defined.

End OnLinux.

(** ** Further instances on the sample volumes *)

Section MoreOnLinux.
#[local] Existing Instance Linux.headers.
#[local] Existing Instance Linux.collaborators.
#[local] Existing Instance Linux.remount_collaborators.
#[local] Existing Instance Samples.limits.
#[local] Existing Instance Samples.ioprio_headers.

(** The sample volume passes the feature gate for a writable mount, so
    it passes it for a read-only one. *)
Lemma ext4_feature_set_ok_read_write_implies_any_witness :
  retval (ext4_feature_set_ok 0 Linux.sample_kernel) = Some 1 /\
  ext4_feature_set_ok 1 Linux.sample_kernel = Returned 1 Linux.sample_kernel.
Proof.
  assert (retval (ext4_feature_set_ok 0 Linux.sample_kernel) = Some 1) as Hrw
    by reflexivity.
  split; [exact Hrw |].
  exact (ext4_feature_set_ok_read_write_implies_any Linux.sample_kernel 1 Hrw).
Defined.

(** A block bitmap at block 9000 of a volume of 8192 blocks fails the
    descriptor check. *)
Lemma ext4_check_descriptors_location_witness :
  ~ desc_locations_in_range Samples.stray_kernel 0 /\
  retval (ext4_check_descriptors Samples.stray_kernel) = Some (0, None).
Proof.
  assert (~ desc_locations_in_range Samples.stray_kernel 0) as Hbad.
  { intros ((_ & Hlast) & _). vm_compute in Hlast. apply Hlast. reflexivity. }
  split; [exact Hbad |].
  refine (ext4_check_descriptors_location Samples.stray_kernel _ _).
  - simpl. lia.
  - exists 0. split; [simpl; lia | exact Hbad].
Defined.

(** The one group of the sample volume has its inode table zeroed: the
    check reports group 1, the group count. *)
Lemma ext4_check_descriptors_first_not_zeroed_witness :
  retval (ext4_check_descriptors Linux.sample_kernel) = Some (1, Some 1) /\
  first_not_zeroed Linux.sample_kernel 1.
Proof.
  assert (retval (ext4_check_descriptors Linux.sample_kernel) = Some (1, Some 1))
    as Hrun by (vm_compute; reflexivity).
  split; [exact Hrun |].
  refine (ext4_check_descriptors_first_not_zeroed Linux.sample_kernel 1 _ Hrun).
  simpl. lia.
Defined.

(** A read-only mount of the sample volume leaves it as it is, log apart. *)
Lemma ext4_setup_super_read_only_witness :
  1 <> 0 /\
  retval (ext4_setup_super 1 Linux.sample_kernel) = Some 0 /\
  final (ext4_setup_super 1 Linux.sample_kernel)
  = Linux.sample_kernel
      <| k_log := k_log (final (ext4_setup_super 1 Linux.sample_kernel)) |>.
Proof.
  assert (1 <> 0) as Hro by discriminate.
  destruct (ext4_setup_super_read_only Linux.sample_kernel 1 Hro) as [Hret Hfinal].
  split; [exact Hro |]. split; [exact Hret | exact Hfinal].
Defined.

(** The old-revision sample volume is brought to the dynamic revision
    once. *)
Lemma ext4_update_dynamic_rev_idempotent_witness :
  let k' := final (ext4_update_dynamic_rev Samples.old_rev_kernel) in
  le32_to_cpu (s_rev_level (k_es k')) > u32 EXT4_GOOD_OLD_REV /\
  ext4_update_dynamic_rev k' = Returned tt k'.
Proof.
  intros k'.
  assert (u32 EXT4_GOOD_OLD_REV < u32 EXT4_DYNAMIC_REV) as Hrev by reflexivity.
  destruct (ext4_update_dynamic_rev_idempotent Samples.old_rev_kernel Hrev)
    as (_ & Hnew & Hagain).
  split; [exact Hnew | exact Hagain].
Defined.


(** Cleanup of the three sample orphans on the read-only mount ends with
    the mount read-only again. *)
Lemma ext4_orphan_cleanup_restores_flags_witness :
  let k := Linux.orphaned_kernel EXT4_VALID_FS false MS_RDONLY in
  exists counts k',
    ext4_orphan_cleanup 3 k = Returned (Some counts) k' /\
    s_flags (k_sb k') = MS_RDONLY.
Proof.
  intros k.
  destruct (ext4_orphan_cleanup_restores_flags k Linux.sample_orphan_chain 3
              (sample_orphan_chain_ok _ _ _) ltac:(simpl; lia))
    as (counts & k' & Hrun & Hflags).
  exists counts, k'. split; [exact Hrun | exact Hflags].
Defined.

(** An abort on the writable sample volume: read-only and aborted. *)
Lemma ext4_abort_forces_read_only_witness :
  let r := __ext4_abort "ext4_journal_start_sb" 260 "Detected aborted journal"
             Linux.sample_kernel in
  ~ mounted_read_only Linux.sample_kernel /\
  mounted_read_only (final r) /\
  Z.land (s_mount_flags (k_sbi (final r))) EXT4_MF_FS_ABORTED = EXT4_MF_FS_ABORTED.
Proof.
  intros r.
  assert (MS_RDONLY <> 0) as Hro by (vm_compute; discriminate).
  assert (~ mounted_read_only Linux.sample_kernel) as Hrw
    by (intros Hm; apply Hm; reflexivity).
  destruct (ext4_abort_forces_read_only Linux.sample_kernel
              "ext4_journal_start_sb"%string 260
              "Detected aborted journal"%string Hro)
    as (Hmro & _ & Habort).
  split; [exact Hrw |]. split; [exact Hmro | exact (Habort Hrw)].
Defined.

(** Under [errors=remount-ro] the first error remounts the sample volume
    read-only and the second changes no flag. *)
Lemma ext4_error_remount_ro_once_witness :
  let k := Linux.policy_kernel EXT4_MOUNT_ERRORS_RO 0 in
  exists k1 k2,
    __ext4_error "ext4_lookup" 1044 "deleted inode referenced" k = Returned tt k1 /\
    mounted_read_only k1 /\
    __ext4_error "ext4_lookup" 1044 "deleted inode referenced" k1 = Returned tt k2 /\
    s_flags (k_sb k2) = s_flags (k_sb k1).
Proof.
  intros k.
  assert (MS_RDONLY <> 0) as Hro by (vm_compute; discriminate).
  assert (test_opt k EXT4_MOUNT_ERRORS_RO <> 0) as Hpol by (vm_compute; discriminate).
  assert (test_opt k EXT4_MOUNT_ERRORS_PANIC = 0) as Hnp by reflexivity.
  destruct (ext4_error_remount_ro_once k "ext4_lookup"%string 1044
              "deleted inode referenced"%string Hro Hpol Hnp)
    as (k1 & Hrun1 & Hmro & Hnext).
  destruct (Hnext "ext4_lookup"%string 1044 "deleted inode referenced"%string)
    as (k2 & Hrun2 & Hflags & _).
  exists k1, k2. repeat split; assumption.
Defined.

(** After an error is recorded on the orphaned sample volume, cleanup
    processes none of the three orphans. *)
Lemma ext4_orphan_cleanup_after_error_witness :
  let k := Linux.orphaned_kernel EXT4_VALID_FS false 0 in
  let k1 := final (save_error_info "ext4_lookup" 1044 k) in
  retval (ext4_orphan_cleanup 3 k1) = Some (Some (0, 0)) /\
  k_inodes (final (ext4_orphan_cleanup 3 k1)) = k_inodes k.
Proof.
  intros k k1.
  assert (0 < EXT4_ERROR_FS < 2 ^ 16) as Hflag by (vm_compute; split; reflexivity).
  destruct (ext4_orphan_cleanup_after_error k "ext4_lookup"%string 1044 3 Hflag)
    as (_ & Hret & _ & Hinodes).
  split; [exact Hret | exact Hinodes].
Defined.

(** With inode 17 gone, cleanup truncates inode 12, stops, and clears
    the head. *)
Lemma ext4_orphan_cleanup_unresolvable_witness :
  exists k',
    ext4_orphan_cleanup 3 Samples.broken_orphan_kernel
    = Returned (Some (0, 1)) k' /\
    s_last_orphan (k_es k') = 0 /\
    k_trace k' = [EvTruncate 12 4096].
Proof.
  assert (orphan_walk (k_inodes Samples.broken_orphan_kernel)
            (s_last_orphan (k_es Samples.broken_orphan_kernel))
            [(12, {| i_nlink := 1; i_size := 4096; i_next_orphan := 17 |})] 17)
    as Hwalk.
  { apply orphan_walk_link; [discriminate | reflexivity |]. apply orphan_walk_end. }
  assert (17 <> 0) as Hbad by discriminate.
  assert (k_inodes Samples.broken_orphan_kernel !! 17 = None) as Hgone
    by reflexivity.
  assert (bdev_read_only Samples.broken_orphan_kernel = false) as Hdev
    by reflexivity.
  assert (retval (ext4_feature_set_ok 0 Samples.broken_orphan_kernel) = Some 1)
    as Hfeat by reflexivity.
  assert (Z.land (s_mount_state (k_sbi Samples.broken_orphan_kernel)) EXT4_ERROR_FS
          = 0) as Hclean by reflexivity.
  destruct (ext4_orphan_cleanup_unresolvable Samples.broken_orphan_kernel _ 17 3
              Hwalk Hbad Hgone Hdev Hfeat Hclean ltac:(simpl; lia))
    as (k' & Hrun & Hhead & Htrace).
  exists k'. split; [exact Hrun |]. split; [exact Hhead | exact Htrace].
Defined.

(** [errors=remount-ro] on the sample volume, mounted with
    [errors=continue]: the policy bits become the remount-ro bit. *)
Lemma handle_mount_opt_error_policy_witness :
  exists k',
    handle_mount_opt "errors=remount-ro" Opt_err_ro NoArg 0 0 Linux.sample_kernel
    = Returned (1, 0) k' /\
    test_opt k' EXT4_MOUNT_ERRORS_MASK = EXT4_MOUNT_ERRORS_RO.
Proof.
  destruct (handle_mount_opt_error_policy Linux.sample_kernel
              "errors=remount-ro"%string Opt_err_ro EXT4_MOUNT_ERRORS_RO 0 0
              ltac:(reflexivity) ltac:(reflexivity))
    as (k' & Hrun & Hpol & _).
  exists k'. split; [exact Hrun | exact Hpol].
Defined.

(** [inode_readahead_blks=64] is taken, [inode_readahead_blks=48] is
    refused. *)
Lemma handle_mount_opt_inode_readahead_blks_witness :
  s_inode_readahead_blks
    (k_sbi (final (handle_mount_opt "inode_readahead_blks=64"
                     Opt_inode_readahead_blks (IntArg 64) 0 0 Linux.sample_kernel)))
  = 64 /\
  retval (handle_mount_opt "inode_readahead_blks=48"
            Opt_inode_readahead_blks (IntArg 48) 0 0 Linux.sample_kernel)
  = Some (-1, 0).
Proof.
  split.
  - destruct (handle_mount_opt_inode_readahead_blks Linux.sample_kernel
                "inode_readahead_blks=64"%string 64 0 0 ltac:(lia))
      as [Hyes _].
    refine (proj2 (Hyes _)). right. exists 6. split; [lia | reflexivity].
  - destruct (handle_mount_opt_inode_readahead_blks Linux.sample_kernel
                "inode_readahead_blks=48"%string 48 0 0 ltac:(lia))
      as [_ Hno].
    refine (proj1 (Hno _)). intros [H0 | (e & He & Hv)]; [discriminate |].
    assert (e <= 5 \/ 6 <= e) as [Hlow | Hhigh] by lia.
    + assert (e = 0 \/ e = 1 \/ e = 2 \/ e = 3 \/ e = 4 \/ e = 5) as Hcases by lia.
      repeat (destruct Hcases as [-> | Hcases]; [discriminate |]).
      subst e. discriminate.
    + assert (2 ^ 6 <= 2 ^ e) by (apply Z.pow_le_mono_r; lia). lia.
Defined.

(** Options after a refused one are not looked at. *)
Lemma parse_options_loop_stops_witness :
  parse_options_loop (Samples.bad_readahead_option ++ Linux.stripe_option) 0 0
    Linux.sample_kernel
  = parse_options_loop Samples.bad_readahead_option 0 0 Linux.sample_kernel.
Proof.
  refine (parse_options_loop_stops Samples.bad_readahead_option
            Linux.stripe_option 0 0 Linux.sample_kernel _).
  vm_compute. reflexivity.
Defined.

(** A remount of the sample volume with [journal_dev=2049] is refused. *)
Lemma ext4_remount_journal_dev_witness :
  exists k',
    ext4_remount 0 (Some Samples.journal_dev_option) Linux.sample_kernel
    = Returned (- EINVAL) k' /\
    remount_snapshot k' = remount_snapshot Linux.sample_kernel.
Proof.
  refine (ext4_remount_journal_dev Linux.sample_kernel 0
            Samples.journal_dev_option _).
  eexists. split; [left; reflexivity | reflexivity].
Defined.

Lemma wide_desc_layout : desc_layout Samples.wide_kernel Samples.wide_desc.
Proof.
  split.
  - repeat constructor; vm_compute; discriminate.
  - assert (address_fields Samples.wide_kernel = [0; 4; 8; 32; 36; 40]) as ->
      by reflexivity.
    intros i j o o' Hi Hj Hne.
    do 7 (try (destruct i as [| i]; [| try (simpl in Hi; discriminate Hi)])).
    all: do 7 (try (destruct j as [| j]; [| try (simpl in Hj; discriminate Hj)])).
    all: try congruence.
    all: injection Hi as <-; injection Hj as <-; unfold fields_apart.
    all: first [left; discriminate | right; discriminate].
Qed.

(** Block 2^40 + 7 stored as the inode table of a 64-byte descriptor is
    read back whole, and the bitmaps stay at blocks 3 and 4. *)
Lemma ext4_block_address_set_get_witness :
  let bg := ext4_inode_table_set Samples.wide_kernel Samples.wide_desc (2 ^ 40 + 7) in
  ext4_inode_table Samples.wide_kernel bg = 2 ^ 40 + 7 /\
  ext4_block_bitmap Samples.wide_kernel bg = 3 /\
  ext4_inode_bitmap Samples.wide_kernel bg = 4.
Proof.
  intros bg.
  destruct (ext4_block_address_set_get Samples.wide_kernel Samples.wide_desc
              (2 ^ 40 + 7) wide_desc_layout ltac:(lia))
    as (_ & _ & Htable & Hblock & Hinode).
  split; [exact Htable |]. split; [exact Hblock | exact Hinode].
Defined.

(** 4 KiB blocks without huge files: an extent-mapped file ends below
    2^32 sectors. *)
Lemma ext4_max_size_fits_witness :
  0 <= ext4_max_size 12 0 <= (2 ^ 32 - 1) * 2 ^ 12 /\
  ext4_max_size 12 0 ≫ 9 <= 2 ^ 32 - 1.
Proof.
  assert (9 <= 12 <= 30) as Hbits by lia.
  assert (0 <= MAX_LFS_FILESIZE) as Hlfs by (vm_compute; discriminate).
  destruct (ext4_max_size_fits 12 0 Hbits Hlfs) as (Hrange & _ & Hnarrow).
  split; [exact Hrange |]. refine (proj1 (Hnarrow _)). reflexivity.
Defined.

(** 4 KiB blocks without huge files: a block-mapped file is positive and
    within the VFS limit. *)
Lemma ext4_max_bitmap_size_fits_witness :
  0 < ext4_max_bitmap_size 12 0 <= MAX_LFS_FILESIZE.
Proof.
  assert (10 <= 12 <= 14) as Hbits by lia.
  assert (0 <= EXT4_NDIR_BLOCKS < 2 ^ 16) as Hndir
    by (vm_compute; split; [discriminate | reflexivity]).
  assert (0 < MAX_LFS_FILESIZE) as Hlfs by reflexivity.
  destruct (ext4_max_bitmap_size_fits 12 0 Hbits Hndir Hlfs) as (Hrange & _).
  exact Hrange.
Defined.

(** 32 KiB blocks without huge files: the block limit has gone below
    zero, and read as unsigned it is cut to [MAX_LFS_FILESIZE]. *)
Example ext4_max_bitmap_size_sample :
  ext4_max_bitmap_size 15 0 = MAX_LFS_FILESIZE.
Proof. vm_compute. reflexivity. Qed.

(** A stripe of 16 blocks given at mount wins over the RAID fields. *)
Lemma ext4_get_stripe_size_fits_witness :
  ext4_get_stripe_size (Linux.sample_sbi <| s_stripe := 16 |>) 8 32 = 16.
Proof.
  assert (32 <= BITS_PER_LONG) as Hlong by (vm_compute; discriminate).
  assert (0 <= s_blocks_per_group (Linux.sample_sbi <| s_stripe := 16 |>) < 2 ^ 31)
    as Hgroup by (vm_compute; split; [discriminate | reflexivity]).
  assert (0 <= s_stripe (Linux.sample_sbi <| s_stripe := 16 |>)) as Hstripe
    by (vm_compute; discriminate).
  destruct (ext4_get_stripe_size_fits (Linux.sample_sbi <| s_stripe := 16 |>) 8 32
              Hlong Hgroup Hstripe)
    as (_ & Hmount).
  apply Hmount. vm_compute. split; discriminate.
Defined.

(** [errors=continue] given to the volume mounted with
    [errors=remount-ro]: an error afterwards leaves it writable. *)
Lemma ext4_error_under_continue_witness :
  let k := Linux.policy_kernel EXT4_MOUNT_ERRORS_RO 0 in
  exists k1 k2,
    handle_mount_opt "errors=continue" Opt_err_cont NoArg 0 1 k
    = Returned (1, 0) k1 /\
    __ext4_error "ext4_lookup" 1044 "deleted inode referenced" k1
    = Returned tt k2 /\
    s_flags (k_sb k2) = 0.
Proof.
  intros k.
  assert (continue_policy_distinct) as Hpol
    by (vm_compute; repeat split; discriminate).
  destruct (ext4_error_under_continue k "errors=continue"%string 0 1
              "ext4_lookup"%string 1044 "deleted inode referenced"%string Hpol)
    as (k1 & k2 & Hrun1 & Hrun2 & Hflags & _).
  exists k1, k2. split; [exact Hrun1 |]. split; [exact Hrun2 | exact Hflags].
Defined.

(** Best-effort level 2 and idle level 0: the best-effort one is the
    better, whichever comes first; an unset priority counts as
    best-effort level 4. *)
Example ioprio_best_sample :
  ioprio_best (Z.lor (2 ≪ 13) 2) (3 ≪ 13) = Z.lor (2 ≪ 13) 2 /\
  ioprio_best (3 ≪ 13) (Z.lor (2 ≪ 13) 2) = Z.lor (2 ≪ 13) 2 /\
  ioprio_best 0 (Z.lor (2 ≪ 13) 6) = Z.lor (2 ≪ 13) 4.
Proof. vm_compute. repeat split. Qed.

End MoreOnLinux.
